(** * GTFS Dashboard: the aggregation engine of [app.py]

    A shallow embedding of the time codec, the system-wide KPIs, the
    departure board, the route queries, the path builder and the route
    attribute edit of [src/app.py], with the properties the specification
    states about them; and of the loader, the table views, the upload
    checks, the rows built for the archive and the stop sequence edit, with
    properties read off the code.

    Conventions of the embedding.
    - A row returned by [load_csv] is a Python dict from column names to
      values that are either a [str] or [None] (a short CSV line): a
      [gmap string (option string)].
    - Dicts that the code iterates over ([defaultdict(list)], [trip_paths],
      [trip_times]) are association lists in insertion order.
    - [try/except] blocks are written in the option monad where the handler
      returns [None], and with an explicit error type where the handler
      returns an HTTP error.
    - Text is ASCII: [int], [float] and [str.strip] are modelled on bytes
      below 128; a byte above 127 is neither a digit nor white space.
    - Parsed coordinates and the two averages of [get_kpis] are binary64
      values ([spec_float] with 53 bits of precision), the averages with
      the rounding of their quotients and of [round(_, 2)]; the averages of
      the route detail bundle are exact rationals, their binary rounding and
      [round(_, 2)] are not modelled.
    - The order in which Python iterates over a [set] of strings is a
      parameter of the functions that depend on it.

    The definitions come first: the embedding of the code, then the
    specification's own notions and the example data; the lemmas and
    theorems follow. *)

From Stdlib Require Import ZArith QArith Lia List Ascii String.
From Stdlib Require Import Sorting.Permutation Sorting.Sorted.
From Stdlib Require Import Floats.SpecFloat.
From Stdlib Require DecimalString DecimalPos.
From stdpp Require Import base option list sorting gmap strings.

Open Scope string_scope.
Open Scope list_scope.
Open Scope Z_scope.

(* ===================================================================== *)
(** * Python primitives *)
(* ===================================================================== *)

Module Py.

(** A dict value read from CSV: [None] or a [str]. *)
Abbreviation val := (option string).

(** Truth value of a [str]-or-[None]: [None] and [''] are falsy. *)
Definition truthy (v : val) : bool :=
  match v with
  | Some s => negb (String.eqb s "")
  | None => false
  end.

Definition code (c : ascii) : nat := nat_of_ascii c.

(** White space of C's [isspace], used by [int] and [float] on ASCII. *)
Definition is_space_c (c : ascii) : bool :=
  Nat.eqb (code c) 32 || (Nat.leb 9 (code c) && Nat.leb (code c) 13).

(** White space of [str.strip]: C white space and the separators
    FS, GS, RS, US. *)
Definition is_space (c : ascii) : bool :=
  is_space_c c || (Nat.leb 28 (code c) && Nat.leb (code c) 31).

Definition is_digit (c : ascii) : bool :=
  Nat.leb 48 (code c) && Nat.leb (code c) 57.

Definition digit_val (c : ascii) : option Z :=
  if is_digit c then Some (Z.of_nat (code c) - 48) else None.

Fixpoint drop_while (p : ascii -> bool) (l : list ascii) : list ascii :=
  match l with
  | [] => []
  | c :: l' => if p c then drop_while p l' else l
  end.

Definition strip_with (p : ascii -> bool) (l : list ascii) : list ascii :=
  rev (drop_while p (rev (drop_while p l))).

(** [s.strip()] *)
Definition strip (s : string) : string :=
  string_of_list_ascii (strip_with is_space (list_ascii_of_string s)).

(** [s.split(sep)] for a one-character separator: never empty. *)
Fixpoint split (sep : ascii) (s : string) : list string :=
  match s with
  | EmptyString => [EmptyString]
  | String c s' =>
      if Ascii.eqb c sep then EmptyString :: split sep s'
      else match split sep s' with
           | h :: t => String c h :: t
           | [] => [String c EmptyString]
           end
  end.

(** Decimal digits with single underscores between digits. *)
Fixpoint int_digits (acc : Z) (l : list ascii) : option Z :=
  match l with
  | [] => Some acc
  | c :: l' =>
      match digit_val c with
      | Some d => int_digits (10 * acc + d) l'
      | None =>
          if Ascii.eqb c "_" then
            match l' with
            | c2 :: _ => if is_digit c2 then int_digits acc l' else None
            | [] => None
            end
          else None
      end
  end.

Definition int_body (l : list ascii) : option Z :=
  match l with
  | c :: _ => if is_digit c then int_digits 0 l else None
  | [] => None
  end.

(** [int(s)] for a [str] in base 10; [None] stands for [ValueError]. *)
Definition int (s : string) : option Z :=
  match strip_with is_space_c (list_ascii_of_string s) with
  | c :: l =>
      if Ascii.eqb c "-" then Z.opp <$> int_body l
      else if Ascii.eqb c "+" then int_body l
      else int_body (c :: l)
  | [] => None
  end.

(** ** [float(s)] on ASCII text, correctly rounded to binary64 *)

Definition prec : Z := 53.
Definition emax : Z := 1024.

(** The binary64 value nearest to [m * 10^e] (ties to even). *)
Definition of_decimal (neg : bool) (m : Z) (e : Z) : spec_float :=
  match m with
  | Zpos p =>
      if Z.leb 0 e then binary_round prec emax neg (Z.to_pos (Zpos p * 10 ^ e)) 0
      else SFdiv prec emax (S754_finite neg p 0)
                           (S754_finite false (Pos.pow 10 (Z.to_pos (- e))) 0)
  | _ => S754_zero neg
  end.

(** [float(n)] for a Python [int]. *)
Definition float_of_int (n : Z) : spec_float :=
  binary_normalize prec emax n 0 false.

Definition lower (c : ascii) : ascii :=
  if Nat.leb 65 (code c) && Nat.leb (code c) 90
  then ascii_of_nat (code c + 32) else c.

Fixpoint span_digits (l : list ascii) : list ascii * list ascii :=
  match l with
  | c :: l' =>
      if is_digit c then let '(ds, r) := span_digits l' in (c :: ds, r)
      else ([], l)
  | [] => ([], [])
  end.

Definition digits_to_Z (ds : list ascii) : Z :=
  fold_left (fun acc c => 10 * acc + (Z.of_nat (code c) - 48)) ds 0.

(** Underscores are dropped when each stands between two digits. *)
Fixpoint remove_underscores (prev : option ascii) (l : list ascii)
  : option (list ascii) :=
  match l with
  | [] =>
      match prev with
      | Some p => if Ascii.eqb p "_" then None else Some []
      | None => Some []
      end
  | c :: l' =>
      if Ascii.eqb c "_" then
        match prev with
        | Some p => if is_digit p then remove_underscores (Some c) l' else None
        | None => None
        end
      else
        match prev with
        | Some p =>
            if Ascii.eqb p "_" && negb (is_digit c) then None
            else cons c <$> remove_underscores (Some c) l'
        | None => cons c <$> remove_underscores (Some c) l'
        end
  end.

Definition is_word (w : string) (l : list ascii) : bool :=
  String.eqb (string_of_list_ascii (map lower l)) w.

Definition float_body (neg : bool) (l : list ascii) : option spec_float :=
  if is_word "inf" l || is_word "infinity" l then Some (S754_infinity neg)
  else if is_word "nan" l then Some S754_nan
  else
    let '(ip, r1) := span_digits l in
    let '(fp, r2) :=
      match r1 with
      | c :: r => if Ascii.eqb c "." then span_digits r else ([], r1)
      | [] => ([], r1)
      end in
    let m := digits_to_Z (ip ++ fp) in
    let scale := - Z.of_nat (List.length fp) in
    match ip ++ fp with
    | [] => None
    | _ :: _ =>
        match r2 with
        | [] => Some (of_decimal neg m scale)
        | c :: r3 =>
            if Ascii.eqb (lower c) "e" then
              let '(eneg, r4) :=
                match r3 with
                | s :: r =>
                    if Ascii.eqb s "-" then (true, r)
                    else if Ascii.eqb s "+" then (false, r)
                    else (false, r3)
                | [] => (false, r3)
                end in
              let '(ep, r5) := span_digits r4 in
              match ep, r5 with
              | _ :: _, [] =>
                  let ex := digits_to_Z ep in
                  Some (of_decimal neg m (scale + (if eneg then - ex else ex)))
              | _, _ => None
              end
            else None
        end
    end.

(** [float(s)] for a [str]; [None] stands for [ValueError]. *)
Definition float (s : string) : option spec_float :=
  l ← remove_underscores None (list_ascii_of_string s);
  match strip_with is_space_c l with
  | c :: r =>
      if Ascii.eqb c "-" then float_body true r
      else if Ascii.eqb c "+" then float_body false r
      else float_body false (c :: r)
  | [] => None
  end.

(** Comparisons of binary64 values as Python writes them. *)
Definition fle (x y : spec_float) : bool := SFleb x y.
Definition fne (x y : spec_float) : bool := negb (SFeqb x y).

End Py.

(* ===================================================================== *)
(** * Time codec *)
(* ===================================================================== *)

(** [parse_time_to_seconds(time_str)]: the [try] block fails with
    [IndexError] when fewer than three parts exist and with [ValueError]
    when [int] rejects one of the first three; the bare [except] turns
    both into [None]. *)
Definition parse_time_to_seconds (time_str : Py.val) : option Z :=
  if negb (Py.truthy time_str) then None
  else
    let parts := Py.split ":" (default "" time_str) in
    hours ← parts !! 0%nat ≫= Py.int;
    minutes ← parts !! 1%nat ≫= Py.int;
    seconds ← parts !! 2%nat ≫= Py.int;
    Some (hours * 3600 + minutes * 60 + seconds).


(* ===================================================================== *)
(** * Data model *)
(* ===================================================================== *)

(** A row of a table, as [load_csv] returns it. *)
Abbreviation row := (gmap string Py.val).

(** [r.get(k)] *)
Definition get (k : string) (r : row) : Py.val := default None (r !! k).

(** [r.get(k, d)] for a [str] default [d] *)
Definition get_or (k : string) (d : string) (r : row) : Py.val :=
  default (Some d) (r !! k).

(** [k in r] *)
Definition has (k : string) (r : row) : bool := bool_decide (is_Some (r !! k)).

(** [a == b] on [str]-or-[None] values *)
Definition val_eqb (a b : Py.val) : bool := bool_decide (a = b).

(** [v.strip() if v else ''] for [v = r.get(k)] *)
Definition stripped (k : string) (r : row) : string :=
  if Py.truthy (get k r) then Py.strip (default "" (get k r)) else "".

(** The four tables of the active data set. [routes_txt] is [None] when
    [routes.txt] does not exist; the other three are [load_csv] results,
    empty when the file is missing. *)
Record dataset := Dataset {
  routes_txt : option (list row);
  trips : list row;
  stops : list row;
  stop_times : list row
}.

Definition routes (d : dataset) : list row := default [] (routes_txt d).

(** What a view function hands back: a JSON body with status 200, an
    error body with its status, or an exception that no handler of the
    function catches. *)
Inductive response (A : Type) : Type :=
  | Ok (body : A)
  | HttpError (status : Z) (error : string)
  | Unhandled.
Arguments Ok {A} body.
Arguments HttpError {A} status error.
Arguments Unhandled {A}.

(* ===================================================================== *)
(** * Dicts in insertion order and stable sorting *)
(* ===================================================================== *)

Section OrderedDict.
Context {K V : Type} `{EqDecision K}.

(** [d.get(k)] on an association list without repeated keys. *)
Fixpoint od_lookup (k : K) (d : list (K * V)) : option V :=
  match d with
  | [] => None
  | (k', v) :: d' => if decide (k = k') then Some v else od_lookup k d'
  end.

(** [d[k] = f(d[k])] on a [defaultdict] whose factory returns [dflt]:
    an existing entry keeps its place, a new one goes to the end. *)
Fixpoint od_alter (f : V -> V) (dflt : V) (k : K) (d : list (K * V))
  : list (K * V) :=
  match d with
  | [] => [(k, f dflt)]
  | (k', v) :: d' =>
      if decide (k = k') then (k', f v) :: d'
      else (k', v) :: od_alter f dflt k d'
  end.
End OrderedDict.

(** [d[k].append(x)] on a [defaultdict(list)], or on a plain dict after
    [if k not in d: d[k] = []]. *)
Definition od_append {K A : Type} `{EqDecision K} (k : K) (x : A)
  (d : list (K * list A)) : list (K * list A) :=
  od_alter (fun l => l ++ [x]) [] k d.

Section Sort.
Context {A K : Type} (leb : K -> K -> bool) (key : A -> K).

(** [x] enters before the first element whose key is not smaller. *)
Fixpoint insert_by (x : A) (l : list A) : list A :=
  match l with
  | [] => [x]
  | y :: l' => if leb (key x) (key y) then x :: l else y :: insert_by x l'
  end.

(** [l.sort(key=key)]: Python's sort is stable, and a stable sort has one
    possible result; insertion from the right computes it. *)
Definition sort_by (l : list A) : list A := foldr insert_by [] l.
End Sort.

(** Ascending by key, for a Boolean order on the keys. *)
Definition key_le {A K : Type} (leb : K -> K -> bool) (key : A -> K)
  : relation A :=
  fun a b => leb (key a) (key b) = true.

(** [sum(l)] for a list of [int]s. *)
Definition sum_Z (l : list Z) : Z := fold_left Z.add l 0.

(** [x / 60] in the route detail bundle, as an exact rational. *)
Definition minutes (q : Q) : Q := Qred (q / Qmake 60 1).

(* ===================================================================== *)
(** * System-wide KPIs: [get_kpis] *)
(* ===================================================================== *)

(** [{trip['trip_id']: trip['route_id'] for trip in trips_data
      if 'trip_id' in trip and 'route_id' in trip}] *)
Definition trip_to_route (trips_data : list row) : gmap Py.val Py.val :=
  fold_left
    (fun m trip =>
       if has "trip_id" trip && has "route_id" trip
       then <[get "trip_id" trip := get "route_id" trip]> m
       else m)
    trips_data ∅.

Record dep_entry := DepEntry {
  de_trip_id : Py.val;
  departure_sec : Z;
  de_route_id : Py.val
}.

(** One iteration of the first loop over [stop_times] (KPI C). *)
Definition route_stop_times_step (t2r : gmap Py.val Py.val)
  (acc : list ((Py.val * Py.val) * list dep_entry)) (st : row)
  : list ((Py.val * Py.val) * list dep_entry) :=
  if has "stop_id" st && has "trip_id" st then
    match t2r !! get "trip_id" st with
    | Some route_id =>
        match parse_time_to_seconds (get_or "departure_time" "" st) with
        | Some dep_sec =>
            od_append (route_id, get "stop_id" st)
              (DepEntry (get "trip_id" st) dep_sec route_id) acc
        | None => acc
        end
    | None => acc
    end
  else acc.

Definition route_stop_times (d : dataset)
  : list ((Py.val * Py.val) * list dep_entry) :=
  fold_left (route_stop_times_step (trip_to_route (trips d))) (stop_times d) [].

(** [for i in range(1, len(times))]: the positive gaps between
    neighbours. *)
Fixpoint positive_gaps (times : list Z) : list Z :=
  match times with
  | a :: (b :: _) as rest =>
      let headway := b - a in
      if Z.ltb 0 headway then headway :: positive_gaps rest
      else positive_gaps rest
  | _ => []
  end.

(** The body of the loop over [route_stop_times.items()]. *)
Definition group_headways (times : list dep_entry) : list Z :=
  positive_gaps (map departure_sec (sort_by Z.leb departure_sec times)).

Definition kpi_headways (d : dataset) : list Z :=
  flat_map (fun '(_, times) => group_headways times) (route_stop_times d).

(** [trip_times[trip_id]]: smallest and largest time seen so far. *)
Record span := Span { first : option Z; last : option Z }.

Definition no_span : span := Span None None.

(** The two [if]s that fold one time [x] into a span. *)
Definition widen (x : Z) (t : span) : span :=
  let t1 :=
    match first t with
    | None => Span (Some x) (last t)
    | Some f => if Z.ltb x f then Span (Some x) (last t) else t
    end in
  match last t1 with
  | None => Span (first t1) (Some x)
  | Some l => if Z.gtb x l then Span (first t1) (Some x) else t1
  end.

(** One iteration of the second loop over [stop_times] (KPI D). *)
Definition trip_times_step (acc : list (Py.val * span)) (st : row)
  : list (Py.val * span) :=
  let trip_id := get "trip_id" st in
  if negb (Py.truthy trip_id) then acc
  else
    let arr_sec := parse_time_to_seconds (get_or "arrival_time" "" st) in
    let dep_sec := parse_time_to_seconds (get_or "departure_time" "" st) in
    let acc1 :=
      match arr_sec with
      | Some a => od_alter (widen a) no_span trip_id acc
      | None => acc
      end in
    match dep_sec with
    | Some x => od_alter (widen x) no_span trip_id acc1
    | None => acc1
    end.

Definition trip_times (d : dataset) : list (Py.val * span) :=
  fold_left trip_times_step (stop_times d) [].

Definition span_duration (t : span) : option Z :=
  match first t, last t with
  | Some f, Some l =>
      let duration := l - f in
      if Z.ltb 0 duration then Some duration else None
  | _, _ => None
  end.

Definition trip_durations (d : dataset) : list Z :=
  omap (fun '(_, t) => span_duration t) (trip_times d).

(** [len(set(...))] *)
Definition count_distinct (l : list string) : nat :=
  List.length (remove_dups l).

(** A JSON number or [null]. *)
Inductive json_number :=
  | JNull
  | JNum (q : Q).

(** A number of the KPI answer as JSON has it: [null], an [int] or a
    [float]. *)
Inductive number :=
  | NNull
  | NInt (n : Z)
  | NFloat (x : spec_float).

Record kpis := Kpis {
  total_routes : nat;
  total_trips : nat;
  avg_headway_minutes : number;
  avg_trip_duration_minutes : number;
  total_stops : nat;
  kpi_error : option string
}.

(** [a / b] for two [int]s: the binary64 value nearest to the quotient;
    [None] stands for [OverflowError] (the quotient is beyond binary64) and
    for [ZeroDivisionError]. *)
Definition true_divide (a b : Z) : option spec_float :=
  match a, b with
  | _, Z0 => None
  | Z0, _ => Some (S754_zero (Z.ltb b 0))
  | _, _ =>
      match SFdiv Py.prec Py.emax
              (S754_finite (Z.ltb a 0) (Z.to_pos (Z.abs a)) 0)
              (S754_finite (Z.ltb b 0) (Z.to_pos (Z.abs b)) 0) with
      | S754_infinity _ => None
      | x => Some x
      end
  end.

(** [x / n] for a [float] and a non-zero [int] that binary64 holds
    exactly. *)
Definition float_div (x : spec_float) (n : Z) : spec_float :=
  SFdiv Py.prec Py.emax x (Py.float_of_int n).

(** The integer nearest to [n / d] for [d > 0], the even one at a tie. *)
Definition round_half_even (n d : Z) : Z :=
  let q := n / d in
  let r := n mod d in
  match Z.compare (2 * r) d with
  | Lt => q
  | Gt => q + 1
  | Eq => if Z.even q then q else q + 1
  end.

(** [round(x, 2)]: the decimal with two places nearest to the exact value
    of [x] (the even one at a tie), then the binary64 value nearest to that
    decimal. *)
Definition round2 (x : spec_float) : spec_float :=
  match x with
  | S754_finite s m e =>
      let hundredths :=
        if Z.leb 0 e then Zpos m * 2 ^ e * 100
        else round_half_even (Zpos m * 100) (2 ^ (- e)) in
      Py.of_decimal s hundredths (-2)
  | _ => x
  end.

(** [sum(l) / len(l) if l else 0], then [/ 60], then [round(_, 2)] as
    the result dict has it; [None] stands for the [OverflowError] of the
    first quotient. *)
Definition kpi_average_minutes (l : list Z) : option spec_float :=
  avg_min ←
    match l with
    | [] => true_divide 0 60
    | _ :: _ =>
        avg_sec ← true_divide (sum_Z l) (Z.of_nat (List.length l));
        Some (float_div avg_sec 60)
    end;
  Some (round2 avg_min).

(** The function has no handler: an [OverflowError] leaves it. *)
Definition get_kpis (d : dataset) : response kpis :=
  match routes_txt d with
  | None =>
      Ok (Kpis 0 0 (NInt 0) (NInt 0) 0 (Some "routes.txt file not found"))
  | Some routes =>
      let route_ids :=
        omap (fun r =>
                match get "route_id" r with
                | Some route_id =>
                    let route_id := Py.strip route_id in
                    if String.eqb route_id "" then None else Some route_id
                | None => None
                end) routes in
      let trip_ids :=
        omap (fun t =>
                if Py.truthy (get "trip_id" t)
                then Some (Py.strip (default "" (get_or "trip_id" "" t)))
                else None) (trips d) in
      match kpi_average_minutes (kpi_headways d),
            kpi_average_minutes (trip_durations d) with
      | Some avg_headway_min, Some avg_duration_min =>
          Ok (Kpis (count_distinct route_ids)
                (count_distinct trip_ids)
                (NFloat avg_headway_min)
                (NFloat avg_duration_min)
                (List.length (stops d))
                None)
      | _, _ => Unhandled
      end
  end.

(* ===================================================================== *)
(** * Departure board: [get_stop_departures] *)
(* ===================================================================== *)

Record departure := Departure {
  dp_trip_id : Py.val;
  dp_route_id : Py.val;
  dp_route_name : Py.val;
  dp_departure_time : Py.val;
  dp_arrival_time : Py.val;
  dp_stop_sequence : Py.val
}.

(** [{r['route_id']: r for r in routes_data if 'route_id' in r}] *)
Definition route_info (routes_data : list row) : gmap Py.val row :=
  fold_left
    (fun m r => if has "route_id" r then <[get "route_id" r := r]> m else m)
    routes_data ∅.

(** [route_info.get(route_id, {}).get('route_short_name', route_id)
     if route_id else 'N/A'] *)
Definition route_name (info : gmap Py.val row) (route_id : Py.val) : Py.val :=
  if Py.truthy route_id then
    match default ∅ (info !! route_id) !! "route_short_name" with
    | Some name => name
    | None => route_id
    end
  else Some "N/A".

(** One iteration of the loop over [stop_times]. *)
Definition departures_step (t2r : gmap Py.val Py.val) (info : gmap Py.val row)
  (stop_id : string) (acc : list departure) (st : row) : list departure :=
  if val_eqb (get "stop_id" st) (Some stop_id) && has "departure_time" st then
    let route_id := default None (t2r !! get "trip_id" st) in
    acc ++ [Departure (get "trip_id" st) route_id (route_name info route_id)
                      (get "departure_time" st) (get "arrival_time" st)
                      (get "stop_sequence" st)]
  else acc.

Definition departures (d : dataset) (stop_id : string) : list departure :=
  fold_left
    (departures_step (trip_to_route (trips d)) (route_info (routes d)) stop_id)
    (stop_times d) [].

(** [x['departure_time'] if x['departure_time'] else ''] *)
Definition departure_key (x : departure) : string :=
  if Py.truthy (dp_departure_time x) then default "" (dp_departure_time x)
  else "".

(** [departures.sort(key=...)], then [departures[:20]]. Strings compare
    by code point, which on UTF-8 text is the byte order of
    [String.leb]. *)
Definition get_stop_departures (d : dataset) (stop_id : string)
  : list departure :=
  firstn 20 (sort_by String.leb departure_key (departures d stop_id)).

(* ===================================================================== *)
(** * Route queries: stops, stats, details *)
(* ===================================================================== *)

(** The guard [not route_id or route_id == 'undefined']. *)
Definition invalid_route_id (route_id : string) : bool :=
  String.eqb route_id "" || String.eqb route_id "undefined".

(** Rows of [table] with [row.get(k) == v]. *)
Definition rows_with (k : string) (v : Py.val) (table : list row) : list row :=
  List.filter (fun r => val_eqb (get k r) v) table.

(** [{r[k] for r in rows}]; [None] stands for [KeyError]. *)
Definition key_set (k : string) (rows : list row) : option (gset Py.val) :=
  list_to_set <$> mapM (fun r => r !! k) rows.

Record stop_json := StopJson {
  sj_row : row;
  sj_lat : option (option spec_float);
  sj_lon : option (option spec_float)
}.

(** [float(stop[k])] under [try/except], when [k in stop]. *)
Definition float_field (k : string) (stop : row) : option (option spec_float) :=
  (fun v : Py.val => v ≫= Py.float) <$> stop !! k.

(** The [try] block of [get_route_stops]; [None] stands for an
    exception. *)
Definition route_stops_try (d : dataset) (route_id : string)
  : option (list stop_json) :=
  route_trip_ids ← key_set "trip_id" (rows_with "route_id" (Some route_id) (trips d));
  route_stop_ids ←
    key_set "stop_id"
      (List.filter (fun st => bool_decide (get "trip_id" st ∈ route_trip_ids))
         (stop_times d));
  Some (map (fun stop => StopJson stop (float_field "stop_lat" stop)
                                   (float_field "stop_lon" stop))
          (List.filter (fun stop => bool_decide (get "stop_id" stop ∈ route_stop_ids))
             (stops d))).

Definition get_route_stops (d : dataset) (route_id : string)
  : response (list stop_json) :=
  if invalid_route_id route_id then Ok []
  else match route_stops_try d route_id with
       | Some route_stops => Ok route_stops
       | None => Ok []
       end.

Record route_stats := RouteStats {
  rs_total_trips : nat;
  trips_by_service : gmap Py.val nat
}.

(** [service_counts[service_id] = service_counts.get(service_id, 0) + 1] *)
Definition count_services (route_trips : list row) : gmap Py.val nat :=
  fold_left
    (fun m trip =>
       let service_id := get_or "service_id" "unknown" trip in
       <[service_id := S (default 0%nat (m !! service_id))]> m)
    route_trips ∅.

(** [jsonify] writes the members of a dict in the order of their sorted
    keys: with the key [None] beside a [str] key the comparison raises
    [TypeError]. *)
Definition unsortable (m : gmap Py.val nat) : bool :=
  bool_decide (None ∈ dom m /\ set_Exists (fun k : Py.val => k <> None) (dom m)).

(** The [jsonify] of the [try] block raises on unsortable keys, and the
    handler answers with the zero statistics. *)
Definition get_route_stats (d : dataset) (route_id : string)
  : response route_stats :=
  if invalid_route_id route_id then Ok (RouteStats 0 ∅)
  else
    let route_trips := rows_with "route_id" (Some route_id) (trips d) in
    let service_counts := count_services route_trips in
    if unsortable service_counts then Ok (RouteStats 0 ∅)
    else Ok (RouteStats (List.length route_trips) service_counts).

(** [int(st.get('stop_sequence', dflt))]: [None] stands for [TypeError]
    (the value is [None]) or [ValueError]. *)
Definition seq_key (dflt : Z) (st : row) : option Z :=
  match st !! "stop_sequence" with
  | None => Some dflt
  | Some None => None
  | Some (Some s) => Py.int s
  end.

(** [l.sort(key=lambda x: int(x.get('stop_sequence', 0)))]: the keys are
    computed first, and an exception among them ends the sort. *)
Definition sort_by_seq (l : list row) : option (list row) :=
  keys ← mapM (seq_key 0) l;
  Some (map snd (sort_by Z.leb fst (zip keys l))).

(** [next((s for s in stops_data if s.get('stop_id') == stop_id), dflt)] *)
Definition find_stop (stops_data : list row) (stop_id : Py.val) : option row :=
  head (rows_with "stop_id" stop_id stops_data).

(** Truth value of an [int]-or-[None]. *)
Definition nonzero (x : option Z) : bool :=
  match x with
  | Some v => negb (Z.eqb v 0)
  | None => false
  end.

Record trip_detail := TripDetail {
  td_trip_id : Py.val;
  td_service_id : Py.val;
  td_direction_id : Py.val;
  td_trip_headsign : Py.val;
  td_first_stop_id : Py.val;
  td_first_stop_name : Py.val;
  td_last_stop_id : Py.val;
  td_last_stop_name : Py.val;
  td_departure_time : Py.val;
  td_arrival_time : Py.val;
  td_duration_minutes : json_number;
  td_num_stops : nat
}.

(** [duration_sec], [duration_min] and the reported [duration_minutes]. *)
Definition duration_minutes (dep_sec arr_sec : option Z) : json_number :=
  let duration_sec :=
    if nonzero arr_sec && nonzero dep_sec
    then Some (default 0 arr_sec - default 0 dep_sec) else None in
  let duration_min :=
    if nonzero duration_sec
    then Some (minutes (Qmake (default 0 duration_sec) 1)) else None in
  match duration_min with
  | Some q => if Qeq_bool q 0 then JNull else JNum q
  | None => JNull
  end.

(** The body of the loop over [route_trips]: the outer [None] is an
    exception of the sort, the inner [None] a trip without stop-times. *)
Definition trip_details (d : dataset) (trip : row)
  : option (option trip_detail) :=
  let trip_id := get "trip_id" trip in
  let trip_stop_times := rows_with "trip_id" trip_id (stop_times d) in
  match trip_stop_times with
  | [] => Some None
  | st0 :: _ =>
      sorted ← sort_by_seq trip_stop_times;
      let first_stop := List.hd st0 sorted in
      let last_stop := List.last sorted st0 in
      let first_stop_info := default ∅ (find_stop (stops d) (get "stop_id" first_stop)) in
      let last_stop_info := default ∅ (find_stop (stops d) (get "stop_id" last_stop)) in
      let dep_sec := parse_time_to_seconds (get_or "departure_time" "" first_stop) in
      let arr_sec := parse_time_to_seconds (get_or "arrival_time" "" last_stop) in
      Some (Some (TripDetail trip_id (get "service_id" trip)
                    (get "direction_id" trip) (get "trip_headsign" trip)
                    (get "stop_id" first_stop)
                    (get_or "stop_name" "N/A" first_stop_info)
                    (get "stop_id" last_stop)
                    (get_or "stop_name" "N/A" last_stop_info)
                    (get "departure_time" first_stop)
                    (get "arrival_time" last_stop)
                    (duration_minutes dep_sec arr_sec)
                    (List.length trip_stop_times)))
  end.

(** The loop that keeps, per trip, the stop-time of smallest
    [stop_sequence]; [None] stands for an exception of [int]. *)
Fixpoint first_stops_by_trip (acc : list (Py.val * row)) (l : list row)
  : option (list (Py.val * row)) :=
  match l with
  | [] => Some acc
  | st :: l' =>
      let trip_id := get "trip_id" st in
      match od_lookup trip_id acc with
      | None => first_stops_by_trip (acc ++ [(trip_id, st)]) l'
      | Some cur =>
          a ← seq_key 999 st;
          b ← seq_key 999 cur;
          first_stops_by_trip
            (if Z.ltb a b then od_alter (fun _ => st) st trip_id acc else acc) l'
      end
  end.

(** Stop-times of the trips of the route. *)
Definition route_stop_times_of (d : dataset) (route_trips : list row)
  : list row :=
  let ids : gset Py.val := list_to_set (map (get "trip_id") route_trips) in
  List.filter (fun st => bool_decide (get "trip_id" st ∈ ids)) (stop_times d).

(** [first_stop_times] after [first_stop_times.sort()]. *)
Definition first_stop_times (firsts : list (Py.val * row)) : list Z :=
  sort_by Z.leb id
    (omap (fun '(_, st) =>
             let dep_sec := parse_time_to_seconds (get_or "departure_time" "" st) in
             if nonzero dep_sec then dep_sec else None) firsts).

(** [first_stop_headways], in minutes. *)
Definition first_stop_headways (firsts : list (Py.val * row)) : list Q :=
  map (fun headway => minutes (Qmake headway 1))
    (positive_gaps (first_stop_times firsts)).

Definition sum_Q (l : list Q) : Q := fold_left Qplus l 0%Q.

(** [sum(l) / len(l) if l else None], then
    [round(avg, 2) if avg else None]. *)
Definition route_average_headway (l : list Q) : json_number :=
  match l with
  | [] => JNull
  | _ :: _ =>
      let avg := Qred (sum_Q l / Qmake (Z.of_nat (List.length l)) 1) in
      if Qeq_bool avg 0 then JNull else JNum avg
  end.

Record route_details := RouteDetails {
  rd_route : row;
  rd_total_trips : nat;
  rd_trips : list trip_detail;
  rd_avg_headway_minutes : json_number;
  rd_total_stops : nat
}.

(** The [try] block of [get_route_details] after the route is found;
    [None] stands for an exception. *)
Definition route_details_try (d : dataset) (route : row) (route_id : string)
  : option route_details :=
  let route_trips := rows_with "route_id" (Some route_id) (trips d) in
  details ← mapM (trip_details d) route_trips;
  let route_stop_times := route_stop_times_of d route_trips in
  firsts ← first_stops_by_trip [] route_stop_times;
  Some (RouteDetails route (List.length route_trips) (omap id details)
          (route_average_headway (first_stop_headways firsts))
          (List.length (remove_dups (map (get "stop_id") route_stop_times)))).

(** A row that matches [route_id] holds the key ['route_id'], so
    [if not route] only catches the [None] of [next]. *)
Definition get_route_details (d : dataset) (route_id : string)
  : response route_details :=
  if invalid_route_id route_id then HttpError 400 "Invalid route_id"
  else
    match head (rows_with "route_id" (Some route_id) (routes d)) with
    | None => HttpError 404 "Route not found"
    | Some route =>
        match route_details_try d route route_id with
        | Some body => Ok body
        | None => HttpError 500 "Error loading route details"
        end
    end.

(* ===================================================================== *)
(** * Path builder *)
(* ===================================================================== *)

Abbreviation coordinate := (spec_float * spec_float)%type.

Definition fzero : spec_float := S754_zero false.

(** [-90], [90], [-180] and [180] as binary64 values. *)
Definition f90 : spec_float := Py.float_of_int 90.
Definition f180 : spec_float := Py.float_of_int 180.

(** [trip_paths]: the stop-times grouped by [key], groups in order of
    first appearance. *)
Definition group_by_trip (key : row -> Py.val) (sts : list row)
  : list (Py.val * list row) :=
  fold_left (fun acc st => od_append (key st) st acc) sts [].

(** [max(trip_paths.keys(), key=lambda tid: len(trip_paths[tid]))]: the
    first group of greatest length. *)
Definition longer {K : Type} (best : option (K * list row)) (g : K * list row)
  : option (K * list row) :=
  match best with
  | None => Some g
  | Some b => if Nat.ltb (List.length (snd b)) (List.length (snd g))
              then Some g else best
  end.

Definition best_trip {K : Type} (groups : list (K * list row))
  : option (K * list row) :=
  fold_left longer groups None.

(** ** One route: [get_route_path] *)

Record stop_info := StopInfo {
  si_stop_id : Py.val;
  si_stop_name : Py.val;
  si_stop_sequence : Z
}.

Record route_path := RoutePath {
  rp_route_id : string;
  rp_coordinates : list coordinate;
  rp_stops : list stop_info;
  rp_total_stops : nat
}.

(** [float(stop.get(k, 0))]: the default is the integer [0]; [None]
    stands for [TypeError] (the value is [None]) or [ValueError]. *)
Definition float_or_zero (k : string) (stop : row) : option spec_float :=
  match stop !! k with
  | None => Some fzero
  | Some None => None
  | Some (Some s) => Py.float s
  end.

(** The test of [get_route_path]: [lat != 0 and lon != 0]. *)
Definition path_accepts (lat lon : spec_float) : bool :=
  Py.fne lat fzero && Py.fne lon fzero.

(** The body of the loop over [ordered_stops]: the two lists grow
    together unless [int] fails after the coordinate was appended. *)
Definition path_step (stops_data : list row)
  (acc : list coordinate * list stop_info) (st : row)
  : list coordinate * list stop_info :=
  let stop_id := get "stop_id" st in
  match find_stop stops_data stop_id with
  | Some stop =>
      if bool_decide (stop = ∅) then acc
      else
        match float_or_zero "stop_lat" stop with
        | Some lat =>
            match float_or_zero "stop_lon" stop with
            | Some lon =>
                if path_accepts lat lon then
                  match seq_key 0 st with
                  | Some n =>
                      (fst acc ++ [(lat, lon)],
                       snd acc ++ [StopInfo stop_id (get "stop_name" stop) n])
                  | None => (fst acc ++ [(lat, lon)], snd acc)
                  end
                else acc
            | None => acc
            end
        | None => acc
        end
  | None => acc
  end.

Definition get_route_path (d : dataset) (route_id : string)
  : response route_path :=
  match key_set "trip_id" (rows_with "route_id" (Some route_id) (trips d)) with
  | None => Unhandled
  | Some route_trip_ids =>
      if bool_decide (route_trip_ids = ∅)
      then HttpError 404 "No trips found for route"
      else
        let route_stop_times :=
          List.filter (fun st => bool_decide (get "trip_id" st ∈ route_trip_ids))
            (stop_times d) in
        let trip_paths := group_by_trip (get "trip_id") route_stop_times in
        match mapM (fun '(k, l) => pair k <$> sort_by_seq l) trip_paths with
        | None => Unhandled
        | Some sorted_paths =>
            match best_trip sorted_paths with
            | Some (_, ordered_stops) =>
                let '(path_coordinates, info) :=
                  fold_left (path_step (stops d)) ordered_stops ([], []) in
                Ok (RoutePath route_id path_coordinates info
                      (List.length path_coordinates))
            | None => HttpError 404 "No path found for route"
            end
        end
  end.

(** ** All routes: [get_all_route_paths] *)

Record path_item := PathItem {
  pi_route_id : string;
  pi_route : row;
  pi_coordinates : list coordinate;
  pi_total_stops : nat
}.

(** The test of the batch:
    [-90 <= lat <= 90 and -180 <= lon <= 180 and (lat != 0 or lon != 0)]. *)
Definition batch_accepts (lat lon : spec_float) : bool :=
  Py.fle (SFopp f90) lat && Py.fle lat f90 &&
  Py.fle (SFopp f180) lon && Py.fle lon f180 &&
  (Py.fne lat fzero || Py.fne lon fzero).

(** [stops_dict]: the last row of a stop id wins. *)
Definition stops_dict (stops_data : list row) : gmap string row :=
  fold_left
    (fun m stop =>
       let stop_id := stripped "stop_id" stop in
       if String.eqb stop_id "" then m else <[stop_id := stop]> m)
    stops_data ∅.

(** [stop_times_by_trip] *)
Definition stop_times_by_trip (sts : list row) : gmap string (list row) :=
  fold_left
    (fun m st =>
       let trip_id := stripped "trip_id" st in
       if String.eqb trip_id "" then m
       else <[trip_id := default [] (m !! trip_id) ++ [st]]> m)
    sts ∅.

(** The route id of a row of [routes.txt], or [None] when the loop
    skips the row before its [try] block. *)
Definition batch_route_id (route : row) : option string :=
  let nonempty (s : string) := if String.eqb s "" then None else Some s in
  match get "route_id" route with
  | None =>
      let alt :=
        if Py.truthy (get "route_short_name" route) then get "route_short_name" route
        else if Py.truthy (get "Route ID" route) then get "Route ID" route
        else if Py.truthy (get "id" route) then get "id" route
        else None in
      alt ≫= fun s => nonempty (Py.strip s)
  | Some raw => if String.eqb raw "" then None else nonempty (Py.strip raw)
  end.

(** [int(x.get('stop_sequence', 0) or 0)]; [None] stands for
    [ValueError]. *)
Definition batch_seq_key (st : row) : option Z :=
  if Py.truthy (get "stop_sequence" st)
  then Py.int (default "" (get "stop_sequence" st))
  else Some 0.

(** The guarded sort of one group: when a key raises, the handler moves
    on and the group keeps its order. *)
Definition batch_sort (l : list row) : list row :=
  match mapM batch_seq_key l with
  | Some keys => map snd (sort_by Z.leb fst (zip keys l))
  | None => l
  end.

(** What one stop-time does to the coordinate list of the batch. *)
Inductive coord_step :=
  | Keep (c : coordinate)
  | Drop
  | Abort.

(** [stop.get(k, '0').strip()]: [None] stands for the [AttributeError]
    of a [None] value, which only the handler of the route catches. *)
Definition coord_text (k : string) (stop : row) : option string :=
  Py.strip <$> get_or k "0" stop.

Definition batch_coord (sdict : gmap string row) (st : row) : coord_step :=
  let stop_id := stripped "stop_id" st in
  if String.eqb stop_id "" then Drop
  else
    match sdict !! stop_id with
    | None => Drop
    | Some stop =>
        if bool_decide (stop = ∅) then Drop
        else
          match coord_text "stop_lat" stop with
          | None => Abort
          | Some lat_str =>
              match coord_text "stop_lon" stop with
              | None => Abort
              | Some lon_str =>
                  if String.eqb lat_str "" || String.eqb lon_str "" then Drop
                  else
                    match Py.float lat_str with
                    | None => Drop
                    | Some lat =>
                        match Py.float lon_str with
                        | None => Drop
                        | Some lon =>
                            if batch_accepts lat lon then Keep (lat, lon)
                            else Drop
                        end
                    end
              end
          end
    end.

(** The loop over [ordered_stops]; [None] when a step aborts the
    route. *)
Fixpoint batch_coordinates (sdict : gmap string row) (l : list row)
  (acc : list coordinate) : option (list coordinate) :=
  match l with
  | [] => Some acc
  | st :: l' =>
      match batch_coord sdict st with
      | Keep c => batch_coordinates sdict l' (acc ++ [c])
      | Drop => batch_coordinates sdict l' acc
      | Abort => None
      end
  end.

Section Batch.
(** The order in which a [set] built by the given sequence of [add]s
    is iterated. *)
Variable set_iter : list string -> list string.

(** The ids added to [route_trip_ids], in the order of the [add]s. *)
Definition batch_trip_ids (trips_data : list row) (route_id : string)
  : list string :=
  omap (fun trip =>
          if String.eqb (stripped "route_id" trip) route_id then
            let trip_id := stripped "trip_id" trip in
            if String.eqb trip_id "" then None else Some trip_id
          else None) trips_data.

(** The body of the loop over [routes_data]: the path item appended to
    [all_paths], or [None] when the route is skipped. In the grouping
    loop the test [if trip_id:] stands before the lines it guards
    without indenting them; every stop-time reached there was filed
    under a non-empty stripped trip id, so the test always holds. *)
Definition batch_route (d : dataset) (route : row) : option path_item :=
  route_id ← batch_route_id route;
  let by_trip := stop_times_by_trip (stop_times d) in
  let route_trip_ids := batch_trip_ids (trips d) route_id in
  match route_trip_ids with
  | [] => None
  | _ :: _ =>
      let route_stop_times :=
        flat_map (fun trip_id => default [] (by_trip !! trip_id))
          (set_iter route_trip_ids) in
      match route_stop_times with
      | [] => None
      | _ :: _ =>
          let trip_paths :=
            group_by_trip (fun st => Some (stripped "trip_id" st))
              (List.filter (fun st => negb (String.eqb (stripped "trip_id" st) ""))
                 route_stop_times) in
          let sorted_paths := map (fun '(k, l) => (k, batch_sort l)) trip_paths in
          '(_, ordered_stops) ← best_trip sorted_paths;
          path_coordinates ← batch_coordinates (stops_dict (stops d)) ordered_stops [];
          if Nat.leb 2 (List.length path_coordinates)
          then Some (PathItem route_id route path_coordinates
                       (List.length path_coordinates))
          else None
      end
  end.

Definition get_all_route_paths (d : dataset) : list path_item :=
  match routes_txt d with
  | None => []
  | Some routes_data => omap (batch_route d) routes_data
  end.
End Batch.

(* ===================================================================== *)
(** * Route attribute edit: [update_route] *)
(* ===================================================================== *)

(** The JSON body of the request: each member is absent, [null] or a
    string. A body with a [stops] member also rewrites [stop_times.txt];
    that part of the function is modelled apart, in [update_route_stops],
    and the body here has no such member. *)
Record update_request := UpdateRequest {
  rq_route_id : option Py.val;
  rq_route_short_name : option Py.val;
  rq_route_long_name : option Py.val;
  rq_route_color : option Py.val;
  rq_route_desc : option Py.val
}.

(** [if k in data: route[k] = data[k]] *)
Definition assign (k : string) (v : option Py.val) (route : row) : row :=
  match v with
  | Some x => <[k := x]> route
  | None => route
  end.

Definition apply_update (data : update_request) (route : row) : row :=
  assign "route_desc" (rq_route_desc data)
    (assign "route_color" (rq_route_color data)
       (assign "route_long_name" (rq_route_long_name data)
          (assign "route_short_name" (rq_route_short_name data) route))).

(** The loop over [routes_data] with its [break]: the first matching
    row is updated; [None] when no row matches. *)
Fixpoint update_first (route_id : string) (data : update_request)
  (routes_data : list row) : option (list row) :=
  match routes_data with
  | [] => None
  | route :: rest =>
      if val_eqb (get "route_id" route) (Some route_id)
      then Some (apply_update data route :: rest)
      else cons route <$> update_first route_id data rest
  end.

(** What [csv.DictWriter] puts in the file for one row: a value per
    field name, [''] for a missing field or [None]. *)
Definition written_row (fieldnames : gset string) (r : row) : row :=
  set_to_map (fun k => (k, Some (default "" (get k r)))) fieldnames.

(** [writer.writerows(rows)]: a row with a key outside [fieldnames]
    raises [ValueError]; the rows before it are in the file by then. The
    result is the rows written and whether the writer raised. *)
Fixpoint write_rows (fieldnames : gset string) (rows : list row)
  : list row * bool :=
  match rows with
  | [] => ([], false)
  | r :: rest =>
      if bool_decide (dom r ⊆ fieldnames) then
        let '(out, raised) := write_rows fieldnames rest in
        (written_row fieldnames r :: out, raised)
      else ([], true)
  end.

(** [update_route]: the response and the rows of [routes.txt] after the
    call. Opening the file for writing empties it, so after a write the
    file holds exactly the rows the writer put out. *)
Definition update_route (file : list row) (route_id : string)
  (data : update_request) : response string * list row :=
  match rq_route_id data with
  | None => (HttpError 400 "Invalid request data", file)
  | Some _ =>
      match update_first route_id data file with
      | None => (HttpError 404 "Route not found", file)
      | Some routes_data =>
          match routes_data with
          | [] => (Ok "Route updated successfully", file)
          | r0 :: _ =>
              let '(out, raised) := write_rows (dom r0) routes_data in
              if raised then (HttpError 500 "Error updating route", out)
              else (Ok "Route updated successfully", out)
          end
      end
  end.

(* ===================================================================== *)
(** * The specification's words, as definitions *)
(* ===================================================================== *)

(** [l[i] - l[i-1]] for [i >= 1]. *)
Definition consecutive_diffs (l : list Z) : list Z :=
  zip_with (fun a b => b - a) l (tail l).

(** The stop-time contributes a departure to the pair (route, stop): it
    names the stop, its trip belongs to the route, and its departure time
    parses. *)
Definition pair_entry (t2r : gmap Py.val Py.val) (st : row)
  : option ((Py.val * Py.val) * dep_entry) :=
  if has "stop_id" st && has "trip_id" st then
    route_id ← t2r !! get "trip_id" st;
    dep_sec ← parse_time_to_seconds (get_or "departure_time" "" st);
    Some ((route_id, get "stop_id" st),
          DepEntry (get "trip_id" st) dep_sec route_id)
  else None.

(** The departure seconds gathered for one (route, stop) pair, in file
    order. *)
Definition pair_departures (d : dataset) (route_id stop_id : Py.val) : list Z :=
  omap (fun st =>
          match pair_entry (trip_to_route (trips d)) st with
          | Some (k, e) =>
              if decide ((route_id, stop_id) = k) then Some (departure_sec e)
              else None
          | None => None
          end) (stop_times d).

(** A row of [rows] under construction by [mk]: every value a string. *)
(** The body of a successful answer. *)
Definition body {A : Type} (r : response A) : option A :=
  match r with
  | Ok b => Some b
  | _ => None
  end.

(** The binary64 value that a decimal numeral denotes. *)
Definition decimal (s : string) : spec_float := default fzero (Py.float s).

(** The reported average in the specification's words: the sum of the
    samples over their number, in minutes, to two decimals, and 0 without
    samples. The two quotients and the rounding are those of binary64; there
    is no value when the first quotient is beyond binary64. *)
Definition spec_average_minutes (samples : list Z) : option spec_float :=
  match samples with
  | [] => Some fzero
  | _ :: _ =>
      mean_sec ← true_divide (foldr Z.add 0 samples) (Z.of_nat (List.length samples));
      Some (round2 (float_div mean_sec 60))
  end.

(** The number is there and is not below zero. *)
Definition not_negative (n : number) : Prop :=
  match n with
  | NNull => False
  | NInt z => 0 <= z
  | NFloat x => Py.fle fzero x = true
  end.


Definition mk (l : list (string * string)) : row :=
  list_to_map (map (fun '(k, v) => (k, Some v)) l).

Module Examples.

(** One route and one stop with departures at 08:00:00, 08:15:00,
    08:15:00 and 08:30:00. *)
Definition headway_data : dataset :=
  Dataset (Some [mk [("route_id", "R1")]])
    [mk [("trip_id", "T1"); ("route_id", "R1")];
     mk [("trip_id", "T2"); ("route_id", "R1")];
     mk [("trip_id", "T3"); ("route_id", "R1")];
     mk [("trip_id", "T4"); ("route_id", "R1")]]
    [mk [("stop_id", "S1")]]
    [mk [("trip_id", "T1"); ("stop_id", "S1"); ("departure_time", "08:00:00")];
     mk [("trip_id", "T2"); ("stop_id", "S1"); ("departure_time", "08:15:00")];
     mk [("trip_id", "T3"); ("stop_id", "S1"); ("departure_time", "08:15:00")];
     mk [("trip_id", "T4"); ("stop_id", "S1"); ("departure_time", "08:30:00")]].

(** One trip with the stop-times (arr=None, dep=28800) and
    (arr=29400, dep=29460). *)
Definition duration_data : dataset :=
  Dataset (Some [mk [("route_id", "R1")]])
    [mk [("trip_id", "T1"); ("route_id", "R1")]]
    [mk [("stop_id", "S1")]; mk [("stop_id", "S2")]]
    [mk [("trip_id", "T1"); ("stop_id", "S1"); ("arrival_time", "");
         ("departure_time", "08:00:00")];
     mk [("trip_id", "T1"); ("stop_id", "S2"); ("arrival_time", "08:10:00");
         ("departure_time", "08:11:00")]].

(** One stop with the times "7:50:00", "24:10:00" and "08:05:00", in
    that file order. *)
Definition board_data : dataset :=
  Dataset (Some [mk [("route_id", "R1"); ("route_short_name", "1")]])
    [mk [("trip_id", "T1"); ("route_id", "R1")];
     mk [("trip_id", "T2"); ("route_id", "R1")];
     mk [("trip_id", "T3"); ("route_id", "R1")]]
    [mk [("stop_id", "S1")]]
    [mk [("trip_id", "T1"); ("stop_id", "S1"); ("departure_time", "7:50:00")];
     mk [("trip_id", "T2"); ("stop_id", "S1"); ("departure_time", "24:10:00")];
     mk [("trip_id", "T3"); ("stop_id", "S1"); ("departure_time", "08:05:00")]].

(** Route R1 has a trip, route R2 has none, and no route is named
    R9. *)
Definition lookup_data : dataset :=
  Dataset (Some [mk [("route_id", "R1")]; mk [("route_id", "R2")]])
    [mk [("trip_id", "T1"); ("route_id", "R1"); ("service_id", "WK")]]
    [mk [("stop_id", "S1"); ("stop_lat", "43.5"); ("stop_lon", "-79.4")]]
    [mk [("trip_id", "T1"); ("stop_id", "S1"); ("stop_sequence", "1")]].

(** Three trips of one route whose first stops depart at 00:00:00,
    00:10:00 and 00:30:00. *)
Definition midnight_data : dataset :=
  Dataset (Some [mk [("route_id", "R1")]])
    [mk [("trip_id", "T1"); ("route_id", "R1")];
     mk [("trip_id", "T2"); ("route_id", "R1")];
     mk [("trip_id", "T3"); ("route_id", "R1")]]
    [mk [("stop_id", "S1"); ("stop_name", "First")];
     mk [("stop_id", "S2"); ("stop_name", "Second")]]
    [mk [("trip_id", "T1"); ("stop_id", "S1"); ("stop_sequence", "1");
         ("arrival_time", "00:00:00"); ("departure_time", "00:00:00")];
     mk [("trip_id", "T1"); ("stop_id", "S2"); ("stop_sequence", "2");
         ("arrival_time", "00:20:00"); ("departure_time", "00:20:00")];
     mk [("trip_id", "T2"); ("stop_id", "S1"); ("stop_sequence", "1");
         ("arrival_time", "00:10:00"); ("departure_time", "00:10:00")];
     mk [("trip_id", "T2"); ("stop_id", "S2"); ("stop_sequence", "2");
         ("arrival_time", "00:25:00"); ("departure_time", "00:25:00")];
     mk [("trip_id", "T3"); ("stop_id", "S1"); ("stop_sequence", "1");
         ("arrival_time", "00:30:00"); ("departure_time", "00:30:00")]].

(** The binary64 pair that [float] reads from two texts. *)
Definition coord (lat lon : string) : coordinate :=
  (default fzero (Py.float lat), default fzero (Py.float lon)).

(** One route whose only trip visits a stop on the equator (0, 10), a
    stop at latitude 95, and two ordinary stops. *)
Definition path_data : dataset :=
  Dataset (Some [mk [("route_id", "R1")]])
    [mk [("trip_id", "T1"); ("route_id", "R1")]]
    [mk [("stop_id", "S1"); ("stop_name", "Equator"); ("stop_lat", "0"); ("stop_lon", "10")];
     mk [("stop_id", "S2"); ("stop_name", "Beyond"); ("stop_lat", "95"); ("stop_lon", "10")];
     mk [("stop_id", "S3"); ("stop_name", "Third"); ("stop_lat", "43.5"); ("stop_lon", "-79.4")];
     mk [("stop_id", "S4"); ("stop_name", "Fourth"); ("stop_lat", "43.6"); ("stop_lon", "-79.5")]]
    [mk [("trip_id", "T1"); ("stop_id", "S1"); ("stop_sequence", "1")];
     mk [("trip_id", "T1"); ("stop_id", "S2"); ("stop_sequence", "2")];
     mk [("trip_id", "T1"); ("stop_id", "S3"); ("stop_sequence", "3")];
     mk [("trip_id", "T1"); ("stop_id", "S4"); ("stop_sequence", "4")]].

(** Two routes: the trip of R1 has one stop with valid coordinates (its
    other stop has none that parse), the trip of R2 has three. *)
Definition two_routes_data : dataset :=
  Dataset (Some [mk [("route_id", "R1")]; mk [("route_id", "R2")]])
    [mk [("trip_id", "T1"); ("route_id", "R1")];
     mk [("trip_id", "T2"); ("route_id", "R2")]]
    [mk [("stop_id", "S1"); ("stop_name", "First"); ("stop_lat", "43.5"); ("stop_lon", "-79.4")];
     mk [("stop_id", "S2"); ("stop_name", "Second"); ("stop_lat", "n/a"); ("stop_lon", "n/a")];
     mk [("stop_id", "S3"); ("stop_name", "Third"); ("stop_lat", "43.6"); ("stop_lon", "-79.5")];
     mk [("stop_id", "S4"); ("stop_name", "Fourth"); ("stop_lat", "43.7"); ("stop_lon", "-79.6")]]
    [mk [("trip_id", "T1"); ("stop_id", "S1"); ("stop_sequence", "1")];
     mk [("trip_id", "T1"); ("stop_id", "S2"); ("stop_sequence", "2")];
     mk [("trip_id", "T2"); ("stop_id", "S1"); ("stop_sequence", "1")];
     mk [("trip_id", "T2"); ("stop_id", "S3"); ("stop_sequence", "2")];
     mk [("trip_id", "T2"); ("stop_id", "S4"); ("stop_sequence", "3")]].

(** A [routes.txt] of three routes without a [route_desc] column. *)
Definition routes_file : list row :=
  [mk [("route_id", "R1"); ("route_short_name", "1"); ("route_long_name", "One")];
   mk [("route_id", "R2"); ("route_short_name", "2"); ("route_long_name", "Two")];
   mk [("route_id", "R3"); ("route_short_name", "3"); ("route_long_name", "Three")]].

(** The body [{"route_id": "R2", "route_desc": "x"}]. *)
Definition edit_desc : update_request :=
  UpdateRequest (Some (Some "R2")) None None None (Some (Some "x")).

(** The body [{"route_id": "R1", "route_short_name": "A"}]. *)
Definition edit_short_name : update_request :=
  UpdateRequest (Some (Some "R1")) (Some (Some "A")) None None None.

(** The one path of the batch over [two_routes_data]. *)
Definition r2_item : path_item :=
  PathItem "R2" (mk [("route_id", "R2")])
    [coord "43.5" "-79.4"; coord "43.6" "-79.5"; coord "43.7" "-79.6"] 3.

(** [midnight_data] with a stop-time of trip T2 whose [stop_sequence] is
    not a number. *)
Definition bad_sequence_data : dataset :=
  Dataset (routes_txt midnight_data) (trips midnight_data) (stops midnight_data)
    (stop_times midnight_data ++
     [mk [("trip_id", "T2"); ("stop_id", "S2"); ("stop_sequence", "last")]]).

(** [duration_data] without [routes.txt]. *)
Definition no_routes_data : dataset :=
  Dataset None (trips duration_data) (stops duration_data)
    (stop_times duration_data).

(** One trip that leaves at 08:00:00 and arrives at 08:01:40. *)
Definition hundred_seconds_data : dataset :=
  Dataset (Some [mk [("route_id", "R1")]])
    [mk [("trip_id", "T1"); ("route_id", "R1")]]
    [mk [("stop_id", "S1")]; mk [("stop_id", "S2")]]
    [mk [("trip_id", "T1"); ("stop_id", "S1"); ("arrival_time", "08:00:00");
         ("departure_time", "08:00:00")];
     mk [("trip_id", "T1"); ("stop_id", "S2"); ("arrival_time", "08:01:40");
         ("departure_time", "08:01:40")]].

(** One stop with a stop-time at 08:05:00, a stop-time whose
    [departure_time] is empty, and one whose line ends before that column,
    so that its [departure_time] is [None]. *)
Definition null_time_data : dataset :=
  Dataset (Some [mk [("route_id", "R1"); ("route_short_name", "1")]])
    [mk [("trip_id", "T1"); ("route_id", "R1")];
     mk [("trip_id", "T2"); ("route_id", "R1")];
     mk [("trip_id", "T3"); ("route_id", "R1")]]
    [mk [("stop_id", "S1")]]
    [mk [("trip_id", "T1"); ("stop_id", "S1"); ("departure_time", "08:05:00")];
     mk [("trip_id", "T2"); ("stop_id", "S1"); ("departure_time", "")];
     <["departure_time" := None]> (mk [("trip_id", "T3"); ("stop_id", "S1")])].

(** Two trips of one route, one with the service id WK and one whose
    line ends before the [service_id] column. *)
Definition mixed_service_data : dataset :=
  Dataset (Some [mk [("route_id", "R1")]])
    [mk [("trip_id", "T1"); ("route_id", "R1"); ("service_id", "WK")];
     <["service_id" := None]> (mk [("trip_id", "T2"); ("route_id", "R1")])]
    [] [].

(** The four tables present and empty. *)
Definition empty_data : dataset := Dataset (Some []) [] [] [].

End Examples.

(** The arrival- and departure-seconds values of one stop-time, the
    unparseable ones left out. *)
Definition stop_time_seconds (st : row) : list Z :=
  option_list (parse_time_to_seconds (get_or "arrival_time" "" st)) ++
  option_list (parse_time_to_seconds (get_or "departure_time" "" st)).

(** The union of those values over the stop-times of one trip. *)
Definition trip_seconds (d : dataset) (trip_id : Py.val) : list Z :=
  flat_map (fun st => if val_eqb (get "trip_id" st) trip_id
                      then stop_time_seconds st else [])
    (stop_times d).

Definition list_min (l : list Z) : option Z :=
  match l with
  | [] => None
  | x :: l' => Some (fold_left Z.min l' x)
  end.

Definition list_max (l : list Z) : option Z :=
  match l with
  | [] => None
  | x :: l' => Some (fold_left Z.max l' x)
  end.

(** Max minus min over the union, discarded when not positive. *)
Definition spec_trip_duration (d : dataset) (trip_id : Py.val) : option Z :=
  match list_min (trip_seconds d trip_id), list_max (trip_seconds d trip_id) with
  | Some lo, Some hi => if Z.ltb 0 (hi - lo) then Some (hi - lo) else None
  | _, _ => None
  end.

(** The times of the stop-times with a usable trip id, each under its
    trip id, in file order. *)
Definition trip_pairs (sts : list row) : list (Py.val * Z) :=
  flat_map (fun st => if Py.truthy (get "trip_id" st)
                      then map (pair (get "trip_id" st)) (stop_time_seconds st)
                      else [])
    sts.

(** The stop-time is at the stop and has a [departure_time] member. *)
Definition at_stop_with_departure (stop_id : string) (st : row) : bool :=
  val_eqb (get "stop_id" st) (Some stop_id) && has "departure_time" st.

(** The board entry of a stop-time. *)
Definition departure_of (d : dataset) (st : row) : departure :=
  let route_id := default None (trip_to_route (trips d) !! get "trip_id" st) in
  Departure (get "trip_id" st) route_id
    (route_name (route_info (routes d)) route_id)
    (get "departure_time" st) (get "arrival_time" st) (get "stop_sequence" st).

(** The first-stop departure parses to exactly 0 seconds. *)
Definition departs_at_zero (st : row) : bool :=
  bool_decide (parse_time_to_seconds (get "departure_time" st) = Some 0).

(** A geographic position is valid only within [[-90,90] x [-180,180]]
    and when it is not (0, 0). *)
Definition valid_position (lat lon : spec_float) : bool :=
  SFleb (SFopp f90) lat && SFleb lat f90 &&
  SFleb (SFopp f180) lon && SFleb lon f180 &&
  negb (SFeqb lat fzero && SFeqb lon fzero).

(** An iteration order of a set: that of the first insertions. *)
Definition insertion_order (l : list string) : list string := remove_dups l.

(** The coordinate that [get_route_path] appends for a stop-time, if
    any. *)
Definition path_coord (stops_data : list row) (st : row) : option coordinate :=
  stop ← find_stop stops_data (get "stop_id" st);
  if bool_decide (stop = ∅) then None
  else
    lat ← float_or_zero "stop_lat" stop;
    lon ← float_or_zero "stop_lon" stop;
    if path_accepts lat lon then Some (lat, lon) else None.


(** The trip has at least one stop-time. *)
Definition has_stop_times (d : dataset) (trip : row) : bool :=
  match rows_with "trip_id" (get "trip_id" trip) (stop_times d) with
  | [] => false
  | _ :: _ => true
  end.

(** The last element of a list that passes a test. *)
Fixpoint find_last {A : Type} (p : A -> bool) (l : list A) : option A :=
  match l with
  | [] => None
  | x :: l' =>
      match find_last p l' with
      | Some y => Some y
      | None => if p x then Some x else None
      end
  end.

(** The row names the trip and a route: it enters [trip_to_route]. *)
Definition maps_trip (k : Py.val) (trip : row) : bool :=
  has "trip_id" trip && has "route_id" trip && val_eqb (get "trip_id" trip) k.

(** An attribute of the request is absent, or a string for a column the
    table has. *)
Definition supplied_ok (fieldnames : gset string) (k : string)
  (v : option Py.val) : Prop :=
  match v with
  | None => True
  | Some None => False
  | Some (Some _) => k ∈ fieldnames
  end.

Definition supplies_within (fieldnames : gset string) (data : update_request)
  : Prop :=
  supplied_ok fieldnames "route_short_name" (rq_route_short_name data) /\
  supplied_ok fieldnames "route_long_name" (rq_route_long_name data) /\
  supplied_ok fieldnames "route_color" (rq_route_color data) /\
  supplied_ok fieldnames "route_desc" (rq_route_desc data).

(** The rows share the columns [fieldnames] and hold no [None]. *)
Definition well_formed_table (fieldnames : gset string) (table : list row)
  : Prop :=
  Forall (fun r : row =>
            dom r = fieldnames /\
            map_Forall (fun (_ : string) (v : Py.val) => v <> None) r) table.

(* ===================================================================== *)
(** * Upload checks: [allowed_file] and the required members *)
(* ===================================================================== *)

(** [s.lower()] on ASCII text. *)
Definition lower_str (s : string) : string :=
  string_of_list_ascii (map Py.lower (list_ascii_of_string s)).

(** [s.rsplit(sep, 1)[1]]: the text after the last [sep], [None] when
    [sep] does not occur. *)
Fixpoint after_last (sep : ascii) (s : string) : option string :=
  match s with
  | EmptyString => None
  | String c s' =>
      match after_last sep s' with
      | Some t => Some t
      | None => if Ascii.eqb c sep then Some s' else None
      end
  end.

(** [ALLOWED_EXTENSIONS = {'zip'}] and
    ['.' in filename and filename.rsplit('.', 1)[1].lower() in
     ALLOWED_EXTENSIONS]. *)
Definition allowed_file (filename : string) : bool :=
  match after_last "." filename with
  | Some ext => String.eqb (lower_str ext) "zip"
  | None => false
  end.

(** [l] starts with [p]. *)
Fixpoint starts_with (p l : list ascii) : bool :=
  match p, l with
  | [], _ => true
  | a :: p', b :: l' => Ascii.eqb a b && starts_with p' l'
  | _ :: _, [] => false
  end.

(** [s.endswith(suffix)] *)
Definition ends_with (s suffix : string) : bool :=
  starts_with (rev (list_ascii_of_string suffix)) (rev (list_ascii_of_string s)).

Definition required_files : list string :=
  ["stops.txt"; "routes.txt"; "trips.txt"; "stop_times.txt"].

(** The inner loop with its [break]: the first member of the archive
    whose name ends with the required name. *)
Definition find_member (file_list : list string) (req_file : string)
  : option string :=
  List.find (fun zip_file => ends_with zip_file req_file) file_list.

(** The outer loop: [extracted_files] (required name and member found
    for it) and [missing_files]. *)
Definition select_members (file_list : list string)
  : list (string * string) * list string :=
  fold_left
    (fun '(extracted, missing) req_file =>
       match find_member file_list req_file with
       | Some zip_file => (extracted ++ [(req_file, zip_file)], missing)
       | None => (extracted, missing ++ [req_file])
       end)
    required_files ([], []).

(* ===================================================================== *)
(** * Table loader: [load_csv] *)
(* ===================================================================== *)

(** A CSV file as [csv.reader] reads it: [None] when the file does not
    exist, else its records in order, a blank line being the empty
    record. Decoding and the splitting of lines into fields are the
    reader's. *)
Abbreviation csv_file := (option (list (list string))).

(** [d[k] = v] on a dict in insertion order. *)
Definition od_set {K V : Type} `{EqDecision K} (k : K) (v : V)
  (d : list (K * V)) : list (K * V) :=
  od_alter (fun _ => v) v k d.

(** The dict that [csv.DictReader] makes of a record that is not longer
    than the header: [dict(zip(fieldnames, row))], then [None] under the
    field names past the end of the record. *)
Definition reader_row (fieldnames record : list string) : list (string * Py.val) :=
  let d := fold_left (fun d '(k, v) => od_set k (Some v) d)
             (zip fieldnames record) [] in
  fold_left (fun d k => od_set k None d)
    (drop (List.length record) fieldnames) d.

(** The loop over [row.items()]: [key.strip() if key else key] and
    [value.strip() if value else value]. *)
Definition clean_row (d : list (string * Py.val)) : row :=
  fold_left
    (fun (clean : row) '(key, value) =>
       let clean_key := if String.eqb key "" then key else Py.strip key in
       let clean_value := if Py.truthy value then Py.strip <$> value else value in
       <[clean_key := clean_value]> clean)
    d ∅.

(** The loop over the reader. The reader skips blank lines. A record
    longer than the header puts the list of its extra fields under the key
    [None]; [value.strip()] raises on that list, the handler of [load_csv]
    prints the error, and the rows read so far are returned. *)
Fixpoint load_records (fieldnames : list string) (records : list (list string))
  : list row :=
  match records with
  | [] => []
  | record :: rest =>
      match record with
      | [] => load_records fieldnames rest
      | _ :: _ =>
          if Nat.ltb (List.length fieldnames) (List.length record) then []
          else clean_row (reader_row fieldnames record)
               :: load_records fieldnames rest
      end
  end.

(** [load_csv(filepath)]: the first record is the header. *)
Definition load_csv (file : csv_file) : list row :=
  match file with
  | None => []
  | Some [] => []
  | Some (fieldnames :: records) => load_records fieldnames records
  end.

(* ===================================================================== *)
(** * Table views: [get_stops] and [get_stop_times] *)
(* ===================================================================== *)

(** A member of the JSON object a view sends for a table row: [None],
    the text as loaded, or the number a conversion put in its place. *)
Inductive cell :=
  | CNone
  | CStr (s : string)
  | CInt (n : Z)
  | CFloat (x : spec_float).

#[global] Instance spec_float_eq_dec : EqDecision spec_float.
Proof. solve_decision. Defined.

#[global] Instance cell_eq_dec : EqDecision cell.
Proof. solve_decision. Defined.

Definition of_val (v : Py.val) : cell :=
  match v with
  | Some s => CStr s
  | None => CNone
  end.

(** The result of a guarded [int(...)]: the number, or the [None] of the
    handler. *)
Definition of_int (n : option Z) : cell :=
  match n with
  | Some n => CInt n
  | None => CNone
  end.

Definition of_float (x : option spec_float) : cell :=
  match x with
  | Some x => CFloat x
  | None => CNone
  end.

(** [if k in stop and stop[k]: try: stop[k] = float(stop[k])
    except: stop[k] = None]. The value at [k] is a [str] or [None] when
    the conversion reaches it. *)
Definition to_float (k : string) (stop : gmap string cell) : gmap string cell :=
  match stop !! k with
  | Some (CStr s) =>
      if String.eqb s "" then stop else <[k := of_float (Py.float s)]> stop
  | _ => stop
  end.

Definition get_stops (d : dataset) : list (gmap string cell) :=
  map (fun stop => to_float "stop_lon" (to_float "stop_lat" (of_val <$> stop)))
    (stops d).

(** The body of the loop of [get_stop_times]. The members it adds are
    none of those it reads, so the tests and the reads are made on the row
    as loaded. *)
Definition stop_time_view (t2r : gmap Py.val Py.val) (st : row)
  : gmap string cell :=
  let st0 : gmap string cell := of_val <$> st in
  let st1 :=
    if has "arrival_time" st
    then <["arrival_sec" :=
             of_int (parse_time_to_seconds (get "arrival_time" st))]> st0
    else st0 in
  let st2 :=
    if has "departure_time" st
    then <["departure_sec" :=
             of_int (parse_time_to_seconds (get "departure_time" st))]> st1
    else st1 in
  if has "trip_id" st then
    match t2r !! get "trip_id" st with
    | Some route_id => <["route_id" := of_val route_id]> st2
    | None => st2
    end
  else st2.

Definition get_stop_times (d : dataset) : list (gmap string cell) :=
  map (stop_time_view (trip_to_route (trips d))) (stop_times d).

(* ===================================================================== *)
(** * Rows for the archive: [parse_gtfs_to_db_rows] *)
(* ===================================================================== *)

(** [standard_fields.get(table_type, [])] *)
Definition standard_fields (table_type : string) : list string :=
  if String.eqb table_type "routes" then
    ["route_id"; "agency_id"; "route_short_name"; "route_long_name"; "route_desc";
     "route_type"; "route_url"; "route_color"; "route_text_color"]
  else if String.eqb table_type "trips" then
    ["trip_id"; "route_id"; "service_id"; "trip_headsign"; "trip_short_name";
     "direction_id"; "block_id"; "shape_id"; "wheelchair_accessible"; "bikes_allowed"]
  else if String.eqb table_type "stops" then
    ["stop_id"; "stop_code"; "stop_name"; "stop_desc"; "stop_lat"; "stop_lon";
     "zone_id"; "stop_url"; "location_type"; "parent_station"; "stop_timezone";
     "wheelchair_boarding"]
  else if String.eqb table_type "stop_times" then
    ["trip_id"; "arrival_time"; "departure_time"; "stop_id"; "stop_sequence";
     "stop_headsign"; "pickup_type"; "drop_off_type"; "shape_dist_traveled";
     "timepoint"]
  else [].

(** The dict [standard] that the function returns for a row: the
    members filed under standard column names, and its two fixed members
    [upload_id] and [other_fields]. [other_fields] is [None] or the text
    [json.dumps(other)], which is kept here as the dict [other] itself. *)
Record db_row := DbRow {
  db_standard : gmap string cell;
  db_upload_id : Z;
  db_other_fields : option (gmap string string)
}.

(** [if value == '' or value is None: value = None] *)
Definition blank_to_none (value : Py.val) : Py.val :=
  if val_eqb value (Some "") || val_eqb value None then None else value.

(** The body of the loop over [row.items()], on the pair
    ([standard], [other]). *)
Definition file_cell (fields : list string) (key : string) (value : Py.val)
  (acc : gmap string cell * gmap string string)
  : gmap string cell * gmap string string :=
  let value := blank_to_none value in
  if bool_decide (key ∈ fields) then (<[key := of_val value]> (fst acc), snd acc)
  else
    match value with
    | Some s => (fst acc, <[key := s]> (snd acc))
    | None => acc
    end.

(** [if k in standard and standard[k]: try: standard[k] = int(standard[k])
    except: standard[k] = None] *)
Definition to_int (k : string) (standard : gmap string cell) : gmap string cell :=
  match standard !! k with
  | Some (CStr s) =>
      if String.eqb s "" then standard else <[k := of_int (Py.int s)]> standard
  | _ => standard
  end.

(** The body of the loop over [data_list], for a row with [str] keys
    and [str] or [None] values. *)
Definition parse_row (upload_id : Z) (table_type : string) (r : row) : db_row :=
  let '(standard, other) :=
    map_fold (file_cell (standard_fields table_type)) (∅, ∅) r in
  let standard :=
    if String.eqb table_type "stops"
    then to_float "stop_lon" (to_float "stop_lat" standard) else standard in
  let standard :=
    if String.eqb table_type "stop_times"
    then to_float "shape_dist_traveled" (to_int "stop_sequence" standard)
    else standard in
  DbRow standard upload_id (if bool_decide (other = ∅) then None else Some other).

Definition parse_gtfs_to_db_rows (data_list : list row) (upload_id : Z)
  (table_type : string) : list db_row :=
  map (parse_row upload_id table_type) data_list.

(* ===================================================================== *)
(** * Stop sequence edit: the second half of [update_route] *)
(* ===================================================================== *)

(** [str(n)] for an [int]: the decimal digits, after [-] for a negative
    number. *)
Definition str_int (n : Z) : string :=
  DecimalString.NilZero.string_of_int (Z.to_int n).

(** The [stop_sequence] member of an entry of the [stops] list of the
    request body: [null], a string or an integer. *)
Inductive sequence_value :=
  | SeqNull
  | SeqStr (s : string)
  | SeqInt (n : Z).

(** An entry of the [stops] list: each of the two members is absent or
    present, and a present [stop_id] is [null] or a string. *)
Record stop_entry := StopEntry {
  se_stop_id : option Py.val;
  se_stop_sequence : option sequence_value
}.

(** [str(v)] *)
Definition str (v : sequence_value) : string :=
  match v with
  | SeqNull => "None"
  | SeqStr s => s
  | SeqInt n => str_int n
  end.

(** [{stop['stop_id']: stop['stop_sequence'] for stop in data['stops']}];
    [None] stands for the [KeyError] of an absent member. *)
Definition new_sequence (entries : list stop_entry)
  : option (gmap Py.val sequence_value) :=
  fold_left
    (fun acc stop =>
       m ← acc;
       stop_id ← se_stop_id stop;
       stop_sequence ← se_stop_sequence stop;
       Some (<[stop_id := stop_sequence]> m))
    entries (Some ∅).

(** The body of the loop over [stop_times_data]. *)
Definition resequence (first_trip_id : Py.val)
  (new_sequence : gmap Py.val sequence_value) (st : row) : row :=
  if val_eqb (get "trip_id" st) first_trip_id then
    match new_sequence !! get "stop_id" st with
    | Some v => <["stop_sequence" := Some (str v)]> st
    | None => st
    end
  else st.

Section StopSequence.
(** [next(iter(s))] for a non-empty set [s]. *)
Variable set_first : gset Py.val -> Py.val.

(** The block under [if 'stops' in data and data['stops']]: whether it
    raised, and the rows of [stop_times.txt] afterwards. *)
Definition update_stop_sequence (trips_data file : list row) (route_id : string)
  (entries : list stop_entry) : bool * list row :=
  match key_set "trip_id" (rows_with "route_id" (Some route_id) trips_data) with
  | None => (true, file)
  | Some route_trip_ids =>
      if bool_decide (route_trip_ids = ∅) then (false, file)
      else
        let first_trip_id := set_first route_trip_ids in
        match new_sequence entries with
        | None => (true, file)
        | Some new_sequence =>
            let stop_times_data := map (resequence first_trip_id new_sequence) file in
            match stop_times_data with
            | [] => (false, file)
            | st0 :: _ =>
                let '(out, raised) := write_rows (dom st0) stop_times_data in
                (raised, out)
            end
        end
  end.

(** [update_route] for a body with or without a [stops] member: the
    response, and the rows of [routes.txt] and of [stop_times.txt] after
    the call. The stop sequence is reached after [routes.txt] was saved. *)
Definition update_route_stops (routes_file trips_data stop_times_file : list row)
  (route_id : string) (data : update_request) (stops : option (list stop_entry))
  : response string * list row * list row :=
  match update_route routes_file route_id data with
  | (Ok message, routes_after) =>
      match stops with
      | Some ((_ :: _) as entries) =>
          let '(raised, stop_times_after) :=
            update_stop_sequence trips_data stop_times_file route_id entries in
          (if raised then HttpError 500 "Error updating route" else Ok message,
           routes_after, stop_times_after)
      | _ => (Ok message, routes_after, stop_times_file)
      end
  | (error, routes_after) => (error, routes_after, stop_times_file)
  end.
End StopSequence.

(** One order of iteration, for the examples: the first element of the
    set as [elements] lists it. *)
Definition first_element (s : gset Py.val) : Py.val :=
  default None (head (elements s)).

(* ===================================================================== *)
(** * Readings of the views and of the archive rows *)
(* ===================================================================== *)

Definition to_val (c : cell) : Py.val :=
  match c with
  | CStr s => Some s
  | _ => None
  end.

(** What a client of [/api/stop_times] reads off a row as a departure
    of the route at the stop: the row names both, and its
    [departure_sec] is a number. *)
Definition kpi_departure (route_id stop_id : Py.val) (j : gmap string cell)
  : option dep_entry :=
  match j !! "route_id", j !! "stop_id", j !! "trip_id", j !! "departure_sec" with
  | Some r, Some s, Some t, Some (CInt dep_sec) =>
      if bool_decide (r = of_val route_id /\ s = of_val stop_id)
      then Some (DepEntry (to_val t) dep_sec route_id)
      else None
  | _, _, _, _ => None
  end.

(** The value stored for the text [s] of a column: a number (or [None]
    when the text is none) in the four typed columns, the text elsewhere. *)
Definition typed_cell (table_type key : string) (s : string) : cell :=
  if String.eqb table_type "stops" &&
     (String.eqb key "stop_lat" || String.eqb key "stop_lon")
  then of_float (Py.float s)
  else if String.eqb table_type "stop_times" && String.eqb key "stop_sequence"
  then of_int (Py.int s)
  else if String.eqb table_type "stop_times" && String.eqb key "shape_dist_traveled"
  then of_float (Py.float s)
  else CStr s.

Definition stored_cell (table_type key : string) (value : Py.val) : cell :=
  match blank_to_none value with
  | Some s => typed_cell table_type key s
  | None => CNone
  end.

(** A guarded conversion applied to a value that may be [None] or
    empty. *)
Definition converted (conv : string -> cell) (c : cell) : cell :=
  match c with
  | CStr s => if String.eqb s "" then c else conv s
  | _ => c
  end.

Definition uint_chars (d : Decimal.uint) : list ascii :=
  list_ascii_of_string (DecimalString.NilEmpty.string_of_uint d).

(* ===================================================================== *)
(** * Rows read for the archive by [upload_gtfs] *)
(* ===================================================================== *)

(** The dict that [csv.DictReader] yields for a record no longer than
    the header, as a row. *)
Definition reader_dict (fieldnames record : list string) : row :=
  fold_left (fun (m : row) '(key, value) => <[key := value]> m)
    (reader_row fieldnames record) ∅.

(** [parse_gtfs_to_db_rows([row], upload_id, table_type)[0]] for the row
    of such a record: the reader's dict goes to the archive as it is, its
    keys and values are not stripped. *)
Definition archive_row (upload_id : Z) (table_type : string)
  (fieldnames record : list string) : db_row :=
  parse_row upload_id table_type (reader_dict fieldnames record).

(* ===================================================================== *)
(** * Lemmas on the Python primitives *)
(* ===================================================================== *)

Lemma split_nonempty sep s : Py.split sep s <> [].
Proof.
  destruct s as [|c s]; simpl; [discriminate|].
  destruct (Ascii.eqb c sep); [discriminate|].
  destruct (Py.split sep s); discriminate.
Qed.

Lemma truthy_Some s : Py.truthy (Some s) = true <-> s <> "".
Proof.
  simpl. rewrite negb_true_iff. split.
  - intros H ->. discriminate.
  - intros H. apply String.eqb_neq. exact H.
Qed.

(** [st.get(k, '')] and [st.get(k)] parse alike: a missing time, [None]
    and [''] all give [None]. *)
Lemma parse_get_or k st :
  parse_time_to_seconds (get_or k "" st) = parse_time_to_seconds (get k st).
Proof.
  unfold get_or, get. destruct (st !! k) as [v|]; reflexivity.
Qed.

(* ===================================================================== *)
(** * Time codec *)
(* ===================================================================== *)

(** The value [parse_time_to_seconds] gives on a non-empty string. *)
Lemma parse_time_unfold s :
  parse_time_to_seconds (Some s) =
    if String.eqb s "" then None
    else
      hours ← Py.split ":" s !! 0%nat ≫= Py.int;
      minutes ← Py.split ":" s !! 1%nat ≫= Py.int;
      seconds ← Py.split ":" s !! 2%nat ≫= Py.int;
      Some (hours * 3600 + minutes * 60 + seconds).
Proof.
  unfold parse_time_to_seconds. simpl. destruct (String.eqb s ""); reflexivity.
Qed.

(** C5, the claim as stated fails: an input of four parts is a wrong part
    count, and the code answers with a number. *)
Lemma C5_counterexample :
  List.length (Py.split ":" "1:2:3:4") = 4%nat /\
  parse_time_to_seconds (Some "1:2:3:4") = Some 3723.
Proof. split; reflexivity. Qed.

(** C5, amended: [parse_time_to_seconds] returns [h*3600 + m*60 + s]
    exactly when the input splits on [':'] into at least three parts whose
    first three are integers (hours may be 24 or more, parts after the third
    are ignored); in every other case, among them fewer than three parts, a
    non-integer part among the first three, the empty string and [None], it
    returns [None]. It is a total function: nothing is raised.
    ["bad"], [""] and ["12:30"] give [None]. *)
Theorem C5_parse_time_amended :
  (forall (time_str : Py.val) (n : Z),
      parse_time_to_seconds time_str = Some n <->
      exists s a b c rest h m sec,
        time_str = Some s /\ Py.split ":" s = a :: b :: c :: rest /\
        Py.int a = Some h /\ Py.int b = Some m /\ Py.int c = Some sec /\
        n = h * 3600 + m * 60 + sec) /\
  parse_time_to_seconds (Some "bad") = None /\
  parse_time_to_seconds (Some "") = None /\
  parse_time_to_seconds (Some "12:30") = None /\
  parse_time_to_seconds None = None /\
  parse_time_to_seconds (Some "25:10:05") = Some 90605.
Proof.
  split; [|repeat split; reflexivity].
  intros time_str n. split.
  - destruct time_str as [s|]; [|discriminate].
    rewrite parse_time_unfold.
    destruct (String.eqb s ""); [discriminate|].
    destruct (Py.split ":" s) as [|a [|b [|c rest]]] eqn:Hs; simpl;
      try discriminate.
    + destruct (Py.int a); discriminate.
    + destruct (Py.int a); simpl; [|discriminate].
      destruct (Py.int b); discriminate.
    + destruct (Py.int a) as [h|] eqn:Ha; simpl; [|discriminate].
      destruct (Py.int b) as [m|] eqn:Hb; simpl; [|discriminate].
      destruct (Py.int c) as [sec|] eqn:Hc; simpl; [|discriminate].
      intros [= <-]. exists s, a, b, c, rest, h, m, sec.
      repeat split; assumption || reflexivity.
  - intros (s & a & b & c & rest & h & m & sec & -> & Hs & Ha & Hb & Hc & ->).
    rewrite parse_time_unfold.
    destruct (String.eqb_spec s "") as [->|_]; [discriminate|].
    rewrite Hs. simpl. rewrite Ha. simpl. rewrite Hb. simpl. rewrite Hc.
    reflexivity.
Qed.

(** The amended claim at ["08:15:30"]. *)
Lemma C5_parse_time_amended_witness :
  parse_time_to_seconds (Some "08:15:30") = Some 29730.
Proof.
  apply (proj1 C5_parse_time_amended).
  exists "08:15:30", "08", "15", "30", [], 8, 15, 30.
  repeat split; reflexivity.
Defined.

(* ===================================================================== *)
(** * Stable sorting *)
(* ===================================================================== *)

Section SortFacts.
Context {A K : Type} (leb : K -> K -> bool) (key : A -> K).

Lemma insert_by_perm x l : insert_by leb key x l ≡ₚ x :: l.
Proof.
  induction l as [|y l IH]; simpl; [reflexivity|].
  destruct (leb (key x) (key y)); [reflexivity|].
  rewrite IH. apply perm_swap.
Qed.

Lemma sort_by_perm l : sort_by leb key l ≡ₚ l.
Proof.
  induction l as [|x l IH]; simpl; [reflexivity|].
  rewrite insert_by_perm, IH. reflexivity.
Qed.

Lemma sort_by_length l : List.length (sort_by leb key l) = List.length l.
Proof. apply Permutation_length, sort_by_perm. Qed.

Hypothesis leb_total : forall a b, leb a b = true \/ leb b a = true.
Hypothesis leb_trans :
  forall a b c, leb a b = true -> leb b c = true -> leb a c = true.

Lemma insert_by_sorted x l :
  StronglySorted (key_le leb key) l ->
  StronglySorted (key_le leb key) (insert_by leb key x l).
Proof.
  induction 1 as [|y l Hs IH Hy]; simpl.
  - repeat constructor.
  - destruct (leb (key x) (key y)) eqn:Hxy.
    + constructor; [constructor; assumption|].
      constructor; [exact Hxy|].
      eapply Forall_impl; [exact Hy|].
      intros z Hz. unfold key_le in *. eauto.
    + constructor; [exact IH|].
      rewrite insert_by_perm. constructor; [|exact Hy].
      unfold key_le. destruct (leb_total (key x) (key y)); congruence.
Qed.

Lemma sort_by_sorted l : StronglySorted (key_le leb key) (sort_by leb key l).
Proof.
  induction l as [|x l IH]; simpl; [constructor|].
  apply insert_by_sorted, IH.
Qed.
End SortFacts.

(** Sorting by a key and then reading the keys is sorting the keys. *)
Lemma sort_by_map {A K : Type} (leb : K -> K -> bool) (key : A -> K) l :
  map key (sort_by leb key l) = sort_by leb id (map key l).
Proof.
  induction l as [|x l IH]; simpl; [reflexivity|].
  rewrite <- IH. generalize (sort_by leb key l). intros s.
  induction s as [|y s IHs]; simpl; [reflexivity|].
  unfold id. destruct (leb (key x) (key y)); simpl; [reflexivity|].
  rewrite IHs. reflexivity.
Qed.

Lemma Zleb_total a b : Z.leb a b = true \/ Z.leb b a = true.
Proof. destruct (Z.leb_spec a b); [left; reflexivity|right; apply Z.leb_le; lia]. Qed.

Lemma Zleb_trans a b c : Z.leb a b = true -> Z.leb b c = true -> Z.leb a c = true.
Proof. rewrite !Z.leb_le. lia. Qed.

Lemma StronglySorted_weaken {A : Type} (R R' : relation A) l :
  (forall a b, R a b -> R' a b) -> StronglySorted R l -> StronglySorted R' l.
Proof.
  intros HR. induction 1 as [|x l Hs IH Hx]; constructor; [exact IH|].
  eapply Forall_impl; [exact Hx|]. intros y. apply HR.
Qed.

(** The sorted list of integers is the only ascending arrangement. *)
Lemma sort_Z_unique (l sorted : list Z) :
  sorted ≡ₚ l -> Sorted Z.le sorted -> sort_by Z.leb id l = sorted.
Proof.
  intros Hp Hs. apply (Sorted_unique Z.le); [| exact Hs |].
  - apply StronglySorted_Sorted.
    eapply StronglySorted_weaken;
      [| apply (sort_by_sorted Z.leb id Zleb_total Zleb_trans)].
    intros a b. unfold key_le, id. apply Z.leb_le.
  - rewrite sort_by_perm. symmetry. exact Hp.
Qed.

Lemma positive_gaps_diffs l :
  positive_gaps l = List.filter (Z.ltb 0) (consecutive_diffs l).
Proof.
  unfold consecutive_diffs.
  induction l as [|a [|b l] IH]; simpl; [reflexivity..|].
  simpl in IH. rewrite IH. destruct (Z.ltb 0 (b - a)); reflexivity.
Qed.

(* ===================================================================== *)
(** * Dicts in insertion order *)
(* ===================================================================== *)

Section OrderedDictFacts.
Context {K V : Type} `{EqDecision K}.
Implicit Types (d : list (K * V)) (k : K).

Lemma od_lookup_alter f dflt k k' d :
  od_lookup k (od_alter f dflt k' d) =
    if decide (k = k') then Some (f (default dflt (od_lookup k' d)))
    else od_lookup k d.
Proof.
  induction d as [|[k0 v] d IH]; simpl.
  - destruct (decide (k = k')); reflexivity.
  - destruct (decide (k' = k0)) as [->|Hne]; simpl.
    + destruct (decide (k = k0)); reflexivity.
    + rewrite IH. destruct (decide (k = k')) as [->|]; [|reflexivity].
      destruct (decide (k' = k0)); [contradiction|reflexivity].
Qed.

Lemma od_keys_alter f dflt k d :
  map fst (od_alter f dflt k d) =
    match od_lookup k d with
    | Some _ => map fst d
    | None => map fst d ++ [k]
    end.
Proof.
  induction d as [|[k0 v] d IH]; simpl; [reflexivity|].
  destruct (decide (k = k0)) as [->|Hne]; simpl; [reflexivity|].
  rewrite IH. destruct (od_lookup k d); reflexivity.
Qed.

Lemma od_lookup_None k d : od_lookup k d = None <-> k ∉ map fst d.
Proof.
  induction d as [|[k0 v] d IH]; simpl.
  - split; [intros _; apply not_elem_of_nil|reflexivity].
  - rewrite not_elem_of_cons. destruct (decide (k = k0)) as [->|Hne].
    + split; [discriminate|intros [[] _]; reflexivity].
    + rewrite IH. tauto.
Qed.

Lemma od_keys_alter_NoDup f dflt k d :
  NoDup (map fst d) -> NoDup (map fst (od_alter f dflt k d)).
Proof.
  intros Hnd. rewrite od_keys_alter.
  destruct (od_lookup k d) eqn:Hk; [exact Hnd|].
  apply NoDup_app. split; [exact Hnd|]. split.
  - intros x Hx Hxk. apply list_elem_of_singleton in Hxk as ->.
    apply od_lookup_None in Hk. contradiction.
  - apply NoDup_singleton.
Qed.

Lemma od_lookup_elem_of k v d :
  NoDup (map fst d) -> (k, v) ∈ d -> od_lookup k d = Some v.
Proof.
  induction d as [|[k0 v0] d IH]; simpl; intros Hnd Hin.
  - apply elem_of_nil in Hin as [].
  - apply NoDup_cons in Hnd as [Hk0 Hnd].
    apply elem_of_cons in Hin as [[= -> ->]|Hin].
    + destruct (decide (k0 = k0)); [reflexivity|contradiction].
    + destruct (decide (k = k0)) as [->|]; [|auto].
      exfalso. apply Hk0. apply list_elem_of_fmap. exists (k0, v). auto.
Qed.
End OrderedDictFacts.

(** A loop that files some of its items under a key: what one key
    holds afterwards. *)
Lemma od_collect_lookup {A K B : Type} `{EqDecision K}
  (f : A -> option (K * B)) (l : list A) (acc : list (K * list B)) (k : K) :
  od_lookup k
    (fold_left (fun acc a => match f a with
                             | Some (k', x) => od_append k' x acc
                             | None => acc
                             end) l acc) =
  let new := omap (fun a => match f a with
                            | Some (k', x) => if decide (k = k') then Some x else None
                            | None => None
                            end) l in
  match od_lookup k acc with
  | Some old => Some (old ++ new)
  | None => match new with [] => None | _ :: _ => Some new end
  end.
Proof.
  revert acc. induction l as [|a l IH]; intros acc; simpl.
  - destruct (od_lookup k acc); [rewrite app_nil_r|]; reflexivity.
  - rewrite IH. clear IH. destruct (f a) as [[k' x]|]; [|reflexivity].
    unfold od_append. rewrite od_lookup_alter.
    destruct (decide (k = k')) as [<-|Hne]; simpl; [|reflexivity].
    destruct (od_lookup k acc) as [old|]; simpl.
    + rewrite <- app_assoc. reflexivity.
    + reflexivity.
Qed.

Lemma od_collect_NoDup {A K B : Type} `{EqDecision K}
  (f : A -> option (K * B)) (l : list A) (acc : list (K * list B)) :
  NoDup (map fst acc) ->
  NoDup (map fst
    (fold_left (fun acc a => match f a with
                             | Some (k', x) => od_append k' x acc
                             | None => acc
                             end) l acc)).
Proof.
  revert acc. induction l as [|a l IH]; intros acc Hnd; simpl; [exact Hnd|].
  apply IH. destruct (f a) as [[k' x]|]; [|exact Hnd].
  apply od_keys_alter_NoDup, Hnd.
Qed.

Lemma fold_left_ext_eq {A B : Type} (f g : A -> B -> A) l a :
  (forall a b, f a b = g a b) -> fold_left f l a = fold_left g l a.
Proof.
  intros Hfg. revert a. induction l as [|b l IH]; intros a; simpl; [reflexivity|].
  rewrite Hfg. apply IH.
Qed.

(* ===================================================================== *)
(** * Headway at a (route, stop) pair *)
(* ===================================================================== *)

Lemma route_stop_times_step_entry t2r acc st :
  route_stop_times_step t2r acc st =
    match pair_entry t2r st with
    | Some (k, e) => od_append k e acc
    | None => acc
    end.
Proof.
  unfold route_stop_times_step, pair_entry.
  destruct (has "stop_id" st && has "trip_id" st); [|reflexivity].
  destruct (t2r !! get "trip_id" st); simpl; [|reflexivity].
  destruct (parse_time_to_seconds (get_or "departure_time" "" st)); reflexivity.
Qed.

(** The entries filed under one (route, stop) pair, in file order. *)
Lemma route_stop_times_lookup d route_id stop_id :
  od_lookup (route_id, stop_id) (route_stop_times d) =
    match omap (fun st =>
                  match pair_entry (trip_to_route (trips d)) st with
                  | Some (k, e) =>
                      if decide ((route_id, stop_id) = k) then Some e else None
                  | None => None
                  end) (stop_times d) with
    | [] => None
    | e :: es => Some (e :: es)
    end.
Proof.
  unfold route_stop_times.
  rewrite (fold_left_ext_eq _ _ _ _ (route_stop_times_step_entry _)).
  rewrite od_collect_lookup. cbv zeta. simpl od_lookup.
  destruct (omap _ (stop_times d)); reflexivity.
Qed.

Lemma pair_departures_entries d route_id stop_id :
  map departure_sec
    (omap (fun st =>
             match pair_entry (trip_to_route (trips d)) st with
             | Some (k, e) =>
                 if decide ((route_id, stop_id) = k) then Some e else None
             | None => None
             end) (stop_times d)) =
  pair_departures d route_id stop_id.
Proof.
  unfold pair_departures.
  induction (stop_times d) as [|st l IH]; simpl; [reflexivity|].
  destruct (pair_entry (trip_to_route (trips d)) st) as [[k e]|]; [|exact IH].
  destruct (decide ((route_id, stop_id) = k)); simpl; [f_equal|]; exact IH.
Qed.

Lemma route_stop_times_NoDup d : NoDup (map fst (route_stop_times d)).
Proof.
  unfold route_stop_times.
  rewrite (fold_left_ext_eq _ _ _ _ (route_stop_times_step_entry _)).
  apply od_collect_NoDup. constructor.
Qed.

(** The sum of the loop and the sum of the specification. *)
Lemma sum_Z_foldr l : sum_Z l = foldr Z.add 0 l.
Proof.
  unfold sum_Z.
  assert (H : forall acc, fold_left Z.add l acc = acc + foldr Z.add 0 l).
  { induction l as [|x l IH]; intros acc; simpl; [lia|]. rewrite IH. lia. }
  rewrite H. lia.
Qed.

(** The average that [get_kpis] reports is the one of the
    specification. *)
Lemma kpi_average_minutes_spec l :
  kpi_average_minutes l = spec_average_minutes l.
Proof.
  destruct l as [|x l]; [reflexivity|].
  unfold kpi_average_minutes, spec_average_minutes.
  rewrite sum_Z_foldr.
  destruct (true_divide _ _); reflexivity.
Qed.

(** With [routes.txt] present the answer holds the two averages, and
    there is no answer exactly when one of them has no value. *)
Lemma get_kpis_averages d :
  routes_txt d <> None ->
  match get_kpis d with
  | Ok k =>
      Some (avg_headway_minutes k) =
        NFloat <$> spec_average_minutes (kpi_headways d) /\
      Some (avg_trip_duration_minutes k) =
        NFloat <$> spec_average_minutes (trip_durations d)
  | HttpError _ _ => False
  | Unhandled =>
      spec_average_minutes (kpi_headways d) = None \/
      spec_average_minutes (trip_durations d) = None
  end.
Proof.
  intros Hr. unfold get_kpis. destruct (routes_txt d); [|contradiction].
  rewrite !kpi_average_minutes_spec.
  destruct (spec_average_minutes (kpi_headways d)) as [h|]; [|left; reflexivity].
  destruct (spec_average_minutes (trip_durations d)) as [t|]; [|right; reflexivity].
  split; reflexivity.
Qed.

(** C1, the claim as stated fails on its own example: the departures
    08:00:00, 08:15:00, 08:15:00, 08:30:00 give the gaps 900, 0, 900, so
    the headways are [[900; 900]] with average 15 minutes, not
    [[900; 1800]] with average 22.5 minutes. *)
Lemma C1_counterexample :
  kpi_headways Examples.headway_data <> [900; 1800] /\
  avg_headway_minutes <$> body (get_kpis Examples.headway_data) <>
    Some (NFloat (decimal "22.5")).
Proof. split; vm_compute; discriminate. Qed.

(** C1, amended: for the system-wide KPI the group of a (route, stop) pair
    holds, in file order, every stop-time with a valid departure-seconds
    value for trips of that route at that stop; its headways are the
    positive consecutive differences of those departures sorted ascending;
    the KPI averages the headways of all pairs. For one pair with
    departures at 08:00:00, 08:15:00, 08:15:00 and 08:30:00 the headways
    are [[900; 900]] (the zero gap of the duplicate is discarded) and the
    average is 900 s = 15 minutes. *)
Theorem C1_headway_amended :
  (forall d route_id stop_id,
      match od_lookup (route_id, stop_id) (route_stop_times d) with
      | Some times =>
          map departure_sec times = pair_departures d route_id stop_id /\
          times <> []
      | None => pair_departures d route_id stop_id = []
      end) /\
  (forall d route_id stop_id times sorted,
      od_lookup (route_id, stop_id) (route_stop_times d) = Some times ->
      sorted ≡ₚ pair_departures d route_id stop_id ->
      Sorted Z.le sorted ->
      group_headways times = List.filter (Z.ltb 0) (consecutive_diffs sorted)) /\
  (forall d,
      kpi_headways d = flat_map (fun kt => group_headways (snd kt)) (route_stop_times d) /\
      NoDup (map fst (route_stop_times d))) /\
  (forall d,
      routes_txt d <> None ->
      match get_kpis d with
      | Ok k =>
          Some (avg_headway_minutes k) =
            NFloat <$> spec_average_minutes (kpi_headways d)
      | HttpError _ _ => False
      | Unhandled =>
          spec_average_minutes (kpi_headways d) = None \/
          spec_average_minutes (trip_durations d) = None
      end) /\
  kpi_headways Examples.headway_data = [900; 900] /\
  avg_headway_minutes <$> body (get_kpis Examples.headway_data) =
    Some (NFloat (decimal "15")).
Proof.
  split; [|split; [|split; [|split; [|split]]]].
  - intros d route_id stop_id. rewrite route_stop_times_lookup.
    rewrite <- pair_departures_entries.
    destruct (omap _ (stop_times d)) as [|e es]; [reflexivity|].
    split; [reflexivity|discriminate].
  - intros d route_id stop_id times sorted Hlook Hperm Hsorted.
    rewrite route_stop_times_lookup in Hlook.
    rewrite <- pair_departures_entries in Hperm.
    destruct (omap _ (stop_times d)) as [|e es] eqn:He; [discriminate|].
    injection Hlook as <-.
    unfold group_headways. rewrite sort_by_map.
    rewrite (sort_Z_unique _ sorted Hperm Hsorted).
    apply positive_gaps_diffs.
  - intros d. split; [|apply route_stop_times_NoDup].
    unfold kpi_headways. apply flat_map_ext. intros [k times]. reflexivity.
  - intros d Hr. pose proof (get_kpis_averages d Hr) as H.
    destruct (get_kpis d) as [k| |]; [exact (proj1 H)|exact H|exact H].
  - reflexivity.
  - vm_compute. reflexivity.
Qed.

(** The amended claim at the example: the group of (R1, S1). *)
Lemma C1_headway_amended_witness :
  group_headways
    [DepEntry (Some "T1") 28800 (Some "R1"); DepEntry (Some "T2") 29700 (Some "R1");
     DepEntry (Some "T3") 29700 (Some "R1"); DepEntry (Some "T4") 30600 (Some "R1")] =
  List.filter (Z.ltb 0) (consecutive_diffs [28800; 29700; 29700; 30600]).
Proof.
  apply (proj1 (proj2 C1_headway_amended) Examples.headway_data (Some "R1") (Some "S1")).
  - reflexivity.
  - reflexivity.
  - repeat constructor; lia.
Defined.

(* ===================================================================== *)
(** * Trip duration *)
(* ===================================================================== *)

Lemma trip_times_step_fold acc st :
  trip_times_step acc st =
    if Py.truthy (get "trip_id" st) then
      fold_left (fun acc x => od_alter (widen x) no_span (get "trip_id" st) acc)
        (stop_time_seconds st) acc
    else acc.
Proof.
  unfold trip_times_step, stop_time_seconds.
  destruct (Py.truthy (get "trip_id" st)); simpl; [|reflexivity].
  destruct (parse_time_to_seconds (get_or "arrival_time" "" st));
    destruct (parse_time_to_seconds (get_or "departure_time" "" st)); reflexivity.
Qed.

Lemma trip_times_pairs sts acc :
  fold_left trip_times_step sts acc =
    fold_left (fun acc kx => od_alter (widen (snd kx)) no_span (fst kx) acc)
      (trip_pairs sts) acc.
Proof.
  revert acc. induction sts as [|st sts IH]; intros acc; simpl; [reflexivity|].
  rewrite fold_left_app, <- IH. f_equal.
  rewrite trip_times_step_fold.
  destruct (Py.truthy (get "trip_id" st)); [|reflexivity].
  generalize (stop_time_seconds st). intros xs. revert acc.
  induction xs as [|x xs IHx]; intros acc; simpl; [reflexivity|apply IHx].
Qed.

(** What one key holds after a loop that widens spans. *)
Lemma widen_fold_lookup (l : list (Py.val * Z)) acc k :
  od_lookup k
    (fold_left (fun acc kx => od_alter (widen (snd kx)) no_span (fst kx) acc) l acc) =
  let xs := omap (fun kx => if decide (k = fst kx) then Some (snd kx) else None) l in
  match od_lookup k acc with
  | Some t => Some (fold_left (fun t x => widen x t) xs t)
  | None =>
      match xs with
      | [] => None
      | _ :: _ => Some (fold_left (fun t x => widen x t) xs no_span)
      end
  end.
Proof.
  revert acc. induction l as [|[k' x] l IH]; intros acc; simpl.
  - destruct (od_lookup k acc); reflexivity.
  - rewrite IH. clear IH. rewrite od_lookup_alter.
    destruct (decide (k = k')) as [<-|Hne]; simpl; [|reflexivity].
    destruct (od_lookup k acc); reflexivity.
Qed.

Lemma widen_bounds x lo hi :
  widen x (Span (Some lo) (Some hi)) = Span (Some (Z.min lo x)) (Some (Z.max hi x)).
Proof.
  unfold widen. simpl.
  destruct (Z.ltb_spec x lo); simpl; destruct (Z.gtb_spec x hi); simpl;
    f_equal; f_equal; lia.
Qed.

Lemma widen_fold xs lo hi :
  fold_left (fun t x => widen x t) xs (Span (Some lo) (Some hi)) =
    Span (Some (fold_left Z.min xs lo)) (Some (fold_left Z.max xs hi)).
Proof.
  revert lo hi. induction xs as [|x xs IH]; intros lo hi; simpl; [reflexivity|].
  rewrite widen_bounds. apply IH.
Qed.

Lemma trip_pairs_values sts k :
  omap (fun kx : Py.val * Z => if decide (k = fst kx) then Some (snd kx) else None)
    (trip_pairs sts) =
  if Py.truthy k
  then flat_map (fun st => if val_eqb (get "trip_id" st) k
                           then stop_time_seconds st else []) sts
  else [].
Proof.
  induction sts as [|st sts IH]; simpl.
  - destruct (Py.truthy k); reflexivity.
  - rewrite omap_app, IH. clear IH. unfold val_eqb.
    destruct (Py.truthy (get "trip_id" st)) eqn:Ht.
    + destruct (decide (k = get "trip_id" st)) as [->|Hne].
      * rewrite Ht. rewrite bool_decide_eq_true_2 by reflexivity. f_equal.
        induction (stop_time_seconds st) as [|x xs IHx]; simpl; [reflexivity|].
        destruct (decide (get "trip_id" st = get "trip_id" st)); [|contradiction].
        simpl. f_equal. exact IHx.
      * rewrite bool_decide_eq_false_2 by congruence.
        replace (omap _ (map (pair (get "trip_id" st)) (stop_time_seconds st)))
          with (@nil Z); [destruct (Py.truthy k); reflexivity|].
        induction (stop_time_seconds st) as [|x xs IHx]; simpl; [reflexivity|].
        destruct (decide (k = get "trip_id" st)); [contradiction|exact IHx].
    + simpl. destruct (Py.truthy k) eqn:Hk; [|reflexivity].
      rewrite bool_decide_eq_false_2; [reflexivity|]. congruence.
Qed.

(** The span kept for a trip id: absent for an id the loop skips or
    without a parseable time, else the least and the greatest value. *)
Lemma trip_times_lookup d trip_id :
  od_lookup trip_id (trip_times d) =
    if Py.truthy trip_id then
      match list_min (trip_seconds d trip_id), list_max (trip_seconds d trip_id) with
      | Some lo, Some hi => Some (Span (Some lo) (Some hi))
      | _, _ => None
      end
    else None.
Proof.
  unfold trip_times. rewrite trip_times_pairs, widen_fold_lookup.
  cbv zeta. simpl od_lookup. rewrite trip_pairs_values.
  unfold trip_seconds. destruct (Py.truthy trip_id); [|reflexivity].
  destruct (flat_map _ (stop_times d)) as [|x xs]; [reflexivity|].
  simpl. f_equal. change (widen x no_span) with (Span (Some x) (Some x)).
  apply widen_fold.
Qed.

Lemma trip_times_NoDup d : NoDup (map fst (trip_times d)).
Proof.
  unfold trip_times. rewrite trip_times_pairs.
  generalize (trip_pairs (stop_times d)). intros l.
  assert (H : NoDup (map fst (@nil (Py.val * span)))) by constructor.
  revert H. generalize (@nil (Py.val * span)).
  induction l as [|[k x] l IH]; intros acc Hnd; simpl; [exact Hnd|].
  apply IH, od_keys_alter_NoDup, Hnd.
Qed.

Lemma omap_fst_ext {K V B : Type} (f : V -> option B) (g : K -> option B)
  (l : list (K * V)) :
  (forall k t, (k, t) ∈ l -> f t = g k) ->
  omap (fun '(_, t) => f t) l = omap g (map fst l).
Proof.
  induction l as [|[k t] l IH]; intros H; [reflexivity|].
  cbn. rewrite (H k t) by (apply elem_of_cons; left; reflexivity).
  rewrite IH; [reflexivity|].
  intros k' t' Hin. apply H. apply elem_of_cons. right. exact Hin.
Qed.

Lemma trip_durations_spec d :
  trip_durations d = omap (spec_trip_duration d) (map fst (trip_times d)).
Proof.
  unfold trip_durations.
  assert (H : forall k t, (k, t) ∈ trip_times d ->
                          span_duration t = spec_trip_duration d k).
  { intros k t Hin.
    apply (od_lookup_elem_of _ _ _ (trip_times_NoDup d)) in Hin.
    rewrite trip_times_lookup in Hin. unfold spec_trip_duration.
    destruct (Py.truthy k); [|discriminate].
    destruct (list_min (trip_seconds d k)) as [lo|]; [|discriminate].
    destruct (list_max (trip_seconds d k)) as [hi|]; [|discriminate].
    injection Hin as <-. reflexivity. }
  apply omap_fst_ext, H.
Qed.

(** C6, the claim as stated fails in its last part: the KPI is not
    always the average of the positive durations. Without [routes.txt] the
    trip of 660 s is there and the KPI reports 0; and for one trip of 100 s
    the KPI reports 1.67, the quotient rounded to two decimals, not the
    average 100 / 60 that binary64 holds. *)
Lemma C6_counterexample :
  trip_durations Examples.no_routes_data = [660] /\
  avg_trip_duration_minutes <$> body (get_kpis Examples.no_routes_data) =
    Some (NInt 0) /\
  trip_durations Examples.hundred_seconds_data = [100] /\
  avg_trip_duration_minutes <$> body (get_kpis Examples.hundred_seconds_data) =
    Some (NFloat (decimal "1.67")) /\
  true_divide 100 60 <> Some (decimal "1.67").
Proof. repeat split; (vm_compute; reflexivity) || (vm_compute; discriminate). Qed.

(** C6, amended: the span kept for a trip holds the least and the
    greatest of all parseable arrival- and departure-seconds values of the
    trip's stop-times; the trip's duration is their difference, kept when
    positive; the durations list has one entry per trip with a positive
    duration. With [routes.txt] present the KPI reports the average of that
    list in minutes, as binary64 computes it and rounded to two decimals,
    and there is no answer when a quotient is beyond binary64; without
    [routes.txt] the KPI reports 0. The trip with stop-times
    (arr=None, dep=28800) and (arr=29400, dep=29460) has duration 660 s,
    that is 11 minutes; two trips of 1200 s and 900 s give 17.5 minutes. *)
Theorem C6_trip_duration_amended :
  (forall d trip_id,
      Py.truthy trip_id = true ->
      od_lookup trip_id (trip_times d) =
        match list_min (trip_seconds d trip_id), list_max (trip_seconds d trip_id) with
        | Some lo, Some hi => Some (Span (Some lo) (Some hi))
        | _, _ => None
        end) /\
  (forall d,
      NoDup (map fst (trip_times d)) /\
      trip_durations d = omap (spec_trip_duration d) (map fst (trip_times d))) /\
  (forall d,
      routes_txt d <> None ->
      match get_kpis d with
      | Ok k =>
          Some (avg_trip_duration_minutes k) =
            NFloat <$> spec_average_minutes (trip_durations d)
      | HttpError _ _ => False
      | Unhandled =>
          spec_average_minutes (kpi_headways d) = None \/
          spec_average_minutes (trip_durations d) = None
      end) /\
  (forall d,
      routes_txt d = None ->
      avg_trip_duration_minutes <$> body (get_kpis d) = Some (NInt 0)) /\
  trip_seconds Examples.duration_data (Some "T1") = [28800; 29400; 29460] /\
  spec_trip_duration Examples.duration_data (Some "T1") = Some 660 /\
  trip_durations Examples.duration_data = [660] /\
  avg_trip_duration_minutes <$> body (get_kpis Examples.duration_data) =
    Some (NFloat (decimal "11")) /\
  trip_durations Examples.midnight_data = [1200; 900] /\
  avg_trip_duration_minutes <$> body (get_kpis Examples.midnight_data) =
    Some (NFloat (decimal "17.5")).
Proof.
  split; [|split; [|split; [|split]]].
  - intros d trip_id Ht. rewrite trip_times_lookup, Ht. reflexivity.
  - intros d. split; [apply trip_times_NoDup|apply trip_durations_spec].
  - intros d Hr. pose proof (get_kpis_averages d Hr) as H.
    destruct (get_kpis d) as [k| |]; [exact (proj2 H)|exact H|exact H].
  - intros d Hr. unfold get_kpis. rewrite Hr. reflexivity.
  - repeat split; vm_compute; reflexivity.
Qed.

(** The amended claim at the example trip. *)
Lemma C6_trip_duration_amended_witness :
  od_lookup (Some "T1") (trip_times Examples.duration_data) =
    Some (Span (Some 28800) (Some 29460)).
Proof.
  apply (proj1 C6_trip_duration_amended Examples.duration_data (Some "T1")).
  reflexivity.
Defined.

(* ===================================================================== *)
(** * Metrics without samples *)
(* ===================================================================== *)

(** What a successful [get_route_details] is made of. *)
Lemma get_route_details_Ok d route_id body :
  get_route_details d route_id = Ok body ->
  let route_trips := rows_with "route_id" (Some route_id) (trips d) in
  exists route details firsts,
    head (rows_with "route_id" (Some route_id) (routes d)) = Some route /\
    mapM (trip_details d) route_trips = Some details /\
    first_stops_by_trip [] (route_stop_times_of d route_trips) = Some firsts /\
    body = RouteDetails route (List.length route_trips) (omap id details)
             (route_average_headway (first_stop_headways firsts))
             (List.length (remove_dups
                (map (get "stop_id") (route_stop_times_of d route_trips)))).
Proof.
  unfold get_route_details, route_details_try.
  destruct (invalid_route_id route_id); [discriminate|].
  destruct (head (rows_with "route_id" (Some route_id) (routes d)))
    as [route|]; [|discriminate].
  destruct (mapM (trip_details d) _) as [details|]; simpl; [|discriminate].
  destruct (first_stops_by_trip [] _) as [firsts|]; simpl; [|discriminate].
  intros [= <-]. exists route, details, firsts. repeat split; reflexivity.
Qed.

(** C8, the claim as stated fails: with no headway sample and no trip
    duration, the two system-wide averages are the number 0, not null. *)
Lemma C8_counterexample :
  kpi_headways Examples.empty_data = [] /\
  trip_durations Examples.empty_data = [] /\
  avg_headway_minutes <$> body (get_kpis Examples.empty_data) =
    Some (NFloat fzero) /\
  avg_headway_minutes <$> body (get_kpis Examples.empty_data) <> Some NNull /\
  avg_trip_duration_minutes <$> body (get_kpis Examples.empty_data) =
    Some (NFloat fzero) /\
  avg_trip_duration_minutes <$> body (get_kpis Examples.empty_data) <> Some NNull.
Proof. repeat split; (reflexivity || discriminate). Qed.

(** C8, amended: an average of [get_kpis] without samples does not raise
    and is the number 0, not null: the float 0.0, or the integer 0 of the
    answer for a missing [routes.txt]; with no headway and no duration
    sample [get_kpis] answers; its counts over empty tables are 0; in the
    route detail bundle the average headway is null when no positive
    first-stop headway exists, and a trip's [duration_minutes] is null when
    an endpoint time does not parse. *)
Theorem C8_no_samples_amended :
  kpi_average_minutes [] = Some fzero /\
  (forall d, kpi_headways d = [] -> trip_durations d = [] ->
             exists k, get_kpis d = Ok k) /\
  (forall d k, get_kpis d = Ok k -> kpi_headways d = [] ->
               avg_headway_minutes k =
                 match routes_txt d with
                 | Some _ => NFloat fzero
                 | None => NInt 0
                 end) /\
  (forall d k, get_kpis d = Ok k -> trip_durations d = [] ->
               avg_trip_duration_minutes k =
                 match routes_txt d with
                 | Some _ => NFloat fzero
                 | None => NInt 0
                 end) /\
  (forall d k, get_kpis d = Ok k -> routes d = [] -> total_routes k = 0%nat) /\
  (forall d k, get_kpis d = Ok k -> trips d = [] -> total_trips k = 0%nat) /\
  (forall d k, get_kpis d = Ok k -> routes_txt d <> None -> stops d = [] ->
               total_stops k = 0%nat) /\
  (forall d route_id body,
      get_route_details d route_id = Ok body ->
      exists firsts,
        first_stops_by_trip []
          (route_stop_times_of d (rows_with "route_id" (Some route_id) (trips d)))
          = Some firsts /\
        (first_stop_headways firsts = [] -> rd_avg_headway_minutes body = JNull)) /\
  (forall dep_sec arr_sec,
      dep_sec = None \/ arr_sec = None -> duration_minutes dep_sec arr_sec = JNull).
Proof.
  repeat apply conj.
  - reflexivity.
  - intros d Hh Ht. unfold get_kpis. rewrite Hh, Ht.
    destruct (routes_txt d); eexists; reflexivity.
  - intros d k Hk Hh. unfold get_kpis in Hk. rewrite Hh in Hk.
    destruct (routes_txt d); [|injection Hk as <-; reflexivity].
    change (kpi_average_minutes []) with (Some fzero) in Hk.
    destruct (kpi_average_minutes (trip_durations d)); [|discriminate].
    injection Hk as <-. reflexivity.
  - intros d k Hk Ht. unfold get_kpis in Hk. rewrite Ht in Hk.
    destruct (routes_txt d); [|injection Hk as <-; reflexivity].
    change (kpi_average_minutes []) with (Some fzero) in Hk.
    destruct (kpi_average_minutes (kpi_headways d)); [|discriminate].
    injection Hk as <-. reflexivity.
  - intros d k Hk. unfold routes. unfold get_kpis in Hk.
    destruct (routes_txt d) as [r|]; simpl; [intros ->|injection Hk as <-; reflexivity].
    destruct (kpi_average_minutes (kpi_headways d)); [|discriminate].
    destruct (kpi_average_minutes (trip_durations d)); [|discriminate].
    injection Hk as <-. reflexivity.
  - intros d k Hk H. unfold get_kpis in Hk. rewrite H in Hk.
    destruct (routes_txt d); [|injection Hk as <-; reflexivity].
    destruct (kpi_average_minutes (kpi_headways d)); [|discriminate].
    destruct (kpi_average_minutes (trip_durations d)); [|discriminate].
    injection Hk as <-. reflexivity.
  - intros d k Hk Hr H. unfold get_kpis in Hk. rewrite H in Hk.
    destruct (routes_txt d); [|contradiction].
    destruct (kpi_average_minutes (kpi_headways d)); [|discriminate].
    destruct (kpi_average_minutes (trip_durations d)); [|discriminate].
    injection Hk as <-. reflexivity.
  - intros d route_id body Hok.
    destruct (get_route_details_Ok _ _ _ Hok)
      as (route & details & firsts & _ & _ & Hf & ->).
    exists firsts. split; [exact Hf|]. simpl. intros ->. reflexivity.
  - intros dep_sec arr_sec [-> | ->]; unfold duration_minutes; simpl;
      [rewrite andb_false_r|]; reflexivity.
Qed.

(** The amended claim at the empty data set. *)
Lemma C8_no_samples_amended_witness :
  exists k, get_kpis Examples.empty_data = Ok k.
Proof.
  apply (proj1 (proj2 C8_no_samples_amended) Examples.empty_data); reflexivity.
Defined.

(* ===================================================================== *)
(** * Departure board *)
(* ===================================================================== *)

Lemma string_leb_trans (a b c : string) :
  String.leb a b = true -> String.leb b c = true -> String.leb a c = true.
Proof.
  unfold String.leb. revert b c.
  induction a as [|x a IH]; intros [|y b] [|z c]; simpl;
    try (intros; first [reflexivity | discriminate]).
  unfold Ascii.compare.
  destruct (N.compare_spec (N_of_ascii x) (N_of_ascii y));
    destruct (N.compare_spec (N_of_ascii y) (N_of_ascii z));
    destruct (N.compare_spec (N_of_ascii x) (N_of_ascii z));
    try (intros; first [reflexivity | discriminate | lia]).
  apply IH.
Qed.

(** A loop that appends the image of the items passing a test. *)
Lemma fold_left_append_filter {A B : Type} (c : A -> bool) (f : A -> B) l acc :
  fold_left (fun acc a => if c a then acc ++ [f a] else acc) l acc =
    acc ++ map f (List.filter c l).
Proof.
  revert acc. induction l as [|a l IH]; intros acc; simpl.
  - rewrite app_nil_r. reflexivity.
  - rewrite IH. destruct (c a); simpl; [rewrite <- app_assoc|]; reflexivity.
Qed.

Lemma departures_collect d stop_id :
  departures d stop_id =
    map (departure_of d) (List.filter (at_stop_with_departure stop_id) (stop_times d)).
Proof.
  unfold departures.
  rewrite <- (app_nil_l (map _ _)), <- fold_left_append_filter.
  apply fold_left_ext_eq. intros acc st. reflexivity.
Qed.

(** C2, the claim as stated fails where it asks for a departure time:
    the board takes a stop-time whose [departure_time] is empty or [None],
    and lists it before the entries that have a time. *)
Lemma C2_counterexample :
  map dp_departure_time (departures Examples.null_time_data "S1") =
    [Some "08:05:00"; Some ""; None] /\
  map dp_departure_time (get_stop_departures Examples.null_time_data "S1") =
    [Some ""; None; Some "08:05:00"].
Proof. split; reflexivity. Qed.

(** C2, amended: the board collects, in file order, every stop-time at
    the stop whose row has a [departure_time] member, also when its value
    is empty or [None]; it arranges the entries ascending by the raw time
    string under the byte-wise lexicographic order of strings, an empty or
    [None] value counting as the empty string, and returns the first 20 of
    them at most. For the times ["7:50:00"], ["24:10:00"] and ["08:05:00"]
    the board reads ["08:05:00"], ["24:10:00"], ["7:50:00"], although
    7:50:00 is the earliest time of day. *)
Theorem C2_departure_board_amended :
  (forall d stop_id,
      departures d stop_id =
        map (departure_of d)
          (List.filter (at_stop_with_departure stop_id) (stop_times d)) /\
      exists sorted,
        sorted ≡ₚ departures d stop_id /\
        StronglySorted (key_le String.leb departure_key) sorted /\
        get_stop_departures d stop_id = firstn 20 sorted /\
        (List.length (get_stop_departures d stop_id) <= 20)%nat) /\
  (forall x,
      departure_key x =
        match dp_departure_time x with
        | Some time => time
        | None => ""
        end) /\
  map dp_departure_time (get_stop_departures Examples.board_data "S1") =
    [Some "08:05:00"; Some "24:10:00"; Some "7:50:00"] /\
  parse_time_to_seconds (Some "7:50:00") = Some 28200 /\
  parse_time_to_seconds (Some "08:05:00") = Some 29100 /\
  parse_time_to_seconds (Some "24:10:00") = Some 87000.
Proof.
  split; [|split; [|repeat split; reflexivity]].
  - intros d stop_id. split; [apply departures_collect|].
    exists (sort_by String.leb departure_key (departures d stop_id)).
    split; [apply sort_by_perm|].
    split; [apply sort_by_sorted; [apply String.leb_total|apply string_leb_trans]|].
    split; [reflexivity|].
    unfold get_stop_departures. rewrite length_firstn. lia.
  - intros x. unfold departure_key.
    destruct (dp_departure_time x) as [time|]; simpl; [|reflexivity].
    destruct (String.eqb_spec time "") as [->|_]; reflexivity.
Qed.

(* ===================================================================== *)
(** * Unknown route ids *)
(* ===================================================================== *)

Lemma filter_none {A : Type} (p : A -> bool) l :
  (forall x, p x = false) -> List.filter p l = [].
Proof.
  intros H. induction l as [|x l IH]; simpl; [reflexivity|].
  rewrite H. exact IH.
Qed.

Lemma rows_with_none k v table :
  Forall (fun r => get k r <> v) table -> rows_with k v table = [].
Proof.
  unfold rows_with. induction 1 as [|r l Hr _ IH]; simpl; [reflexivity|].
  unfold val_eqb at 1. rewrite bool_decide_eq_false_2 by exact Hr. exact IH.
Qed.

(** Without a trip of the route, the stops query answers the empty
    list. *)
Lemma get_route_stops_no_trips d route_id :
  rows_with "route_id" (Some route_id) (trips d) = [] ->
  get_route_stops d route_id = Ok [].
Proof.
  intros H. unfold get_route_stops, route_stops_try.
  destruct (invalid_route_id route_id); [reflexivity|].
  rewrite H. simpl.
  rewrite (filter_none _ (stop_times d)).
  2: { intros st. apply bool_decide_eq_false_2. simpl. apply not_elem_of_empty. }
  simpl. rewrite (filter_none _ (stops d)); [reflexivity|].
  intros st. apply bool_decide_eq_false_2. simpl. apply not_elem_of_empty.
Qed.

Lemma get_route_stats_no_trips d route_id :
  rows_with "route_id" (Some route_id) (trips d) = [] ->
  get_route_stats d route_id = Ok (RouteStats 0 ∅).
Proof.
  intros H. unfold get_route_stats.
  destruct (invalid_route_id route_id); [reflexivity|].
  rewrite H. reflexivity.
Qed.

(** C7, the claim as stated fails: for the unknown id R9 the stops and
    stats queries answer with a success body, the same body they give for
    the known route R2 that has no trips. *)
Lemma C7_counterexample :
  rows_with "route_id" (Some "R9") (routes Examples.lookup_data) = [] /\
  List.length (rows_with "route_id" (Some "R2") (routes Examples.lookup_data)) = 1%nat /\
  get_route_stops Examples.lookup_data "R9" = Ok [] /\
  get_route_stops Examples.lookup_data "R2" = Ok [] /\
  get_route_stats Examples.lookup_data "R9" = Ok (RouteStats 0 ∅) /\
  get_route_stats Examples.lookup_data "R2" = Ok (RouteStats 0 ∅).
Proof.
  repeat split; reflexivity.
Qed.

(** C7, amended: for a route id that matches no route of [routes.txt],
    route details answers with an explicit error: not found (404), or
    invalid id (400) when the id is empty or the text "undefined"; route
    stops and route stats never read [routes.txt]: they answer from the
    trips table alone, and when no trip names the id, or the id is empty or
    "undefined", they return the empty list and the zero statistics, as for
    a known route without trips. *)
Theorem C7_unknown_route_amended :
  forall d route_id,
    Forall (fun r => get "route_id" r <> Some route_id) (routes d) ->
    get_route_details d route_id =
      (if invalid_route_id route_id then HttpError 400 "Invalid route_id"
       else HttpError 404 "Route not found") /\
    (forall routes_txt',
        let d' := Dataset routes_txt' (trips d) (stops d) (stop_times d) in
        get_route_stops d' route_id = get_route_stops d route_id /\
        get_route_stats d' route_id = get_route_stats d route_id) /\
    (invalid_route_id route_id = true \/
     rows_with "route_id" (Some route_id) (trips d) = [] ->
     get_route_stops d route_id = Ok [] /\
     get_route_stats d route_id = Ok (RouteStats 0 ∅)).
Proof.
  intros d route_id Hnone. repeat apply conj.
  - unfold get_route_details. destruct (invalid_route_id route_id); [reflexivity|].
    rewrite (rows_with_none _ _ _ Hnone). reflexivity.
  - intros r. split; reflexivity.
  - intros [H|H].
    + unfold get_route_stops, get_route_stats. rewrite H. split; reflexivity.
    + split; [apply get_route_stops_no_trips, H|apply get_route_stats_no_trips, H].
Qed.

(** The amended claim at the unknown id R9 and at the id "undefined",
    which matches no route either. *)
Lemma C7_unknown_route_amended_witness :
  get_route_details Examples.lookup_data "R9" = HttpError 404 "Route not found" /\
  get_route_details Examples.lookup_data "undefined" =
    HttpError 400 "Invalid route_id".
Proof.
  split.
  - apply (C7_unknown_route_amended Examples.lookup_data "R9").
    repeat constructor; discriminate.
  - apply (C7_unknown_route_amended Examples.lookup_data "undefined").
    repeat constructor; discriminate.
Defined.

(* ===================================================================== *)
(** * Times that parse to zero in the route detail bundle *)
(* ===================================================================== *)

Lemma duration_minutes_zero dep_sec arr_sec :
  dep_sec = Some 0 \/ arr_sec = Some 0 -> duration_minutes dep_sec arr_sec = JNull.
Proof.
  intros [-> | ->]; unfold duration_minutes; simpl;
    [rewrite andb_false_r|]; reflexivity.
Qed.

(** The detail of a trip reports the raw endpoint times its duration was
    computed from. *)
Lemma trip_details_duration d trip t :
  trip_details d trip = Some (Some t) ->
  td_duration_minutes t =
    duration_minutes (parse_time_to_seconds (td_departure_time t))
                     (parse_time_to_seconds (td_arrival_time t)).
Proof.
  unfold trip_details.
  destruct (rows_with "trip_id" (get "trip_id" trip) (stop_times d))
    as [|st0 rest]; [discriminate|].
  destruct (sort_by_seq (st0 :: rest)) as [sorted|]; simpl; [|discriminate].
  intros [= <-]. simpl. rewrite !parse_get_or. reflexivity.
Qed.

Lemma first_stop_times_nonzero firsts : 0 ∉ first_stop_times firsts.
Proof.
  unfold first_stop_times. rewrite sort_by_perm.
  intros Hin. apply list_elem_of_omap in Hin as ([k st] & _ & H).
  destruct (parse_time_to_seconds (get_or "departure_time" "" st)) as [x|];
    [|discriminate].
  unfold nonzero in H.
  destruct (Z.eqb_spec x 0) as [E|E]; simpl in H; [discriminate|].
  congruence.
Qed.

Lemma omap_filter_dropped {A B : Type} (g : A -> option B) (p : A -> bool) l :
  (forall x, p x = false -> g x = None) ->
  omap g (List.filter p l) = omap g l.
Proof.
  intros H. induction l as [|x l IH]; [reflexivity|].
  cbn. destruct (p x) eqn:Hp; cbn; [rewrite IH; reflexivity|].
  rewrite (H x Hp). exact IH.
Qed.

Lemma first_stop_times_filter firsts :
  first_stop_times firsts =
    first_stop_times
      (List.filter (fun kst => negb (departs_at_zero (snd kst))) firsts).
Proof.
  unfold first_stop_times. f_equal. symmetry.
  apply omap_filter_dropped. intros [k st] Hz. simpl in Hz.
  apply negb_false_iff, bool_decide_eq_true_1 in Hz.
  rewrite parse_get_or, Hz. reflexivity.
Qed.

(** C10: in a route detail bundle, a trip whose first-stop departure or
    last-stop arrival parses to exactly 0 seconds reports a null
    [duration_minutes], and the route-level average headway is computed
    from the first-stop departures with those that parse to 0 left out. *)
Theorem C10_zero_time_is_absent :
  forall d route_id body,
    get_route_details d route_id = Ok body ->
    (forall t,
        t ∈ rd_trips body ->
        parse_time_to_seconds (td_departure_time t) = Some 0 \/
        parse_time_to_seconds (td_arrival_time t) = Some 0 ->
        td_duration_minutes t = JNull) /\
    exists firsts,
      first_stops_by_trip []
        (route_stop_times_of d (rows_with "route_id" (Some route_id) (trips d)))
        = Some firsts /\
      rd_avg_headway_minutes body =
        route_average_headway (first_stop_headways firsts) /\
      (0 ∉ first_stop_times firsts) /\
      first_stop_headways firsts =
        first_stop_headways
          (List.filter (fun kst => negb (departs_at_zero (snd kst))) firsts).
Proof.
  intros d route_id body Hok.
  destruct (get_route_details_Ok _ _ _ Hok)
    as (route & details & firsts & _ & Hd & Hf & ->).
  split.
  - intros t Hin Hzero. simpl in Hin.
    apply list_elem_of_omap in Hin as (o & Hin & Ho). simpl in Ho. subst o.
    apply mapM_Some_1 in Hd.
    apply list_elem_of_lookup in Hin as [i Hi].
    destruct (Forall2_lookup_r _ _ _ _ _ Hd Hi) as (trip & _ & Htrip).
    rewrite (trip_details_duration _ _ _ Htrip).
    apply duration_minutes_zero, Hzero.
  - exists firsts. split; [exact Hf|]. split; [reflexivity|].
    split; [apply first_stop_times_nonzero|].
    unfold first_stop_headways. rewrite <- first_stop_times_filter. reflexivity.
Qed.

(** The claim at the route whose first trip leaves at 00:00:00. *)
Lemma C10_zero_time_is_absent_witness :
  exists body,
    get_route_details Examples.midnight_data "R1" = Ok body /\
    forall t,
      t ∈ rd_trips body ->
      parse_time_to_seconds (td_departure_time t) = Some 0 \/
      parse_time_to_seconds (td_arrival_time t) = Some 0 ->
      td_duration_minutes t = JNull.
Proof.
  destruct (get_route_details Examples.midnight_data "R1") as [body| |] eqn:H;
    [|vm_compute in H; discriminate..].
  exists body. split; [reflexivity|].
  apply (C10_zero_time_is_absent Examples.midnight_data "R1" body H).
Defined.

(** The bundle of that route: the trip that leaves at 00:00:00 has no
    duration although it arrives at 00:20:00, and the average headway is
    the 20 minutes between 00:10:00 and 00:30:00. *)
Example midnight_bundle :
  (fun body => (map td_departure_time (rd_trips body),
                map td_arrival_time (rd_trips body),
                map td_duration_minutes (rd_trips body),
                rd_avg_headway_minutes body))
    <$> (match get_route_details Examples.midnight_data "R1" with
         | Ok body => Some body
         | _ => None
         end) =
  Some ([Some "00:00:00"; Some "00:10:00"; Some "00:30:00"],
        [Some "00:20:00"; Some "00:25:00"; Some "00:30:00"],
        [JNull; JNum 15; JNull],
        JNum 20).
Proof. reflexivity. Qed.

(* ===================================================================== *)
(** * Path builder: which coordinates enter a path *)
(* ===================================================================== *)

(** The test of the batch is the validity of a position. *)
Lemma batch_accepts_valid lat lon :
  batch_accepts lat lon = valid_position lat lon.
Proof.
  unfold batch_accepts, valid_position, Py.fle, Py.fne.
  rewrite negb_andb. reflexivity.
Qed.

(** In the batch a stop-time adds a coordinate exactly when its stop is
    known, both coordinate texts parse, and the position is valid. *)
Lemma batch_coord_Keep sdict st lat lon :
  batch_coord sdict st = Keep (lat, lon) <->
  exists stop lat_str lon_str,
    stripped "stop_id" st <> "" /\
    sdict !! stripped "stop_id" st = Some stop /\ stop <> ∅ /\
    coord_text "stop_lat" stop = Some lat_str /\
    coord_text "stop_lon" stop = Some lon_str /\
    Py.float lat_str = Some lat /\ Py.float lon_str = Some lon /\
    valid_position lat lon = true.
Proof.
  unfold batch_coord. split.
  - destruct (String.eqb_spec (stripped "stop_id" st) "") as [|Hid]; [discriminate|].
    destruct (sdict !! stripped "stop_id" st) as [stop|]; [|discriminate].
    case_bool_decide as Hstop; [discriminate|].
    destruct (coord_text "stop_lat" stop) as [lat_str|] eqn:Hlt; [|discriminate].
    destruct (coord_text "stop_lon" stop) as [lon_str|] eqn:Hln; [|discriminate].
    destruct (String.eqb lat_str "" || String.eqb lon_str ""); [discriminate|].
    destruct (Py.float lat_str) as [lat'|] eqn:Hlat; [|discriminate].
    destruct (Py.float lon_str) as [lon'|] eqn:Hlon; [|discriminate].
    destruct (batch_accepts lat' lon') eqn:Hv; [|discriminate].
    intros [= -> ->]. exists stop, lat_str, lon_str.
    rewrite <- batch_accepts_valid. repeat split; assumption || reflexivity.
  - intros (stop & lat_str & lon_str & Hid & Hs & Hne & Hlt & Hln & Hlat & Hlon & Hv).
    destruct (String.eqb_spec (stripped "stop_id" st) "") as [|_]; [contradiction|].
    rewrite Hs. rewrite bool_decide_eq_false_2 by exact Hne.
    rewrite Hlt, Hln.
    assert (Hl1 : lat_str <> "") by (intros ->; discriminate).
    assert (Hl2 : lon_str <> "") by (intros ->; discriminate).
    apply String.eqb_neq in Hl1, Hl2. rewrite Hl1, Hl2. simpl.
    rewrite Hlat, Hlon, batch_accepts_valid, Hv. reflexivity.
Qed.

Lemma batch_coordinates_valid sdict l acc cs :
  batch_coordinates sdict l acc = Some cs ->
  Forall (fun c => valid_position (fst c) (snd c) = true) acc ->
  Forall (fun c => valid_position (fst c) (snd c) = true) cs.
Proof.
  revert acc. induction l as [|st l IH]; intros acc; simpl.
  - intros [= ->]. auto.
  - destruct (batch_coord sdict st) as [[lat lon]| |] eqn:Hc; [| |discriminate].
    + intros H Hacc. apply (IH _ H). apply Forall_app. split; [exact Hacc|].
      constructor; [|constructor]. simpl.
      apply batch_coord_Keep in Hc as (? & ? & ? & ? & ? & ? & ? & ? & ? & ? & Hv).
      exact Hv.
    + apply IH.
Qed.

(** Every path of the batch has at least two coordinates, all valid. *)
Lemma batch_route_sound set_iter d route item :
  batch_route set_iter d route = Some item ->
  (2 <= List.length (pi_coordinates item))%nat /\
  pi_total_stops item = List.length (pi_coordinates item) /\
  pi_route item = route /\
  Forall (fun c => valid_position (fst c) (snd c) = true) (pi_coordinates item).
Proof.
  unfold batch_route.
  destruct (batch_route_id route) as [route_id|]; cbn -[Nat.leb]; [|discriminate].
  destruct (batch_trip_ids (trips d) route_id); [discriminate|].
  destruct (flat_map _ (set_iter _)); [discriminate|].
  destruct (best_trip _) as [[k ordered_stops]|]; cbn -[Nat.leb]; [|discriminate].
  destruct (batch_coordinates _ ordered_stops []) as [cs|] eqn:Hcs;
    cbn -[Nat.leb]; [|discriminate].
  destruct (Nat.leb_spec 2 (List.length cs)); [|discriminate].
  intros [= <-]. simpl. repeat split; try assumption.
  apply (batch_coordinates_valid _ _ _ _ Hcs). constructor.
Qed.

(** The batch is total: it maps over the routes and keeps the paths of
    those that have one; a route without a path is left out. *)
Lemma get_all_route_paths_items set_iter d item :
  item ∈ get_all_route_paths set_iter d <->
  exists route, route ∈ routes d /\ batch_route set_iter d route = Some item.
Proof.
  unfold get_all_route_paths, routes.
  destruct (routes_txt d) as [routes_data|]; simpl.
  - apply list_elem_of_omap.
  - split; [intros H; apply elem_of_nil in H as []|].
    intros (route & H & _). apply elem_of_nil in H as [].
Qed.

(** The iteration order of the set only matters through the ids of the
    route at hand. *)
Lemma batch_route_order set_iter set_iter' d route :
  (forall route_id,
      batch_route_id route = Some route_id ->
      set_iter (batch_trip_ids (trips d) route_id) =
        set_iter' (batch_trip_ids (trips d) route_id)) ->
  batch_route set_iter d route = batch_route set_iter' d route.
Proof.
  intros H. unfold batch_route.
  destruct (batch_route_id route) as [route_id|]; simpl; [|reflexivity].
  rewrite (H route_id eq_refl). reflexivity.
Qed.

(** In the single-route builder a stop-time adds a coordinate exactly
    when its stop is found, both coordinates convert, and neither is
    zero: no bound is tested. *)
Lemma path_step_coordinates stops_data l acc :
  fst (fold_left (path_step stops_data) l acc) =
    fst acc ++ omap (path_coord stops_data) l.
Proof.
  revert acc. induction l as [|st l IH]; intros acc.
  - simpl. rewrite app_nil_r. reflexivity.
  - cbn [fold_left]. rewrite IH. clear IH. cbn [omap list_omap].
    unfold path_step, path_coord.
    destruct (find_stop stops_data (get "stop_id" st)) as [stop|];
      cbn [mbind option_bind]; [|reflexivity].
    case_bool_decide; [reflexivity|].
    destruct (float_or_zero "stop_lat" stop) as [lat|];
      cbn [mbind option_bind]; [|reflexivity].
    destruct (float_or_zero "stop_lon" stop) as [lon|];
      cbn [mbind option_bind]; [|reflexivity].
    destruct (path_accepts lat lon); [|reflexivity].
    destruct (seq_key 0 st); cbn [fst]; rewrite <- app_assoc; reflexivity.
Qed.

(** A successful single-route answer carries the coordinates of one
    trip's stop-times that pass that test, however few. *)
Lemma get_route_path_coordinates d route_id p :
  get_route_path d route_id = Ok p ->
  exists ordered_stops,
    rp_coordinates p = omap (path_coord (stops d)) ordered_stops /\
    rp_total_stops p = List.length (rp_coordinates p) /\
    Forall (fun c => path_accepts (fst c) (snd c) = true) (rp_coordinates p).
Proof.
  unfold get_route_path.
  destruct (key_set "trip_id" _) as [ids|]; [|discriminate].
  case_bool_decide; [discriminate|].
  destruct (mapM _ _) as [sorted_paths|]; [|discriminate].
  destruct (best_trip sorted_paths) as [[k ordered_stops]|]; [|discriminate].
  pose proof (path_step_coordinates (stops d) ordered_stops ([], [])) as Hc.
  destruct (fold_left (path_step (stops d)) ordered_stops ([], []))
    as [cs info]. simpl in Hc. subst cs.
  intros [= <-]. exists ordered_stops. simpl.
  split; [reflexivity|]. split; [reflexivity|].
  apply Forall_forall. intros [lat lon] Hin.
  apply list_elem_of_omap in Hin as (st & _ & Hst).
  unfold path_coord in Hst.
  destruct (find_stop (stops d) (get "stop_id" st)) as [stop|];
    cbn [mbind option_bind] in Hst; [|discriminate].
  case_bool_decide; [discriminate|].
  destruct (float_or_zero "stop_lat" stop) as [lat'|];
    cbn [mbind option_bind] in Hst; [|discriminate].
  destruct (float_or_zero "stop_lon" stop) as [lon'|];
    cbn [mbind option_bind] in Hst; [|discriminate].
  destruct (path_accepts lat' lon') eqn:Ha; [|discriminate].
  injection Hst as <- <-. exact Ha.
Qed.

(** C3, the single-route path builder does not apply the validity bounds:
    its test is [lat != 0 and lon != 0]. On a trip through (0, 10),
    (95, 10), (43.5, -79.4) and (43.6, -79.5) it leaves out the valid
    position (0, 10) and emits the invalid position (95, 10); the batch, on
    the same data, keeps the first and rejects the second. *)
Theorem C3_single_path_ignores_bounds :
  valid_position (fst (Examples.coord "0" "10")) (snd (Examples.coord "0" "10")) = true /\
  path_accepts (fst (Examples.coord "0" "10")) (snd (Examples.coord "0" "10")) = false /\
  valid_position (fst (Examples.coord "95" "10")) (snd (Examples.coord "95" "10")) = false /\
  path_accepts (fst (Examples.coord "95" "10")) (snd (Examples.coord "95" "10")) = true /\
  match get_route_path Examples.path_data "R1" with
  | Ok p => Some (rp_coordinates p, map si_stop_id (rp_stops p))
  | _ => None
  end =
    Some ([Examples.coord "95" "10"; Examples.coord "43.5" "-79.4";
           Examples.coord "43.6" "-79.5"],
          [Some "S2"; Some "S3"; Some "S4"]) /\
  map (fun item => (pi_route_id item, pi_coordinates item))
    (get_all_route_paths insertion_order Examples.path_data) =
    [("R1", [Examples.coord "0" "10"; Examples.coord "43.5" "-79.4";
             Examples.coord "43.6" "-79.5"])].
Proof. repeat split; reflexivity. Qed.

(* ===================================================================== *)
(** * Path builder: the least number of coordinates *)
(* ===================================================================== *)

(** With one trip per route the iteration order of the trip-id set is
    forced, so the batch over [two_routes_data] is the same under every
    order that lists the set. *)
Lemma batch_two_routes_any_order set_iter :
  (forall l, set_iter l ≡ₚ remove_dups l) ->
  get_all_route_paths set_iter Examples.two_routes_data =
    get_all_route_paths insertion_order Examples.two_routes_data.
Proof.
  intros Hset.
  assert (Hr : forall r, r ∈ routes Examples.two_routes_data ->
                         batch_route set_iter Examples.two_routes_data r =
                           batch_route insertion_order Examples.two_routes_data r).
  { intros r Hin. apply batch_route_order. intros route_id Hid.
    assert (Hone : exists t,
               batch_trip_ids (trips Examples.two_routes_data) route_id = [t]).
    { unfold routes in Hin. simpl in Hin.
      apply elem_of_cons in Hin as [-> | Hin];
        [|apply elem_of_cons in Hin as [-> | Hin];
          [|apply elem_of_nil in Hin as []]];
        vm_compute in Hid; injection Hid as <-; eexists; vm_compute; reflexivity. }
    destruct Hone as [t ->]. unfold insertion_order.
    apply Permutation_singleton_r. apply Hset. }
  unfold get_all_route_paths. unfold routes in Hr.
  destruct (routes_txt Examples.two_routes_data) as [rs|]; [|reflexivity].
  simpl in Hr. induction rs as [|r rs IH]; [reflexivity|].
  cbn. rewrite (Hr r) by (apply elem_of_cons; left; reflexivity).
  rewrite IH; [reflexivity|].
  intros r' Hin. apply Hr. apply elem_of_cons. right. exact Hin.
Qed.

(** C4, the single-route path builder has no minimum: for the route R1,
    whose trip has one stop with valid coordinates, it answers with a
    path of one coordinate instead of "no path found"; the batch on the
    same data skips R1 and returns the one path of R2 with its three
    coordinates. *)
Theorem C4_single_path_without_minimum :
  match get_route_path Examples.two_routes_data "R1" with
  | Ok p => Some (rp_coordinates p, rp_total_stops p)
  | _ => None
  end = Some ([Examples.coord "43.5" "-79.4"], 1%nat) /\
  map (fun item => (pi_route_id item, List.length (pi_coordinates item)))
    (get_all_route_paths insertion_order Examples.two_routes_data) =
    [("R2", 3%nat)].
Proof. split; reflexivity. Qed.

(* ===================================================================== *)
(** * Route attribute edit *)
(* ===================================================================== *)

Lemma update_first_None route_id data file :
  Forall (fun r => get "route_id" r <> Some route_id) file ->
  update_first route_id data file = None.
Proof.
  induction 1 as [|r l Hr _ IH]; simpl; [reflexivity|].
  unfold val_eqb. rewrite bool_decide_eq_false_2 by exact Hr.
  rewrite IH. reflexivity.
Qed.

(** An unknown route id is answered with 404 and the file is not
    opened. *)
Lemma update_route_not_found file route_id data :
  rq_route_id data <> None ->
  Forall (fun r => get "route_id" r <> Some route_id) file ->
  update_route file route_id data = (HttpError 404 "Route not found", file).
Proof.
  intros Hid Hnone. unfold update_route.
  destruct (rq_route_id data); [|contradiction].
  rewrite (update_first_None _ _ _ Hnone). reflexivity.
Qed.

(** The loop changes the first row of the id and no other row. *)
Lemma update_first_Some route_id data file file' :
  update_first route_id data file = Some file' ->
  exists before route after,
    file = before ++ route :: after /\
    file' = before ++ apply_update data route :: after /\
    get "route_id" route = Some route_id /\
    Forall (fun r => get "route_id" r <> Some route_id) before.
Proof.
  revert file'. induction file as [|r l IH]; intros file'; simpl; [discriminate|].
  unfold val_eqb. case_bool_decide as Hr.
  - intros [= <-]. exists [], r, l. repeat split; [exact Hr|constructor].
  - destruct (update_first route_id data l) as [l'|]; simpl; [|discriminate].
    intros [= <-].
    destruct (IH l' eq_refl) as (before & route & after & -> & -> & Hid & Hb).
    exists (r :: before), route, after. repeat split; [exact Hid|].
    constructor; assumption.
Qed.

(** On the row it changes, the edit writes the supplied attributes and
    leaves every other column as it was. *)
Lemma apply_update_other data route k :
  k <> "route_short_name" -> k <> "route_long_name" ->
  k <> "route_color" -> k <> "route_desc" ->
  apply_update data route !! k = route !! k.
Proof.
  intros H1 H2 H3 H4. unfold apply_update, assign.
  destruct (rq_route_desc data); destruct (rq_route_color data);
    destruct (rq_route_long_name data); destruct (rq_route_short_name data);
    repeat (rewrite lookup_insert_ne by congruence); reflexivity.
Qed.

Lemma apply_update_absent route :
  apply_update (UpdateRequest (Some (get "route_id" route)) None None None None) route
  = route.
Proof. reflexivity. Qed.

Lemma apply_update_short_name data route v :
  rq_route_short_name data = Some v ->
  apply_update data route !! "route_short_name" = Some v.
Proof.
  intros H. unfold apply_update, assign. rewrite H.
  destruct (rq_route_desc data); destruct (rq_route_color data);
    destruct (rq_route_long_name data);
    repeat (rewrite lookup_insert_ne by discriminate);
    apply lookup_insert_eq.
Qed.

(** The writer puts out every row when no row has a key outside the
    field names. *)
Lemma write_rows_all fieldnames rows :
  Forall (fun r => dom r ⊆ fieldnames) rows ->
  write_rows fieldnames rows = (map (written_row fieldnames) rows, false).
Proof.
  induction 1 as [|r l Hr _ IH]; simpl; [reflexivity|].
  rewrite bool_decide_eq_true_2 by exact Hr. rewrite IH. reflexivity.
Qed.

(** The writer stops at the first row with a key outside the field
    names: the rows from there on are not in the file. *)
Lemma write_rows_raise fieldnames before r after :
  Forall (fun r => dom r ⊆ fieldnames) before ->
  ~ dom r ⊆ fieldnames ->
  write_rows fieldnames (before ++ r :: after) =
    (map (written_row fieldnames) before, true).
Proof.
  intros Hb Hr. induction Hb as [|r0 l Hr0 _ IH]; simpl.
  - rewrite bool_decide_eq_false_2 by exact Hr. reflexivity.
  - rewrite bool_decide_eq_true_2 by exact Hr0. rewrite IH. reflexivity.
Qed.

(** C9, an edit can lose rows: [routes.txt] has no [route_desc] column
    and the request sets [route_desc] on R2, the second row. The field
    names are the keys of the first row, the writer raises at R2 after the
    file was emptied and R1 written, and the call answers 500 with R2 and
    R3 gone from the file. An edit of a column that exists, on the first
    row, changes that one field. *)
Theorem C9_edit_new_column_truncates :
  update_route Examples.routes_file "R2" Examples.edit_desc =
    (HttpError 500 "Error updating route",
     [mk [("route_id", "R1"); ("route_short_name", "1"); ("route_long_name", "One")]]) /\
  update_route Examples.routes_file "R1" Examples.edit_short_name =
    (Ok "Route updated successfully",
     [mk [("route_id", "R1"); ("route_short_name", "A"); ("route_long_name", "One")];
      mk [("route_id", "R2"); ("route_short_name", "2"); ("route_long_name", "Two")];
      mk [("route_id", "R3"); ("route_short_name", "3"); ("route_long_name", "Three")]]) /\
  update_route Examples.routes_file "R9" Examples.edit_short_name =
    (HttpError 404 "Route not found", Examples.routes_file).
Proof. repeat split; reflexivity. Qed.

(** A row that has exactly the field names as keys and no [None] value
    is written as it is. *)
Lemma written_row_id fieldnames (r : row) :
  dom r = fieldnames ->
  (forall k, r !! k <> Some None) ->
  written_row fieldnames r = r.
Proof.
  intros Hdom Hval. apply map_eq. intros k. unfold written_row.
  destruct (r !! k) as [v|] eqn:Hk.
  - destruct v as [s|]; [|destruct (Hval k Hk)].
    apply lookup_set_to_map.
    + intros y y' _ _ Hy. exact Hy.
    + exists k. split; [rewrite <- Hdom; apply (elem_of_dom_2 _ _ _ Hk)|].
      unfold get. rewrite Hk. reflexivity.
  - apply eq_None_not_Some. intros [x Hx].
    apply lookup_set_to_map in Hx as (y & Hy & Heq).
    + injection Heq as -> _. rewrite <- Hdom in Hy.
      apply elem_of_dom in Hy as [v Hv]. congruence.
    + intros y1 y2 _ _ Hy12. exact Hy12.
Qed.

(** When every row after the edit keeps within the columns of the first
    row, the call succeeds and the file holds every row again, the edited
    one in its place. *)
Lemma update_route_existing_columns file route_id data r0 rest :
  rq_route_id data <> None ->
  update_first route_id data file = Some (r0 :: rest) ->
  Forall (fun r => dom r ⊆ dom r0) (r0 :: rest) ->
  update_route file route_id data =
    (Ok "Route updated successfully", map (written_row (dom r0)) (r0 :: rest)).
Proof.
  intros Hid Hup Hcols. unfold update_route.
  destruct (rq_route_id data); [|contradiction].
  rewrite Hup. rewrite (write_rows_all _ _ Hcols). reflexivity.
Qed.

(** When the edit puts a key outside the columns of the first row on a
    later row, the call answers 500 and the file keeps only the rows
    before the edited one. *)
Lemma update_route_new_column file route_id data r0 before route after :
  rq_route_id data <> None ->
  update_first route_id data file =
    Some ((r0 :: before) ++ apply_update data route :: after) ->
  Forall (fun r => dom r ⊆ dom r0) (r0 :: before) ->
  ~ dom (apply_update data route) ⊆ dom r0 ->
  update_route file route_id data =
    (HttpError 500 "Error updating route",
     map (written_row (dom r0)) (r0 :: before)).
Proof.
  intros Hid Hup Hcols Hnew. unfold update_route.
  destruct (rq_route_id data); [|contradiction].
  rewrite Hup. cbn [app].
  change (r0 :: before ++ apply_update data route :: after)
    with ((r0 :: before) ++ apply_update data route :: after).
  rewrite (write_rows_raise _ _ _ _ Hcols Hnew). reflexivity.
Qed.

(* ===================================================================== *)
(** * Further properties: the batch path builder *)
(* ===================================================================== *)

Lemma batch_route_id_kept set_iter d route item :
  batch_route set_iter d route = Some item ->
  batch_route_id route = Some (pi_route_id item).
Proof.
  unfold batch_route.
  destruct (batch_route_id route) as [route_id|]; cbn -[Nat.leb]; [|discriminate].
  destruct (batch_trip_ids (trips d) route_id); [discriminate|].
  destruct (flat_map _ (set_iter _)); [discriminate|].
  destruct (best_trip _) as [[k ordered_stops]|]; cbn -[Nat.leb]; [|discriminate].
  destruct (batch_coordinates _ ordered_stops []) as [cs|];
    cbn -[Nat.leb]; [|discriminate].
  destruct (Nat.leb 2 (List.length cs)); [|discriminate].
  intros [= <-]. reflexivity.
Qed.

(** X1: whatever the iteration order of Python's sets, every path that
    [get_all_route_paths] returns has at least two coordinates, all of them
    valid positions, reports their number as [total_stops], and belongs to
    a row of [routes.txt] whose route id it carries. *)
Theorem X1_batch_paths_sound (set_iter : list string -> list string) d item :
  item ∈ get_all_route_paths set_iter d ->
  (2 <= List.length (pi_coordinates item))%nat /\
  pi_total_stops item = List.length (pi_coordinates item) /\
  Forall (fun c => valid_position (fst c) (snd c) = true) (pi_coordinates item) /\
  pi_route item ∈ routes d /\
  batch_route_id (pi_route item) = Some (pi_route_id item).
Proof.
  intros Hin. apply get_all_route_paths_items in Hin as (route & Hr & Hb).
  destruct (batch_route_sound _ _ _ _ Hb) as (H2 & Ht & Hroute & Hv).
  repeat split; try assumption.
  - rewrite Hroute. exact Hr.
  - rewrite Hroute. apply (batch_route_id_kept _ _ _ _ Hb).
Qed.

Lemma X1_batch_paths_sound_witness :
  (2 <= List.length (pi_coordinates Examples.r2_item))%nat /\
  pi_total_stops Examples.r2_item = List.length (pi_coordinates Examples.r2_item) /\
  Forall (fun c => valid_position (fst c) (snd c) = true)
    (pi_coordinates Examples.r2_item) /\
  pi_route Examples.r2_item ∈ routes Examples.two_routes_data /\
  batch_route_id (pi_route Examples.r2_item) = Some (pi_route_id Examples.r2_item).
Proof.
  apply (X1_batch_paths_sound insertion_order Examples.two_routes_data).
  assert (E : get_all_route_paths insertion_order Examples.two_routes_data =
              [Examples.r2_item]) by reflexivity.
  rewrite E. apply elem_of_cons. left. reflexivity.
Defined.

Lemma omap_sublist {A B : Type} (f : A -> option B) (g : B -> A) l :
  (forall x y, f x = Some y -> g y = x) ->
  sublist (map g (omap f l)) l.
Proof.
  intros H. induction l as [|x l IH]; [constructor|].
  cbn. destruct (f x) as [y|] eqn:Hy; cbn.
  - rewrite (H x y Hy). constructor. exact IH.
  - constructor. exact IH.
Qed.

(** X2: the batch never reorders or repeats: the routes of the returned
    paths are a sub-sequence of the rows of [routes.txt], so there is at
    most one path per row and the batch returns no more paths than there
    are routes. *)
Theorem X2_batch_paths_follow_routes (set_iter : list string -> list string) d :
  sublist (map pi_route (get_all_route_paths set_iter d)) (routes d) /\
  (List.length (get_all_route_paths set_iter d) <= List.length (routes d))%nat.
Proof.
  assert (H : sublist (map pi_route (get_all_route_paths set_iter d)) (routes d)).
  { unfold get_all_route_paths, routes.
    destruct (routes_txt d) as [rs|]; simpl; [|constructor].
    apply omap_sublist. intros route item Hb.
    apply (batch_route_sound _ _ _ _ Hb). }
  split; [exact H|].
  apply sublist_length in H. rewrite length_map in H. exact H.
Qed.

(* ===================================================================== *)
(** * Further properties: the single-route path builder *)
(* ===================================================================== *)

Lemma best_trip_elem {K : Type} (groups : list (K * list row)) g :
  best_trip groups = Some g -> g ∈ groups.
Proof.
  unfold best_trip.
  assert (H : forall acc,
             fold_left longer groups acc = Some g ->
             acc = Some g \/ g ∈ groups).
  { induction groups as [|x l IH]; intros acc; simpl; [auto|].
    intros Hf. destruct (IH _ Hf) as [Hl|Hin].
    - unfold longer in Hl. destruct acc as [b|].
      + destruct (Nat.ltb _ _); [|auto].
        injection Hl as <-. right. apply elem_of_cons. auto.
      + injection Hl as <-. right. apply elem_of_cons. auto.
    - right. apply elem_of_cons. auto. }
  intros Hb. destruct (H None Hb) as [?|?]; [discriminate|assumption].
Qed.

(** A successful sort by [stop_sequence] rearranges the stop-times, and
    each of them has an integer sequence number. *)
Lemma sort_by_seq_Some l sorted :
  sort_by_seq l = Some sorted ->
  sorted ≡ₚ l /\ Forall (fun st => is_Some (seq_key 0 st)) sorted.
Proof.
  unfold sort_by_seq.
  destruct (mapM (seq_key 0) l) as [keys|] eqn:Hk; simpl; [|discriminate].
  intros [= <-]. apply mapM_Some_1 in Hk.
  assert (Hlen : List.length l = List.length keys)
    by apply (Forall2_length _ _ _ Hk).
  assert (Hp : map snd (sort_by Z.leb fst (zip keys l)) ≡ₚ l).
  { rewrite sort_by_perm.
    change (map snd (zip keys l)) with ((zip keys l).*2).
    rewrite snd_zip by lia. reflexivity. }
  split; [exact Hp|].
  rewrite Hp. eapply Forall2_Forall_l; [exact Hk|].
  apply Forall_true. intros st k Hs. rewrite Hs. eexists. reflexivity.
Qed.

Lemma path_step_parallel stops_data l acc :
  Forall (fun st => is_Some (seq_key 0 st)) l ->
  List.length (fst acc) = List.length (snd acc) ->
  List.length (fst (fold_left (path_step stops_data) l acc)) =
    List.length (snd (fold_left (path_step stops_data) l acc)).
Proof.
  intros Hl. revert acc. induction Hl as [|st l [n Hn] _ IH]; intros acc Hacc;
    [exact Hacc|].
  cbn [fold_left]. apply IH. unfold path_step.
  destruct (find_stop stops_data (get "stop_id" st)) as [stop|]; [|exact Hacc].
  case_bool_decide; [exact Hacc|].
  destruct (float_or_zero "stop_lat" stop) as [lat|]; [|exact Hacc].
  destruct (float_or_zero "stop_lon" stop) as [lon|]; [|exact Hacc].
  destruct (path_accepts lat lon); [|exact Hacc].
  rewrite Hn. cbn [fst snd]. rewrite !length_app. simpl. lia.
Qed.

(** X3: in a successful answer of [get_route_path] the list [stops] runs
    parallel to [coordinates]: both have the length reported as
    [total_stops]. *)
Theorem X3_path_stops_parallel d route_id p :
  get_route_path d route_id = Ok p ->
  List.length (rp_stops p) = List.length (rp_coordinates p) /\
  rp_total_stops p = List.length (rp_coordinates p) /\
  rp_route_id p = route_id.
Proof.
  unfold get_route_path.
  destruct (key_set "trip_id" _) as [ids|]; [|discriminate].
  case_bool_decide; [discriminate|].
  destruct (mapM _ _) as [sorted_paths|] eqn:Hm; [|discriminate].
  destruct (best_trip sorted_paths) as [[k ordered_stops]|] eqn:Hb; [|discriminate].
  assert (Hseq : Forall (fun st => is_Some (seq_key 0 st)) ordered_stops).
  { apply best_trip_elem in Hb. apply mapM_Some_1 in Hm.
    apply list_elem_of_lookup in Hb as [i Hi].
    destruct (Forall2_lookup_r _ _ _ _ _ Hm Hi) as ([k0 l0] & _ & Hs).
    destruct (sort_by_seq l0) as [s|] eqn:Hs0; simpl in Hs; [|discriminate].
    injection Hs as _ <-. apply (sort_by_seq_Some _ _ Hs0). }
  pose proof (path_step_parallel (stops d) ordered_stops ([], []) Hseq eq_refl) as Hp.
  destruct (fold_left (path_step (stops d)) ordered_stops ([], [])) as [cs info].
  intros [= <-]. simpl in *. auto.
Qed.

Lemma X3_path_stops_parallel_witness :
  exists p,
    get_route_path Examples.path_data "R1" = Ok p /\
    List.length (rp_stops p) = List.length (rp_coordinates p).
Proof.
  destruct (get_route_path Examples.path_data "R1") as [p| |] eqn:H;
    [|vm_compute in H; discriminate..].
  exists p. split; [reflexivity|].
  apply (X3_path_stops_parallel Examples.path_data "R1" p H).
Defined.

Lemma mapM_nil_inv {A B : Type} (f : A -> option B) l :
  mapM f l = Some [] -> l = [].
Proof.
  intros H. apply mapM_Some_1, Forall2_length in H.
  destruct l; [reflexivity|discriminate].
Qed.

(** X4: [get_route_path] answers 404 "No trips found for route" exactly
    when no row of [trips.txt] has the route id. *)
Theorem X4_path_no_trips d route_id :
  get_route_path d route_id = HttpError 404 "No trips found for route" <->
  rows_with "route_id" (Some route_id) (trips d) = [].
Proof.
  unfold get_route_path, key_set. split.
  - destruct (mapM (fun r : row => r !! "trip_id")
                (rows_with "route_id" (Some route_id) (trips d)))
      as [ids|] eqn:Hm; simpl; [|discriminate].
    case_bool_decide as He.
    + intros _. destruct ids as [|x ids].
      * apply (mapM_nil_inv _ _ Hm).
      * exfalso. assert (Hx : x ∈ (∅ : gset Py.val)).
        { rewrite <- He. apply elem_of_list_to_set, elem_of_cons. auto. }
        apply not_elem_of_empty in Hx. exact Hx.
    + intros Hr.
      repeat match type of Hr with
             | context [match ?x with _ => _ end] => destruct x
             end; discriminate.
  - intros ->. reflexivity.
Qed.

(* ===================================================================== *)
(** * Further properties: the KPI samples *)
(* ===================================================================== *)

Lemma positive_gaps_positive l : Forall (fun h => 0 < h) (positive_gaps l).
Proof.
  induction l as [|a [|b l] IH]; simpl; [constructor..|].
  simpl in IH. destruct (Z.ltb_spec 0 (b - a)); [constructor|]; assumption.
Qed.

Lemma sum_Z_nonneg l acc :
  Forall (fun h => 0 < h) l -> 0 <= acc -> 0 <= fold_left Z.add l acc.
Proof.
  intros H. revert acc. induction H as [|x l Hx _ IH]; intros acc Hacc; simpl;
    [exact Hacc|].
  apply IH. lia.
Qed.

(** Rounding to binary64 keeps a mantissa that is not negative. *)
Lemma shr_1_nonneg mrs : 0 <= shr_m mrs -> 0 <= shr_m (shr_1 mrs).
Proof. destruct mrs as [[|[p|p|]|[p|p|]] r s]; simpl; lia. Qed.

Lemma iter_shr_1_nonneg n mrs :
  0 <= shr_m mrs -> 0 <= shr_m (SpecFloat.iter_pos shr_1 n mrs).
Proof.
  revert mrs. induction n as [n IH|n IH|]; intros mrs H; simpl.
  - apply IH, IH, shr_1_nonneg, H.
  - apply IH, IH, H.
  - apply shr_1_nonneg, H.
Qed.

Lemma shr_fexp_nonneg m e l :
  0 <= m -> 0 <= shr_m (fst (shr_fexp Py.prec Py.emax m e l)).
Proof.
  intros H. unfold shr_fexp, shr.
  assert (H0 : 0 <= shr_m (shr_record_of_loc m l)).
  { destruct l as [|[| |]]; exact H. }
  destruct (fexp Py.prec Py.emax (Zdigits2 m + e) - e); simpl;
    [exact H0|apply iter_shr_1_nonneg, H0|exact H0].
Qed.

Lemma round_nearest_even_nonneg m l : 0 <= m -> 0 <= round_nearest_even m l.
Proof.
  intros H. unfold round_nearest_even.
  destruct l as [|[| |]]; [lia| |lia|lia]. destruct (Z.even m); lia.
Qed.

Lemma binary_round_aux_nonneg m e l :
  0 <= m -> Py.fle fzero (binary_round_aux Py.prec Py.emax false m e l) = true.
Proof.
  intros H. unfold binary_round_aux.
  pose proof (shr_fexp_nonneg m e l H) as H1.
  destruct (shr_fexp Py.prec Py.emax m e l) as [mrs' e']. simpl in H1.
  pose proof (shr_fexp_nonneg _ e' loc_Exact
                (round_nearest_even_nonneg _ (loc_of_shr_record mrs') H1)) as H2.
  destruct (shr_fexp Py.prec Py.emax _ e' loc_Exact) as [mrs'' e'']. simpl in H2.
  destruct (shr_m mrs'') as [|p|p]; [reflexivity| |lia].
  destruct (Z.leb e'' (Py.emax - Py.prec)); reflexivity.
Qed.

(** A quotient by a positive binary64 value is not negative when the
    dividend is not. *)
Lemma SFdiv_nonneg x my ey :
  Py.fle fzero x = true ->
  Py.fle fzero (SFdiv Py.prec Py.emax x (S754_finite false my ey)) = true.
Proof.
  destruct x as [s|[|]| |[|] mx ex]; try discriminate; intros _;
    [destruct s; reflexivity|reflexivity|].
  unfold SFdiv, SFdiv_core_binary. cbv zeta.
  set (m' := match _ - _ - _ with Zpos _ => _ | Z0 => _ | Zneg _ => _ end).
  assert (Hm : 0 <= m').
  { unfold m'. destruct (_ - _ - _); [lia|apply Z.shiftl_nonneg; lia|lia]. }
  pose proof (Z.div_eucl_eq m' (Zpos my) ltac:(lia)) as Hq.
  pose proof (Z_div_mod m' (Zpos my) ltac:(lia)) as Hr.
  destruct (Z.div_eucl m' (Z.pos my)) as [q r].
  apply binary_round_aux_nonneg. nia.
Qed.

Lemma true_divide_nonneg a b x :
  0 <= a -> 0 < b -> true_divide a b = Some x -> Py.fle fzero x = true.
Proof.
  intros Ha Hb. unfold true_divide.
  destruct b as [|b|b]; [lia| |lia]. destruct a as [|a|a]; [| |lia].
  - intros [= <-]. reflexivity.
  - pose proof (SFdiv_nonneg (S754_finite false a 0) b 0 eq_refl) as H.
    simpl Z.ltb. simpl Z.abs. simpl Z.to_pos.
    destruct (SFdiv _ _ _ _) as [| | |]; try discriminate; intros [= <-]; exact H.
Qed.

Lemma round_half_even_nonneg n d : 0 <= n -> 0 < d -> 0 <= round_half_even n d.
Proof.
  intros Hn Hd. unfold round_half_even.
  pose proof (Z.div_pos n d Hn Hd) as Hq.
  destruct (2 * (n mod d) ?= d); [|lia|lia]. destruct (Z.even (n / d)); lia.
Qed.

Lemma round2_nonneg x : Py.fle fzero x = true -> Py.fle fzero (round2 x) = true.
Proof.
  destruct x as [s|[|]| |[|] m e]; try discriminate; intros _;
    [destruct s; reflexivity|reflexivity|].
  unfold round2. cbv zeta.
  set (h := if Z.leb 0 e then _ else _).
  assert (Hh : 0 <= h).
  { unfold h. destruct (Z.leb_spec 0 e).
    - assert (0 <= 2 ^ e) by (apply Z.pow_nonneg; lia). nia.
    - apply round_half_even_nonneg; [lia|]. apply Z.pow_pos_nonneg; lia. }
  unfold Py.of_decimal. destruct h as [|p|p]; [reflexivity| |lia].
  simpl Z.leb. cbv iota. apply SFdiv_nonneg. reflexivity.
Qed.

Lemma kpi_average_minutes_nonneg l x :
  Forall (fun h => 0 < h) l ->
  kpi_average_minutes l = Some x -> Py.fle fzero x = true.
Proof.
  intros H. unfold kpi_average_minutes. destruct l as [|y l].
  - intros [= <-]. reflexivity.
  - destruct (true_divide (sum_Z (y :: l)) _) as [avg_sec|] eqn:Hd;
      [|discriminate].
    cbn [mbind option_bind]. intros [= <-]. apply round2_nonneg.
    unfold float_div.
    change (Py.float_of_int 60) with (S754_finite false 8444249301319680 (-47)).
    apply SFdiv_nonneg. apply (true_divide_nonneg _ _ _) with (3 := Hd).
    + apply (sum_Z_nonneg _ 0 H). lia.
    + simpl List.length. lia.
Qed.

(** X5: only positive samples enter the system-wide KPIs: every headway
    and every trip duration that [get_kpis] averages is greater than zero,
    and neither average of an answer is negative. *)
Theorem X5_kpi_samples_positive d k :
  get_kpis d = Ok k ->
  Forall (fun h => 0 < h) (kpi_headways d) /\
  Forall (fun x => 0 < x) (trip_durations d) /\
  not_negative (avg_headway_minutes k) /\
  not_negative (avg_trip_duration_minutes k).
Proof.
  intros Hk.
  assert (H1 : Forall (fun h => 0 < h) (kpi_headways d)).
  { unfold kpi_headways. apply Forall_flat_map, Forall_forall.
    intros [key times] _. apply positive_gaps_positive. }
  assert (H2 : Forall (fun x => 0 < x) (trip_durations d)).
  { unfold trip_durations. apply Forall_forall. intros x Hx.
    apply list_elem_of_omap in Hx as ([key t] & _ & Ht).
    unfold span_duration in Ht.
    destruct (first t); [|discriminate]. destruct (last t); [|discriminate].
    destruct (Z.ltb_spec 0 (z0 - z)); [|discriminate].
    injection Ht as <-. assumption. }
  split; [exact H1|]. split; [exact H2|].
  unfold get_kpis in Hk. destruct (routes_txt d).
  - destruct (kpi_average_minutes (kpi_headways d)) as [h|] eqn:Hh; [|discriminate].
    destruct (kpi_average_minutes (trip_durations d)) as [t|] eqn:Ht; [|discriminate].
    injection Hk as <-. simpl.
    split; [apply (kpi_average_minutes_nonneg _ _ H1 Hh)
           |apply (kpi_average_minutes_nonneg _ _ H2 Ht)].
  - injection Hk as <-. simpl. split; lia.
Qed.

Lemma X5_kpi_samples_positive_witness :
  exists k,
    get_kpis Examples.headway_data = Ok k /\
    not_negative (avg_headway_minutes k) /\
    not_negative (avg_trip_duration_minutes k).
Proof.
  destruct (get_kpis Examples.headway_data) as [k| |] eqn:H;
    [|vm_compute in H; discriminate..].
  exists k. split; [reflexivity|].
  apply (X5_kpi_samples_positive Examples.headway_data k H).
Defined.

(* ===================================================================== *)
(** * Further properties: route stats and route details *)
(* ===================================================================== *)







(** Two trips of the route, one without a service id: the answer counts
    none. *)
Lemma get_route_stats_mixed_example :
  List.length (rows_with "route_id" (Some "R1")
                 (trips Examples.mixed_service_data)) = 2%nat /\
  get_route_stats Examples.mixed_service_data "R1" = Ok (RouteStats 0 ∅).
Proof. split; reflexivity. Qed.

Lemma elem_of_rows_with k v table r :
  r ∈ rows_with k v table <-> r ∈ table /\ get k r = v.
Proof.
  unfold rows_with. rewrite !list_elem_of_In, filter_In.
  unfold val_eqb. rewrite bool_decide_eq_true. reflexivity.
Qed.

Lemma head_rows_with k v table r :
  r ∈ table -> get k r = v -> is_Some (head (rows_with k v table)).
Proof.
  intros Hin Hk.
  destruct (rows_with k v table) as [|x l] eqn:E; [|eexists; reflexivity].
  assert (H : r ∈ rows_with k v table) by (apply elem_of_rows_with; auto).
  rewrite E in H. apply elem_of_nil in H as [].
Qed.

(** X7: [get_route_details] does not read a bad [stop_sequence] as 0:
    when a stop-time of one of the route's trips has a [stop_sequence]
    that [int] rejects (or that is [None]), the answer is the 500 error. *)
Theorem X7_details_bad_sequence d route_id route trip st :
  invalid_route_id route_id = false ->
  route ∈ routes d -> get "route_id" route = Some route_id ->
  trip ∈ trips d -> get "route_id" trip = Some route_id ->
  st ∈ stop_times d -> get "trip_id" st = get "trip_id" trip ->
  seq_key 0 st = None ->
  get_route_details d route_id = HttpError 500 "Error loading route details".
Proof.
  intros Hvalid Hroute Hrid Htrip Htr Hst Hid Hseq.
  unfold get_route_details. rewrite Hvalid.
  destruct (head_rows_with _ _ _ _ Hroute Hrid) as [r0 ->].
  unfold route_details_try.
  assert (Hm : mapM (trip_details d)
                 (rows_with "route_id" (Some route_id) (trips d)) = None).
  { apply mapM_None_2, Exists_exists. exists trip.
    split; [apply elem_of_rows_with; auto|].
    unfold trip_details.
    assert (Hin : st ∈ rows_with "trip_id" (get "trip_id" trip) (stop_times d))
      by (apply elem_of_rows_with; auto).
    destruct (rows_with "trip_id" (get "trip_id" trip) (stop_times d))
      as [|st0 rest] eqn:E; [apply elem_of_nil in Hin as []|].
    unfold sort_by_seq.
    rewrite (mapM_None_2 (seq_key 0) (st0 :: rest)); [reflexivity|].
    apply Exists_exists. exists st. auto. }
  rewrite Hm. reflexivity.
Qed.

Lemma X7_details_bad_sequence_witness :
  get_route_details Examples.bad_sequence_data "R1" =
    HttpError 500 "Error loading route details".
Proof.
  apply (X7_details_bad_sequence Examples.bad_sequence_data "R1"
           (mk [("route_id", "R1")])
           (mk [("trip_id", "T2"); ("route_id", "R1")])
           (mk [("trip_id", "T2"); ("stop_id", "S2"); ("stop_sequence", "last")]));
    try reflexivity.
  - apply elem_of_cons. left. reflexivity.
  - apply elem_of_cons. right. apply elem_of_cons. left. reflexivity.
  - unfold Examples.bad_sequence_data. cbn [stop_times].
    apply elem_of_app. right. apply elem_of_cons. left. reflexivity.
Defined.

Lemma trip_details_cases d trip o :
  trip_details d trip = Some o ->
  if has_stop_times d trip
  then exists t, o = Some t /\ td_trip_id t = get "trip_id" trip /\
                 (1 <= td_num_stops t)%nat /\
                 td_num_stops t =
                   List.length (rows_with "trip_id" (get "trip_id" trip) (stop_times d))
  else o = None.
Proof.
  unfold trip_details, has_stop_times.
  destruct (rows_with "trip_id" (get "trip_id" trip) (stop_times d))
    as [|st0 rest]; [intros [= <-]; reflexivity|].
  destruct (sort_by_seq (st0 :: rest)) as [sorted|]; simpl; [|discriminate].
  intros [= <-]. eexists. split; [reflexivity|]. simpl.
  repeat split. lia.
Qed.

(** X8: a successful route detail bundle counts every trip of the route
    in [total_trips] but lists only the trips that have at least one
    stop-time, in the order of [trips.txt]; each listed trip reports one
    stop or more. *)
Theorem X8_details_trip_list d route_id body :
  get_route_details d route_id = Ok body ->
  let route_trips := rows_with "route_id" (Some route_id) (trips d) in
  rd_total_trips body = List.length route_trips /\
  map td_trip_id (rd_trips body) =
    map (get "trip_id") (List.filter (has_stop_times d) route_trips) /\
  Forall (fun t => (1 <= td_num_stops t)%nat) (rd_trips body) /\
  get "route_id" (rd_route body) = Some route_id.
Proof.
  intros Hok.
  destruct (get_route_details_Ok _ _ _ Hok)
    as (route & details & firsts & Hr & Hd & _ & ->).
  cbv zeta. simpl. split; [reflexivity|].
  apply mapM_Some_1 in Hd.
  assert (Hroute : get "route_id" route = Some route_id).
  { assert (Hin : route ∈ rows_with "route_id" (Some route_id) (routes d)).
    { destruct (rows_with "route_id" (Some route_id) (routes d)); [discriminate|].
      injection Hr as ->. apply elem_of_cons. auto. }
    apply elem_of_rows_with in Hin. apply Hin. }
  clear Hok Hr. split; [|split; [|exact Hroute]].
  - induction Hd as [|trip o l k Ho _ IH]; [reflexivity|].
    apply trip_details_cases in Ho. cbn.
    destruct (has_stop_times d trip).
    + destruct Ho as (t & -> & Hid & _). cbn. rewrite Hid, IH. reflexivity.
    + subst o. cbn. exact IH.
  - induction Hd as [|trip o l k Ho _ IH]; [constructor|].
    apply trip_details_cases in Ho. cbn.
    destruct (has_stop_times d trip).
    + destruct Ho as (t & -> & _ & H1 & _). cbn. constructor; assumption.
    + subst o. cbn. exact IH.
Qed.

Lemma X8_details_trip_list_witness :
  exists body,
    get_route_details Examples.midnight_data "R1" = Ok body /\
    rd_total_trips body =
      List.length (rows_with "route_id" (Some "R1") (trips Examples.midnight_data)).
Proof.
  destruct (get_route_details Examples.midnight_data "R1") as [body| |] eqn:H;
    [|vm_compute in H; discriminate..].
  exists body. split; [reflexivity|].
  apply (X8_details_trip_list Examples.midnight_data "R1" body H).
Defined.

(* ===================================================================== *)
(** * Further properties: the departure board *)
(* ===================================================================== *)

Section Stable.
Context {A K : Type} `{EqDecision K} (leb : K -> K -> bool) (key : A -> K).
Hypothesis leb_refl : forall a, leb a a = true.

Lemma insert_by_same_key x l k :
  List.filter (fun y => bool_decide (key y = k)) (insert_by leb key x l) =
    if bool_decide (key x = k)
    then x :: List.filter (fun y => bool_decide (key y = k)) l
    else List.filter (fun y => bool_decide (key y = k)) l.
Proof.
  induction l as [|y l IH]; simpl; [reflexivity|].
  destruct (leb (key x) (key y)) eqn:Hxy; simpl.
  - destruct (bool_decide (key x = k)); reflexivity.
  - rewrite IH. case_bool_decide as Hy; case_bool_decide as Hx; try reflexivity.
    rewrite Hx, <- Hy, leb_refl in Hxy. discriminate.
Qed.

(** Elements of equal key leave the sort in the order they entered. *)
Lemma sort_by_stable l k :
  List.filter (fun y => bool_decide (key y = k)) (sort_by leb key l) =
    List.filter (fun y => bool_decide (key y = k)) l.
Proof.
  induction l as [|x l IH]; simpl; [reflexivity|].
  rewrite insert_by_same_key, IH. destruct (bool_decide (key x = k)); reflexivity.
Qed.
End Stable.

Lemma string_leb_refl s : String.leb s s = true.
Proof. destruct (String.leb_total s s); assumption. Qed.

(** X9: the departure board is the first 20 entries of an arrangement in
    which the entries of one and the same departure-time string stand in
    the order of their rows in [stop_times.txt]: ties are never
    reordered. *)
Theorem X9_board_ties_keep_file_order d stop_id :
  exists sorted,
    get_stop_departures d stop_id = firstn 20 sorted /\
    forall t : string,
      List.filter (fun e => bool_decide (departure_key e = t)) sorted =
        map (departure_of d)
          (List.filter
             (fun st => at_stop_with_departure stop_id st &&
                        bool_decide (departure_key (departure_of d st) = t))
             (stop_times d)).
Proof.
  exists (sort_by String.leb departure_key (departures d stop_id)).
  split; [reflexivity|]. intros t.
  rewrite (sort_by_stable String.leb departure_key string_leb_refl).
  rewrite departures_collect.
  induction (stop_times d) as [|st l IH]; simpl; [reflexivity|].
  destruct (at_stop_with_departure stop_id st); simpl; [|exact IH].
  destruct (bool_decide (departure_key (departure_of d st) = t)); simpl;
    [f_equal|]; exact IH.
Qed.

Lemma elem_of_firstn {A : Type} n (l : list A) x : x ∈ firstn n l -> x ∈ l.
Proof.
  intros H. rewrite <- (firstn_skipn n l). apply elem_of_app. left. exact H.
Qed.

Lemma filter_nil_Forall {A : Type} (p : A -> bool) l :
  List.filter p l = [] <-> Forall (fun x => p x = false) l.
Proof.
  induction l as [|x l IH]; simpl; [split; [constructor|reflexivity]|].
  destruct (p x) eqn:Hp.
  - split; [discriminate|]. intros H. apply Forall_cons in H as [H _]. congruence.
  - rewrite IH. split; [intros H; constructor; assumption|].
    intros H. apply Forall_cons in H as [_ H]. exact H.
Qed.

Lemma map_eq_nil_iff {A B : Type} (f : A -> B) l : map f l = [] <-> l = [].
Proof. destruct l; simpl; split; intros H; (reflexivity || discriminate). Qed.

(** X10: every entry of the board is the entry of a stop-time of
    [stop_times.txt] at the requested stop that has a [departure_time]
    member, and the board is empty exactly when there is no such
    stop-time. *)
Theorem X10_board_entries_at_stop d stop_id :
  (forall e,
      e ∈ get_stop_departures d stop_id ->
      exists st,
        st ∈ stop_times d /\ get "stop_id" st = Some stop_id /\
        is_Some (st !! "departure_time") /\ e = departure_of d st) /\
  (get_stop_departures d stop_id = [] <->
   Forall (fun st => at_stop_with_departure stop_id st = false) (stop_times d)).
Proof.
  split.
  - intros e He. unfold get_stop_departures in He.
    apply (elem_of_firstn 20) in He.
    rewrite sort_by_perm, departures_collect in He.
    apply list_elem_of_fmap in He as (st & -> & Hst).
    apply list_elem_of_In, filter_In in Hst as [Hin Hat].
    exists st. unfold at_stop_with_departure, val_eqb, has in Hat.
    apply andb_true_iff in Hat as [H1 H2].
    apply bool_decide_eq_true in H1, H2.
    repeat split; try assumption. apply list_elem_of_In, Hin.
  - unfold get_stop_departures.
    rewrite <- filter_nil_Forall, <- (map_eq_nil_iff (departure_of d)),
      <- departures_collect.
    split.
    + intros H.
      destruct (sort_by String.leb departure_key (departures d stop_id))
        as [|e s] eqn:Hs; [|discriminate].
      apply Permutation_nil. rewrite <- Hs. apply sort_by_perm.
    + intros ->. reflexivity.
Qed.

(* ===================================================================== *)
(** * Further properties: the lookup dicts *)
(* ===================================================================== *)

Lemma find_last_snoc {A : Type} (p : A -> bool) l x :
  find_last p (l ++ [x]) = if p x then Some x else find_last p l.
Proof.
  induction l as [|y l IH]; simpl.
  - destruct (p x); reflexivity.
  - rewrite IH. destruct (p x); [reflexivity|].
    destruct (find_last p l); reflexivity.
Qed.

Lemma find_last_ext {A : Type} (p q : A -> bool) l :
  (forall x, p x = q x) -> find_last p l = find_last q l.
Proof.
  intros H. induction l as [|x l IH]; simpl; [reflexivity|].
  rewrite IH, H. reflexivity.
Qed.

(** A dict built by assignments in a loop holds, under each key, the
    value of the last item that assigned to it. *)
Lemma fold_insert_last {A K V : Type} `{Countable K}
  (p : A -> bool) (kf : A -> K) (vf : A -> V) (l : list A) (k : K) :
  fold_left (fun (m : gmap K V) x => if p x then <[kf x := vf x]> m else m) l ∅
    !! k =
  vf <$> find_last (fun x => p x && bool_decide (kf x = k)) l.
Proof.
  induction l as [|x l IH] using rev_ind; [reflexivity|].
  rewrite fold_left_app, find_last_snoc. simpl.
  destruct (p x); simpl; [|exact IH].
  case_bool_decide as Hk.
  - rewrite Hk. apply lookup_insert_eq.
  - rewrite lookup_insert_ne by exact Hk. exact IH.
Qed.

(** X11: when [trips.txt] names a trip id more than once, the route of
    the last row wins in [trip_to_route]: the dict maps each trip id to the
    [route_id] of the last row that has both members and that trip id, and
    has no entry for an id without such a row. *)
Theorem X11_trip_to_route_last_wins (trips_data : list row) (k : Py.val) :
  trip_to_route trips_data !! k =
    get "route_id" <$> find_last (maps_trip k) trips_data.
Proof.
  unfold trip_to_route.
  rewrite (fold_insert_last
             (fun trip => has "trip_id" trip && has "route_id" trip)
             (get "trip_id") (get "route_id")).
  reflexivity.
Qed.

Lemma stops_dict_last (stops_data : list row) (stop_id : string) :
  stop_id <> "" ->
  stops_dict stops_data !! stop_id =
    find_last (fun stop => String.eqb (stripped "stop_id" stop) stop_id) stops_data.
Proof.
  intros Hne. unfold stops_dict.
  rewrite (fold_left_ext_eq _
             (fun (m : gmap string row) stop =>
                if negb (String.eqb (stripped "stop_id" stop) "")
                then <[stripped "stop_id" stop := id stop]> m else m)).
  2: { intros m stop. destruct (String.eqb (stripped "stop_id" stop) ""); reflexivity. }
  rewrite fold_insert_last, option_fmap_id.
  apply find_last_ext. intros stop.
  destruct (String.eqb_spec (stripped "stop_id" stop) stop_id) as [->|Hs].
  - rewrite bool_decide_eq_true_2 by reflexivity.
    apply String.eqb_neq in Hne. rewrite Hne. reflexivity.
  - rewrite bool_decide_eq_false_2 by exact Hs. rewrite andb_false_r. reflexivity.
Qed.

(** X12: when [stops.txt] names a stop id more than once, the batch
    path builder uses the last row: [stops_dict] maps a non-empty id to the
    last row whose stripped [stop_id] is that id. *)
Theorem X12_stops_dict_last_wins (stops_data : list row) (stop_id : string) :
  stop_id <> "" ->
  stops_dict stops_data !! stop_id =
    find_last (fun stop => String.eqb (stripped "stop_id" stop) stop_id) stops_data.
Proof. apply stops_dict_last. Qed.

Lemma X12_stops_dict_last_wins_witness :
  stops_dict [mk [("stop_id", "S1"); ("stop_name", "Old")];
              mk [("stop_id", "S1"); ("stop_name", "New")]] !! "S1" =
    find_last (fun stop => String.eqb (stripped "stop_id" stop) "S1")
      [mk [("stop_id", "S1"); ("stop_name", "Old")];
       mk [("stop_id", "S1"); ("stop_name", "New")]].
Proof.
  apply (X12_stops_dict_last_wins
           [mk [("stop_id", "S1"); ("stop_name", "Old")];
            mk [("stop_id", "S1"); ("stop_name", "New")]] "S1").
  discriminate.
Defined.

Lemma find_last_unique {A : Type} (f : A -> string) (k : string) l :
  NoDup (map f l) ->
  head (List.filter (fun x => String.eqb (f x) k) l) =
    find_last (fun x => String.eqb (f x) k) l.
Proof.
  induction l as [|x l IH]; simpl; [reflexivity|].
  intros Hnd. apply NoDup_cons in Hnd as [Hx Hnd].
  destruct (String.eqb_spec (f x) k) as [Hk|Hk]; simpl.
  - assert (Hnone : find_last (fun y => String.eqb (f y) k) l = None).
    { rewrite <- (IH Hnd).
      destruct (List.filter _ l) as [|y l'] eqn:E; [reflexivity|].
      exfalso. apply Hx.
      assert (Hy : In y (List.filter (fun x => String.eqb (f x) k) l))
        by (rewrite E; left; reflexivity).
      apply filter_In in Hy as [Hy Hfy]. apply String.eqb_eq in Hfy.
      apply list_elem_of_fmap. exists y. split; [congruence|].
      apply list_elem_of_In, Hy. }
    rewrite Hnone. reflexivity.
  - rewrite (IH Hnd). destruct (find_last _ l); reflexivity.
Qed.

(** X13: when every row of [stops.txt] has a [stop_id] free of
    surrounding white space and no id occurs twice, the two path builders
    resolve a stop id to the same row: the linear search of
    [get_route_path] and the dict of [get_all_route_paths] agree. *)
Theorem X13_builders_resolve_same_stop (stops_data : list row) (stop_id : string) :
  stop_id <> "" ->
  Forall (fun stop => get "stop_id" stop = Some (stripped "stop_id" stop)) stops_data ->
  NoDup (map (stripped "stop_id") stops_data) ->
  find_stop stops_data (Some stop_id) = stops_dict stops_data !! stop_id.
Proof.
  intros Hne Hstripped Hnd.
  rewrite (stops_dict_last stops_data stop_id Hne).
  rewrite <- (find_last_unique (stripped "stop_id") stop_id _ Hnd).
  unfold find_stop, rows_with.
  assert (E : List.filter (fun r => val_eqb (get "stop_id" r) (Some stop_id)) stops_data =
              List.filter (fun x => String.eqb (stripped "stop_id" x) stop_id) stops_data).
  { clear Hnd. induction Hstripped as [|stop l Hs _ IH]; simpl; [reflexivity|].
    rewrite IH. unfold val_eqb at 1. rewrite Hs.
    destruct (String.eqb_spec (stripped "stop_id" stop) stop_id) as [->|Hk].
    - rewrite bool_decide_eq_true_2 by reflexivity. reflexivity.
    - rewrite bool_decide_eq_false_2 by congruence. reflexivity. }
  rewrite E. reflexivity.
Qed.

Lemma X13_builders_resolve_same_stop_witness :
  find_stop (stops Examples.path_data) (Some "S3") =
    stops_dict (stops Examples.path_data) !! "S3".
Proof.
  apply (X13_builders_resolve_same_stop (stops Examples.path_data) "S3").
  - discriminate.
  - repeat constructor.
  - vm_compute. repeat constructor; vm_compute;
      intros H; repeat (apply elem_of_cons in H as [H|H]; [discriminate|]);
      apply elem_of_nil in H; exact H.
Defined.

(* ===================================================================== *)
(** * Further properties: the route attribute edit *)
(* ===================================================================== *)

Lemma update_first_app route_id data before route after :
  Forall (fun r => get "route_id" r <> Some route_id) before ->
  get "route_id" route = Some route_id ->
  update_first route_id data (before ++ route :: after) =
    Some (before ++ apply_update data route :: after).
Proof.
  intros Hb Hr. induction Hb as [|r l Hne _ IH]; simpl.
  - unfold val_eqb. rewrite bool_decide_eq_true_2 by exact Hr. reflexivity.
  - unfold val_eqb at 1. rewrite bool_decide_eq_false_2 by exact Hne.
    rewrite IH. reflexivity.
Qed.

Lemma assign_well_formed fieldnames k v (r : row) :
  supplied_ok fieldnames k v ->
  dom r = fieldnames /\ (forall j, r !! j <> Some None) ->
  dom (assign k v r) = fieldnames /\ (forall j, assign k v r !! j <> Some None).
Proof.
  intros Hv [Hdom Hval]. unfold assign.
  destruct v as [[s|]|]; simpl in Hv; [|destruct Hv|auto].
  split.
  - rewrite dom_insert_L, Hdom. apply set_eq. intros j.
    rewrite elem_of_union, elem_of_singleton. split; [intros [->|]; auto|auto].
  - intros j. destruct (decide (k = j)) as [<-|Hne].
    + rewrite lookup_insert_eq. discriminate.
    + rewrite lookup_insert_ne by exact Hne. apply Hval.
Qed.

Lemma apply_update_well_formed fieldnames data (r : row) :
  supplies_within fieldnames data ->
  dom r = fieldnames /\ (forall j, r !! j <> Some None) ->
  dom (apply_update data r) = fieldnames /\
  (forall j, apply_update data r !! j <> Some None).
Proof.
  intros (H1 & H2 & H3 & H4) Hr. unfold apply_update.
  repeat (apply assign_well_formed; [assumption|]). exact Hr.
Qed.

(** X14: on a table whose rows share their columns and hold no [None]
    (what [load_csv] gives for a regular file), an edit that supplies only
    strings for existing columns succeeds, and afterwards the file is the
    old file with the first row of the route id edited: every other row is
    the same, and on the edited row every column other than the four
    attributes is the same. *)
Theorem X14_edit_existing_columns file route_id data fieldnames before route after :
  rq_route_id data <> None ->
  file = before ++ route :: after ->
  Forall (fun r => get "route_id" r <> Some route_id) before ->
  get "route_id" route = Some route_id ->
  well_formed_table fieldnames file ->
  supplies_within fieldnames data ->
  update_route file route_id data =
    (Ok "Route updated successfully",
     before ++ apply_update data route :: after) /\
  (forall k,
      k <> "route_short_name" -> k <> "route_long_name" ->
      k <> "route_color" -> k <> "route_desc" ->
      apply_update data route !! k = route !! k).
Proof.
  intros Hid -> Hb Hr Hwf0 Hdata.
  split; [|intros k; apply apply_update_other].
  assert (Hwf : Forall (fun r : row => dom r = fieldnames /\
                                       forall k, r !! k <> Some None)
                  (before ++ route :: after)).
  { eapply Forall_impl; [exact Hwf0|]. intros r [Hd Hv]. split; [exact Hd|].
    intros k Hk. apply (Hv k None Hk). reflexivity. }
  clear Hwf0.
  assert (Hwf' : Forall (fun r : row => dom r = fieldnames /\
                                        forall k, r !! k <> Some None)
                   (before ++ apply_update data route :: after)).
  { apply Forall_app in Hwf as [Hwb Hwa]. apply Forall_cons in Hwa as [Hwr Hwa].
    apply Forall_app. split; [exact Hwb|]. constructor; [|exact Hwa].
    apply apply_update_well_formed; assumption. }
  assert (Hmap : map (written_row fieldnames)
                   (before ++ apply_update data route :: after) =
                 before ++ apply_update data route :: after).
  { induction Hwf' as [|r l [Hd Hv] _ IH]; simpl; [reflexivity|].
    rewrite IH, (written_row_id _ _ Hd Hv). reflexivity. }
  destruct (before ++ apply_update data route :: after) as [|r0 rest] eqn:E.
  { destruct before; discriminate. }
  assert (Hr0 : dom r0 = fieldnames).
  { apply Forall_cons in Hwf' as [[Hd _] _]. exact Hd. }
  rewrite (update_route_existing_columns _ route_id data r0 rest Hid).
  - rewrite Hr0, Hmap. reflexivity.
  - rewrite <- E. apply update_first_app; assumption.
  - rewrite Hr0. eapply Forall_impl; [exact Hwf'|].
    intros r [Hd _]. rewrite Hd. reflexivity.
Qed.

Lemma X14_edit_existing_columns_witness :
  update_route Examples.routes_file "R2"
    (UpdateRequest (Some (Some "R2")) (Some (Some "B")) None None None) =
    (Ok "Route updated successfully",
     [mk [("route_id", "R1"); ("route_short_name", "1"); ("route_long_name", "One")]] ++
     apply_update (UpdateRequest (Some (Some "R2")) (Some (Some "B")) None None None)
       (mk [("route_id", "R2"); ("route_short_name", "2"); ("route_long_name", "Two")])
     :: [mk [("route_id", "R3"); ("route_short_name", "3"); ("route_long_name", "Three")]]).
Proof.
  apply (X14_edit_existing_columns Examples.routes_file "R2" _
           (list_to_set ["route_id"; "route_short_name"; "route_long_name"])).
  - discriminate.
  - reflexivity.
  - repeat constructor. discriminate.
  - reflexivity.
  - apply (bool_decide_unpack _). vm_compute. exact I.
  - repeat split.
Defined.

(* ===================================================================== *)
(** * Further properties: the upload checks *)
(* ===================================================================== *)

Lemma after_last_Some sep s t :
  after_last sep s = Some t <->
  exists stem, s = String.append stem (String sep t) /\ after_last sep t = None.
Proof.
  split.
  - revert t. induction s as [|c s IH]; intros t; simpl; [discriminate|].
    destruct (after_last sep s) as [t'|] eqn:Hs.
    + intros [= <-]. destruct (IH t' eq_refl) as (stem & -> & Hn).
      exists (String c stem). split; [reflexivity|exact Hn].
    + destruct (Ascii.eqb_spec c sep) as [->|]; [|discriminate].
      intros [= <-]. exists EmptyString. split; [reflexivity|exact Hs].
  - intros (stem & -> & Hn). induction stem as [|c stem IH]; simpl.
    + rewrite Hn, Ascii.eqb_refl. reflexivity.
    + rewrite IH. reflexivity.
Qed.

Lemma lower_zip_no_dot ext : lower_str ext = "zip" -> after_last "." ext = None.
Proof.
  destruct ext as [|a [|b [|c [|e ext]]]]; try discriminate.
  unfold lower_str. simpl. intros [= Ha Hb Hc].
  destruct (Ascii.eqb_spec a ".") as [->|_]; [vm_compute in Ha; discriminate|].
  destruct (Ascii.eqb_spec b ".") as [->|_]; [vm_compute in Hb; discriminate|].
  destruct (Ascii.eqb_spec c ".") as [->|_]; [vm_compute in Hc; discriminate|].
  reflexivity.
Qed.

(** X15: [allowed_file] accepts exactly the names of the form
    [stem.ext] whose extension is "zip" in any mix of upper and lower case:
    a name without a dot, and a name whose last dot is followed by anything
    else, is refused. *)
Theorem X15_allowed_file_zip (filename : string) :
  allowed_file filename = true <->
  exists stem ext,
    filename = String.append stem (String "." ext) /\ lower_str ext = "zip".
Proof.
  unfold allowed_file. split.
  - destruct (after_last "." filename) as [ext|] eqn:He; [|discriminate].
    intros H. apply String.eqb_eq in H.
    apply after_last_Some in He as (stem & -> & _).
    exists stem, ext. auto.
  - intros (stem & ext & -> & Hz).
    assert (He : after_last "." (String.append stem (String "." ext)) = Some ext).
    { apply after_last_Some. exists stem. split; [reflexivity|].
      apply lower_zip_no_dot, Hz. }
    rewrite He. apply String.eqb_eq, Hz.
Qed.

Lemma starts_with_app p l :
  starts_with p l = true <-> exists r, l = p ++ r.
Proof.
  revert l. induction p as [|a p IH]; intros l; simpl.
  - split; [exists l; reflexivity|reflexivity].
  - destruct l as [|b l].
    + split; [discriminate|]. intros [r Hr]. discriminate.
    + rewrite andb_true_iff, IH. split.
      * intros [Hab [r ->]]. apply Ascii.eqb_eq in Hab as ->. exists r. reflexivity.
      * intros [r [= -> ->]]. split; [apply Ascii.eqb_refl|exists r; reflexivity].
Qed.

Lemma string_app_list s t :
  list_ascii_of_string (String.append s t) =
    list_ascii_of_string s ++ list_ascii_of_string t.
Proof. induction s as [|c s IH]; simpl; [reflexivity|]. rewrite IH. reflexivity. Qed.

(** [ends_with] is the suffix relation of strings. *)
Lemma ends_with_suffix s suffix :
  ends_with s suffix = true <-> exists stem, s = String.append stem suffix.
Proof.
  unfold ends_with. rewrite starts_with_app. split.
  - intros [r Hr]. exists (string_of_list_ascii (rev r)).
    rewrite <- (string_of_list_ascii_of_string s).
    rewrite <- (rev_involutive (list_ascii_of_string s)), Hr, rev_app_distr, rev_involutive.
    rewrite <- (string_of_list_ascii_of_string (String.append _ _)).
    rewrite string_app_list, list_ascii_of_string_of_list_ascii. reflexivity.
  - intros [stem ->]. exists (rev (list_ascii_of_string stem)).
    rewrite string_app_list, rev_app_distr. reflexivity.
Qed.

Lemma select_members_fold file_list reqs extracted missing :
  fold_left
    (fun '(extracted, missing) req_file =>
       match find_member file_list req_file with
       | Some zip_file => (extracted ++ [(req_file, zip_file)], missing)
       | None => (extracted, missing ++ [req_file])
       end) reqs (extracted, missing) =
  (extracted ++ omap (fun req => pair req <$> find_member file_list req) reqs,
   missing ++ List.filter (fun req => bool_decide (find_member file_list req = None)) reqs).
Proof.
  revert extracted missing. induction reqs as [|req reqs IH]; intros extracted missing.
  - simpl. rewrite !app_nil_r. reflexivity.
  - cbn [fold_left]. destruct (find_member file_list req) as [z|] eqn:Hz.
    + rewrite IH. cbn. rewrite Hz. cbn. rewrite <- app_assoc. reflexivity.
    + rewrite IH. cbn. rewrite Hz. cbn. rewrite <- app_assoc. reflexivity.
Qed.

(** X16: the upload finds no missing file exactly when, for each of the
    four required names, the archive lists a member whose name ends with
    it (the name need not be equal: "backup_stops.txt" serves for
    "stops.txt"); the member taken for a required name is the first such
    member in archive order, and a required name is reported missing
    exactly when no member name ends with it. *)
Theorem X16_required_members (file_list : list string) :
  (forall req,
      req ∈ snd (select_members file_list) <->
      req ∈ required_files /\
      forall zip_file stem, zip_file ∈ file_list -> zip_file <> String.append stem req) /\
  (forall req zip_file,
      (req, zip_file) ∈ fst (select_members file_list) ->
      req ∈ required_files /\
      exists before after stem,
        file_list = before ++ zip_file :: after /\
        zip_file = String.append stem req /\
        Forall (fun z => ends_with z req = false) before) /\
  (snd (select_members file_list) = [] <->
   forall req, req ∈ required_files ->
               exists zip_file stem,
                 zip_file ∈ file_list /\ zip_file = String.append stem req).
Proof.
  unfold select_members. rewrite select_members_fold. cbn [fst snd app].
  assert (Hnone : forall req,
             find_member file_list req = None <->
             forall zip_file stem, zip_file ∈ file_list ->
                                   zip_file <> String.append stem req).
  { intros req. unfold find_member. split.
    - intros Hf z stem Hz ->.
      apply list_elem_of_In in Hz.
      pose proof (find_none _ _ Hf _ Hz) as Hn. simpl in Hn.
      assert (Ht : ends_with (String.append stem req) req = true)
        by (apply ends_with_suffix; exists stem; reflexivity).
      congruence.
    - intros H. destruct (List.find _ file_list) as [z|] eqn:Hf; [|reflexivity].
      apply find_some in Hf as [Hin He].
      apply ends_with_suffix in He as [stem ->].
      exfalso. apply (H (String.append stem req) stem);
        [apply list_elem_of_In, Hin|reflexivity]. }
  split; [|split].
  - intros req. rewrite list_elem_of_In, filter_In, bool_decide_eq_true, Hnone.
    rewrite <- list_elem_of_In. reflexivity.
  - intros req z Hin.
    apply list_elem_of_omap in Hin as (req' & Hreq & Hf).
    destruct (find_member file_list req') as [z'|] eqn:Hz; simpl in Hf; [|discriminate].
    injection Hf as <- <-. split; [exact Hreq|].
    unfold find_member in Hz. clear Hnone Hreq.
    induction file_list as [|y l IH]; simpl in Hz; [discriminate|].
    destruct (ends_with y req') eqn:Hy.
    + injection Hz as <-. apply ends_with_suffix in Hy as [stem Hs].
      exists [], l, stem. repeat split; [exact Hs|constructor].
    + destruct (IH Hz) as (before & after & stem & -> & Hs & Hb).
      exists (y :: before), after, stem. repeat split; [exact Hs|].
      constructor; assumption.
  - rewrite filter_nil_Forall, Forall_forall. split.
    + intros H req Hreq. specialize (H req Hreq).
      apply bool_decide_eq_false in H.
      destruct (find_member file_list req) as [z|] eqn:Hz; [|contradiction].
      apply find_some in Hz as [Hin He]. apply ends_with_suffix in He as [stem ->].
      exists (String.append stem req), stem. split; [apply list_elem_of_In, Hin|reflexivity].
    + intros H req Hreq. apply bool_decide_eq_false. intros Hf.
      destruct (H req Hreq) as (z & stem & Hin & ->).
      apply (proj1 (Hnone req) Hf (String.append stem req) stem Hin). reflexivity.
Qed.

(* ===================================================================== *)
(** * Further properties: the table loader *)
(* ===================================================================== *)

Section Strip.
Variable p : ascii -> bool.

Lemma drop_while_head l c l' : Py.drop_while p l = c :: l' -> p c = false.
Proof.
  induction l as [|x l IH]; simpl; [discriminate|].
  destruct (p x) eqn:Hx; [exact IH|]. intros [= <- _]. exact Hx.
Qed.

Lemma drop_while_fixed l :
  (forall c l', l = c :: l' -> p c = false) -> Py.drop_while p l = l.
Proof.
  destruct l as [|c l]; [reflexivity|]. intros H. simpl.
  rewrite (H c l eq_refl). reflexivity.
Qed.

Lemma drop_while_suffix l : exists pre, l = pre ++ Py.drop_while p l.
Proof.
  induction l as [|x l [pre IH]]; simpl; [exists []; reflexivity|].
  destruct (p x); [|exists []; reflexivity].
  exists (x :: pre). simpl. f_equal. exact IH.
Qed.

(** Stripping twice is stripping once. *)
Lemma strip_with_idem l :
  Py.strip_with p (Py.strip_with p l) = Py.strip_with p l.
Proof.
  unfold Py.strip_with.
  set (X := Py.drop_while p l). set (D := Py.drop_while p (rev X)).
  assert (Hhead : forall c l', rev D = c :: l' -> p c = false).
  { intros c l' Hc. destruct (drop_while_suffix (rev X)) as [pre Hpre].
    fold D in Hpre. apply (f_equal (@rev ascii)) in Hpre.
    rewrite rev_involutive, rev_app_distr, Hc in Hpre. simpl in Hpre.
    apply (drop_while_head l c (l' ++ rev pre)). exact Hpre. }
  rewrite (drop_while_fixed (rev D) Hhead), rev_involutive.
  rewrite (drop_while_fixed D); [reflexivity|].
  intros c l' Hc. apply (drop_while_head (rev X) c l'). exact Hc.
Qed.
End Strip.

Lemma strip_idem s : Py.strip (Py.strip s) = Py.strip s.
Proof.
  unfold Py.strip. rewrite list_ascii_of_string_of_list_ascii, strip_with_idem.
  reflexivity.
Qed.

(** What the cleaning loop stores is stripped. *)
Lemma clean_row_stripped d (k : string) (v : Py.val) :
  clean_row d !! k = Some v ->
  Py.strip k = k /\ forall s, v = Some s -> Py.strip s = s.
Proof.
  unfold clean_row.
  assert (H : forall (acc : row),
             (forall k v, acc !! k = Some v ->
                          Py.strip k = k /\ forall s, v = Some s -> Py.strip s = s) ->
             forall k v,
               fold_left
                 (fun (clean : row) '(key, value) =>
                    let clean_key := if String.eqb key "" then key else Py.strip key in
                    let clean_value :=
                      if Py.truthy value then Py.strip <$> value else value in
                    <[clean_key := clean_value]> clean) d acc !! k = Some v ->
               Py.strip k = k /\ forall s, v = Some s -> Py.strip s = s).
  { induction d as [|[key value] d IH]; intros acc Hacc; [exact Hacc|].
    cbn [fold_left]. apply IH. intros k' v'. cbv zeta.
    set (ck := if String.eqb key "" then key else Py.strip key).
    destruct (decide (ck = k')) as [<-|Hne].
    - rewrite lookup_insert_eq. intros [= <-]. split.
      + unfold ck. destruct (String.eqb_spec key "") as [->|_];
          [reflexivity|apply strip_idem].
      + destruct value as [s0|]; simpl.
        * destruct (String.eqb_spec s0 "") as [->|_]; simpl.
          -- intros s [= <-]. reflexivity.
          -- intros s [= <-]. apply strip_idem.
        * discriminate.
    - rewrite lookup_insert_ne by exact Hne. apply Hacc. }
  apply H. intros k' v' Hk. rewrite lookup_empty in Hk. discriminate.
Qed.

Lemma load_records_rows fieldnames records r :
  r ∈ load_records fieldnames records ->
  exists record, record ∈ records /\ r = clean_row (reader_row fieldnames record).
Proof.
  induction records as [|record rest IH]; simpl.
  - intros H. apply elem_of_nil in H as [].
  - destruct record as [|c record].
    + intros H. destruct (IH H) as (rec & Hin & ->).
      exists rec. split; [apply elem_of_cons; auto|reflexivity].
    + destruct (Nat.ltb _ _); [intros H; apply elem_of_nil in H as []|].
      intros H. apply elem_of_cons in H as [->|H].
      * exists (c :: record). split; [apply elem_of_cons; auto|reflexivity].
      * destruct (IH H) as (rec & Hin & ->).
        exists rec. split; [apply elem_of_cons; auto|reflexivity].
Qed.

(** X17: every row that [load_csv] returns is clean: its column names
    and its string values carry no surrounding white space, so stripping
    them again changes nothing, and the strip-and-default that the batch
    path builder applies to a field returns the field as loaded. *)
Theorem X17_loaded_rows_are_stripped (file : csv_file) (r : row) (k : string) :
  r ∈ load_csv file ->
  (is_Some (r !! k) -> Py.strip k = k) /\
  (forall s, r !! k = Some (Some s) -> Py.strip s = s) /\
  stripped k r = default "" (get k r).
Proof.
  intros Hr.
  assert (Hclean : exists d, r = clean_row d).
  { destruct file as [[|fieldnames records]|]; simpl in Hr;
      try (apply elem_of_nil in Hr as []).
    apply load_records_rows in Hr as (record & _ & ->). eexists. reflexivity. }
  destruct Hclean as [d ->].
  assert (Hs : forall s, clean_row d !! k = Some (Some s) -> Py.strip s = s).
  { intros s Hk. apply (clean_row_stripped _ _ _ Hk). reflexivity. }
  split; [|split; [exact Hs|]].
  - intros [v Hv]. exact (proj1 (clean_row_stripped _ _ _ Hv)).
  - unfold stripped, get. destruct (clean_row d !! k) as [[s|]|] eqn:Hk; simpl;
      [|reflexivity..].
    destruct (String.eqb_spec s "") as [->|_]; simpl; [reflexivity|].
    apply Hs. reflexivity.
Qed.

Lemma X17_loaded_rows_are_stripped_witness :
  stripped "stop_id"
    (clean_row (reader_row [" stop_id"; "stop_name "] ["  S1 "; " Main St"])) =
  default ""
    (get "stop_id"
       (clean_row (reader_row [" stop_id"; "stop_name "] ["  S1 "; " Main St"]))).
Proof.
  apply (X17_loaded_rows_are_stripped
           (Some [[" stop_id"; "stop_name "]; ["  S1 "; " Main St"]])).
  apply elem_of_cons. left. reflexivity.
Defined.

Lemma load_records_app fieldnames records1 records2 :
  Forall (fun record =>
            (List.length record <= List.length fieldnames)%nat) records1 ->
  load_records fieldnames (records1 ++ records2) =
    load_records fieldnames records1 ++ load_records fieldnames records2.
Proof.
  induction 1 as [|record rest Hlen _ IH]; simpl; [reflexivity|].
  destruct record as [|c record]; [exact IH|].
  destruct (Nat.ltb_spec (List.length fieldnames) (List.length (c :: record)));
    [lia|]. rewrite IH. reflexivity.
Qed.

(** X18: a record with more fields than the header ends the load without
    an error: [load_csv] returns the rows of the records before it, and
    every record after it is dropped, whatever it holds. *)
Theorem X18_long_record_cuts_the_file
  (fieldnames : list string) (before : list (list string))
  (long : list string) (after : list (list string)) :
  Forall (fun record =>
            (List.length record <= List.length fieldnames)%nat) before ->
  (List.length fieldnames < List.length long)%nat ->
  load_csv (Some (fieldnames :: before ++ long :: after)) =
    load_csv (Some (fieldnames :: before)).
Proof.
  intros Hb Hlong. simpl. rewrite (load_records_app _ _ _ Hb). simpl.
  destruct long as [|c long]; [simpl in Hlong; lia|].
  destruct (Nat.ltb_spec (List.length fieldnames) (List.length (c :: long)));
    [|lia].
  rewrite app_nil_r. reflexivity.
Qed.

Lemma X18_long_record_cuts_the_file_witness :
  load_csv (Some (["route_id"; "route_short_name"]
                  :: [["R1"; "1"]] ++ ["R2"; "2"; "extra"] :: [["R3"; "3"]])) =
    load_csv (Some (["route_id"; "route_short_name"] :: [["R1"; "1"]])).
Proof.
  apply (X18_long_record_cuts_the_file ["route_id"; "route_short_name"]
           [["R1"; "1"]] ["R2"; "2"; "extra"] [["R3"; "3"]]).
  - repeat constructor.
  - simpl. lia.
Defined.

Lemma od_set_fresh {K V : Type} `{EqDecision K} (k : K) (v : V) d :
  k ∉ map fst d -> od_set k v d = d ++ [(k, v)].
Proof.
  unfold od_set. induction d as [|[k0 v0] d IH]; simpl; [reflexivity|].
  intros Hk. apply not_elem_of_cons in Hk as [Hne Hk].
  destruct (decide (k = k0)); [contradiction|]. rewrite (IH Hk). reflexivity.
Qed.

Lemma reader_fill_values (l : list (string * string)) acc :
  NoDup (map fst acc ++ map fst l) ->
  fold_left (fun d '(k, v) => od_set k (Some v) d) l acc =
    acc ++ map (fun '(k, v) => (k, Some v)) l.
Proof.
  revert acc. induction l as [|[k v] l IH]; intros acc Hnd; simpl.
  - rewrite app_nil_r. reflexivity.
  - simpl in Hnd. rewrite od_set_fresh.
    + rewrite IH; [rewrite <- app_assoc; reflexivity|].
      rewrite map_app. simpl. rewrite <- app_assoc. exact Hnd.
    + apply NoDup_app in Hnd as (_ & Hd & _). intros Hk.
      apply (Hd k Hk). apply elem_of_cons. auto.
Qed.

Lemma reader_fill_none (l : list string) (acc : list (string * Py.val)) :
  NoDup (map fst acc ++ l) ->
  fold_left (fun d k => od_set k None d) l acc =
    acc ++ map (fun k => (k, None)) l.
Proof.
  revert acc. induction l as [|k l IH]; intros acc Hnd; simpl.
  - rewrite app_nil_r. reflexivity.
  - rewrite od_set_fresh.
    + rewrite IH; [rewrite <- app_assoc; reflexivity|].
      rewrite map_app. simpl. rewrite <- app_assoc. exact Hnd.
    + apply NoDup_app in Hnd as (_ & Hd & _). intros Hk.
      apply (Hd k Hk). apply elem_of_cons. auto.
Qed.

Lemma zip_keys (h r : list string) :
  map fst (zip h r) = firstn (List.length r) h.
Proof.
  revert r. induction h as [|k h IH]; intros [|v r]; simpl; try reflexivity.
  rewrite IH. reflexivity.
Qed.

(** For a header without repeated names, the dict of a record has the
    header as its keys, each with the field at its position. *)
Lemma reader_row_explicit (fieldnames record : list string) :
  NoDup fieldnames ->
  reader_row fieldnames record =
    map (fun '(k, v) => (k, Some v)) (zip fieldnames record) ++
    map (fun k => (k, None)) (drop (List.length record) fieldnames).
Proof.
  intros Hnd. unfold reader_row.
  assert (Hkeys : map fst (map (fun '(k, v) => (k, @Some string v))
                             (zip fieldnames record)) =
                  firstn (List.length record) fieldnames).
  { rewrite <- zip_keys, map_map. apply map_ext. intros [k v]. reflexivity. }
  rewrite reader_fill_values.
  - simpl. apply reader_fill_none. rewrite Hkeys, firstn_skipn. exact Hnd.
  - simpl. rewrite zip_keys.
    apply (sublist_NoDup _ fieldnames); [exact Hnd|apply sublist_take].
Qed.

Lemma reader_row_cell (fieldnames record : list string) j name :
  NoDup fieldnames ->
  fieldnames !! j = Some name ->
  (name, record !! j) ∈ reader_row fieldnames record.
Proof.
  intros Hnd Hj. rewrite (reader_row_explicit _ _ Hnd). apply elem_of_app.
  destruct (record !! j) as [v|] eqn:Hv.
  - left. apply list_elem_of_fmap. exists (name, v). split; [reflexivity|].
    apply list_elem_of_lookup. exists j.
    apply lookup_zip_with_Some. exists name, v. auto.
  - right. apply list_elem_of_fmap. exists name. split; [reflexivity|].
    apply lookup_ge_None in Hv. apply list_elem_of_lookup.
    exists (j - List.length record)%nat. rewrite lookup_drop.
    rewrite <- Hj. f_equal. lia.
Qed.

Lemma reader_row_keys (fieldnames record : list string) :
  NoDup fieldnames -> map fst (reader_row fieldnames record) = fieldnames.
Proof.
  intros Hnd. rewrite (reader_row_explicit _ _ Hnd), map_app, !map_map.
  rewrite <- (firstn_skipn (List.length record) fieldnames) at 3.
  f_equal.
  - rewrite <- zip_keys. apply map_ext. intros [k v]. reflexivity.
  - apply map_id.
Qed.

Lemma find_last_here {A K : Type} `{EqDecision K} (kf : A -> K) (l : list A) x :
  NoDup (map kf l) -> x ∈ l ->
  find_last (fun y => bool_decide (kf y = kf x)) l = Some x.
Proof.
  induction l as [|y l IH]; simpl; intros Hnd Hin.
  - apply elem_of_nil in Hin as [].
  - apply NoDup_cons in Hnd as [Hy Hnd].
    apply elem_of_cons in Hin as [->|Hin].
    + assert (Hn : find_last (fun z => bool_decide (kf z = kf y)) l = None).
      { clear IH Hnd. induction l as [|z l IHl]; simpl; [reflexivity|].
        apply not_elem_of_cons in Hy as [Hzy Hy]. rewrite (IHl Hy).
        rewrite bool_decide_eq_false_2 by congruence. reflexivity. }
      rewrite Hn, bool_decide_eq_true_2 by reflexivity. reflexivity.
    + rewrite (IH Hnd Hin). reflexivity.
Qed.

Lemma clean_key_strip key :
  (if String.eqb key "" then key else Py.strip key) = Py.strip key.
Proof. destruct (String.eqb_spec key "") as [->|_]; reflexivity. Qed.

Lemma clean_value_strip (value : Py.val) :
  (if Py.truthy value then Py.strip <$> value else value) = Py.strip <$> value.
Proof.
  destruct value as [s|]; simpl; [|reflexivity].
  destruct (String.eqb_spec s "") as [->|_]; reflexivity.
Qed.

(** A cell of a dict whose stripped keys are distinct is found in the
    cleaned row under its stripped key, stripped. *)
Lemma clean_row_cell d key (value : Py.val) :
  NoDup (map (fun kv : string * Py.val => Py.strip (fst kv)) d) ->
  (key, value) ∈ d ->
  clean_row d !! Py.strip key = Some (Py.strip <$> value).
Proof.
  intros Hnd Hin. unfold clean_row.
  rewrite (fold_left_ext_eq _
             (fun (m : row) (kv : string * Py.val) =>
                if (fun _ => true) kv
                then <[Py.strip (fst kv) := Py.strip <$> snd kv]> m else m)).
  2: { intros m [k v]. cbv zeta. rewrite clean_key_strip, clean_value_strip.
       reflexivity. }
  rewrite (fold_insert_last (fun _ => true)
             (fun kv : string * Py.val => Py.strip (fst kv))
             (fun kv : string * Py.val => Py.strip <$> snd kv)).
  change (Py.strip key) with
    ((fun kv : string * Py.val => Py.strip (fst kv)) (key, value)).
  rewrite (find_last_ext _
             (fun y => bool_decide
                ((fun kv : string * Py.val => Py.strip (fst kv)) y =
                 (fun kv : string * Py.val => Py.strip (fst kv)) (key, value))))
    by reflexivity.
  rewrite (find_last_here _ _ _ Hnd Hin). reflexivity.
Qed.

Lemma load_records_regular fieldnames records :
  Forall (fun record =>
            record <> [] /\
            (List.length record <= List.length fieldnames)%nat) records ->
  load_records fieldnames records =
    map (fun record => clean_row (reader_row fieldnames record)) records.
Proof.
  induction 1 as [|record rest [Hne Hlen] _ IH]; simpl; [reflexivity|].
  destruct record as [|c record]; [contradiction|].
  destruct (Nat.ltb_spec (List.length fieldnames) (List.length (c :: record)));
    [lia|]. rewrite IH. reflexivity.
Qed.

(** X19: for a file whose header has no two names equal after stripping
    and whose records are non-blank and not longer than the header,
    [load_csv] returns one row per record, in order, and the row of a
    record holds under each stripped column name the stripped field at that
    column's position, or [None] when the record ends before it. *)
Theorem X19_load_csv_cells
  (fieldnames : list string) (records : list (list string))
  (i j : nat) (record : list string) (name : string) :
  NoDup (map Py.strip fieldnames) ->
  Forall (fun record =>
            record <> [] /\
            (List.length record <= List.length fieldnames)%nat) records ->
  records !! i = Some record ->
  fieldnames !! j = Some name ->
  List.length (load_csv (Some (fieldnames :: records))) = List.length records /\
  exists r,
    load_csv (Some (fieldnames :: records)) !! i = Some r /\
    r !! Py.strip name = Some (Py.strip <$> record !! j).
Proof.
  intros Hnd Hrec Hi Hj. simpl.
  rewrite (load_records_regular _ _ Hrec). split; [apply length_map|].
  exists (clean_row (reader_row fieldnames record)).
  split; [rewrite list_lookup_fmap, Hi; reflexivity|].
  assert (Hnd0 : NoDup fieldnames) by apply (NoDup_fmap_1 _ _ Hnd).
  apply clean_row_cell; [|apply reader_row_cell; assumption].
  rewrite <- (map_map fst Py.strip), (reader_row_keys _ _ Hnd0). exact Hnd.
Qed.

Lemma X19_load_csv_cells_witness :
  List.length (load_csv (Some ([" stop_id"; "stop_name "; "stop_lat"]
                               :: [["S1"; " Main St "; " 43.5"]; ["S2"; "Side St"]]))) =
    2%nat /\
  exists r,
    load_csv (Some ([" stop_id"; "stop_name "; "stop_lat"]
                    :: [["S1"; " Main St "; " 43.5"]; ["S2"; "Side St"]])) !! 1%nat =
      Some r /\
    r !! Py.strip "stop_lat" = Some (Py.strip <$> ["S2"; "Side St"] !! 2%nat).
Proof.
  apply (X19_load_csv_cells [" stop_id"; "stop_name "; "stop_lat"]
           [["S1"; " Main St "; " 43.5"]; ["S2"; "Side St"]] 1 2
           ["S2"; "Side St"] "stop_lat").
  - apply (bool_decide_unpack _). vm_compute. exact I.
  - repeat constructor; (discriminate || (simpl; lia)).
  - reflexivity.
  - reflexivity.
Defined.


(* ===================================================================== *)
(** * The table views *)
(* ===================================================================== *)

Lemma to_val_of_val v : to_val (of_val v) = v.
Proof. destruct v; reflexivity. Qed.

Lemma of_val_inj v w : of_val v = of_val w -> v = w.
Proof. destruct v, w; simpl; congruence. Qed.

Lemma of_val_not_int v n : of_val v <> CInt n.
Proof. destruct v; discriminate. Qed.

Lemma has_lookup k (r : row) : has k r = true -> r !! k = Some (get k r).
Proof.
  unfold has, get. intros H. apply bool_decide_eq_true in H as [v ->]. reflexivity.
Qed.

Lemma has_false k (r : row) : has k r = false -> r !! k = None.
Proof.
  unfold has. intros H. apply bool_decide_eq_false in H.
  destruct (r !! k) eqn:E; [exfalso; apply H; eauto|reflexivity].
Qed.

Lemma stop_time_view_entry t2r st route_id stop_id :
  st !! "route_id" = None ->
  kpi_departure route_id stop_id (stop_time_view t2r st) =
    match pair_entry t2r st with
    | Some (k, e) => if decide ((route_id, stop_id) = k) then Some e else None
    | None => None
    end.
Proof.
  intros Hno. unfold kpi_departure, stop_time_view, pair_entry. cbv zeta.
  set (st0 := of_val <$> st).
  set (st1 := if has "arrival_time" st then _ else _).
  set (st2 := if has "departure_time" st then _ else _).
  assert (H1 : forall k, k <> "arrival_sec" -> st1 !! k = of_val <$> st !! k).
  { intros k Hk. unfold st1, st0. destruct (has "arrival_time" st).
    - rewrite lookup_insert_ne by congruence. apply lookup_fmap.
    - apply lookup_fmap. }
  assert (H2 : forall k, k <> "arrival_sec" -> k <> "departure_sec" ->
                         st2 !! k = of_val <$> st !! k).
  { intros k Hk Hk'. unfold st2. destruct (has "departure_time" st).
    - rewrite lookup_insert_ne by congruence. apply H1, Hk.
    - apply H1, Hk. }
  assert (Hd : st2 !! "departure_sec" =
               if has "departure_time" st
               then Some (of_int (parse_time_to_seconds (get "departure_time" st)))
               else of_val <$> st !! "departure_sec").
  { unfold st2. destruct (has "departure_time" st).
    - apply lookup_insert_eq.
    - apply H1. discriminate. }
  assert (Hdep : forall n,
             st2 !! "departure_sec" = Some (CInt n) <->
             parse_time_to_seconds (get_or "departure_time" "" st) = Some n).
  { intros n. rewrite Hd. unfold get_or.
    destruct (has "departure_time" st) eqn:Hh.
    - rewrite (has_lookup _ _ Hh). simpl.
      destruct (parse_time_to_seconds (get "departure_time" st)); simpl;
        split; congruence.
    - rewrite (has_false _ _ Hh). simpl.
      destruct (st !! "departure_sec") as [v|]; simpl.
      + split; [intros [= H]; destruct (of_val_not_int _ _ H)|discriminate].
      + split; discriminate. }
  set (out := if has "trip_id" st then _ else _).
  assert (Ho : forall k, k <> "route_id" -> out !! k = st2 !! k).
  { intros k Hk. unfold out. destruct (has "trip_id" st); [|reflexivity].
    destruct (t2r !! get "trip_id" st); [|reflexivity].
    apply lookup_insert_ne. congruence. }
  assert (Hr : out !! "route_id" =
               if has "trip_id" st then of_val <$> t2r !! get "trip_id" st
               else None).
  { unfold out. destruct (has "trip_id" st).
    - destruct (t2r !! get "trip_id" st); simpl.
      + apply lookup_insert_eq.
      + rewrite H2 by discriminate. rewrite Hno. reflexivity.
    - rewrite H2 by discriminate. rewrite Hno. reflexivity. }
  rewrite Hr, !Ho by discriminate. rewrite !H2 by discriminate.
  destruct (has "trip_id" st) eqn:Ht.
  2: { rewrite andb_false_r. reflexivity. }
  rewrite (has_lookup _ _ Ht). rewrite andb_true_r.
  destruct (t2r !! get "trip_id" st) as [r|]; simpl.
  2: { destruct (has "stop_id" st); reflexivity. }
  destruct (has "stop_id" st) eqn:Hs.
  2: { rewrite (has_false _ _ Hs). reflexivity. }
  rewrite (has_lookup _ _ Hs). simpl.
  destruct (parse_time_to_seconds (get_or "departure_time" "" st)) as [n|] eqn:Hp;
    simpl.
  - rewrite (proj2 (Hdep n) eq_refl). rewrite to_val_of_val.
    destruct (decide ((route_id, stop_id) = (r, get "stop_id" st))) as [[= -> ->]|Hne].
    + rewrite bool_decide_eq_true_2 by auto. reflexivity.
    + rewrite bool_decide_eq_false_2; [reflexivity|].
      intros [Ha Hb]. apply of_val_inj in Ha, Hb. congruence.
  - assert (Hn : forall m, st2 !! "departure_sec" <> Some (CInt m)).
    { intros m E. apply Hdep in E. discriminate. }
    destruct (st2 !! "departure_sec") as [[| | m|]|]; try reflexivity.
    destruct (Hn m eq_refl).
Qed.

(** X20: when [stop_times.txt] has no [route_id] column, the
    departures that the headway KPI files under a (route, stop) pair are
    the rows of the [get_stop_times] answer that name the route and the
    stop and carry a number as [departure_sec], in the same order: the
    input of the KPI can be read off the view. *)
Theorem X20_kpi_departures_in_view (d : dataset) (route_id stop_id : Py.val) :
  Forall (fun st : row => st !! "route_id" = None) (stop_times d) ->
  default [] (od_lookup (route_id, stop_id) (route_stop_times d)) =
    omap (kpi_departure route_id stop_id) (get_stop_times d).
Proof.
  intros Hno. rewrite route_stop_times_lookup. unfold get_stop_times.
  set (t2r := trip_to_route (trips d)).
  assert (E : omap (kpi_departure route_id stop_id)
                (map (stop_time_view t2r) (stop_times d)) =
              omap (fun st =>
                      match pair_entry t2r st with
                      | Some (k, e) =>
                          if decide ((route_id, stop_id) = k) then Some e else None
                      | None => None
                      end) (stop_times d)).
  { induction Hno as [|st l Hst _ IH]; [reflexivity|].
    cbn [map omap list_omap]. rewrite (stop_time_view_entry _ _ _ _ Hst), IH.
    reflexivity. }
  rewrite E. destruct (omap _ (stop_times d)); reflexivity.
Qed.

Lemma X20_kpi_departures_in_view_witness :
  default [] (od_lookup (Some "R1", Some "S1")
                (route_stop_times Examples.headway_data)) =
    omap (kpi_departure (Some "R1") (Some "S1"))
      (get_stop_times Examples.headway_data).
Proof.
  apply (X20_kpi_departures_in_view Examples.headway_data (Some "R1") (Some "S1")).
  repeat constructor.
Defined.

Lemma to_float_other k k' (m : gmap string cell) :
  k <> k' -> to_float k m !! k' = m !! k'.
Proof.
  intros Hk. unfold to_float. destruct (m !! k) as [[|s| |]|]; try reflexivity.
  destruct (String.eqb s ""); [reflexivity|]. apply lookup_insert_ne, Hk.
Qed.

Lemma to_float_number k (m : gmap string cell) s x :
  m !! k = Some (CStr s) -> Py.float s = Some x ->
  to_float k m !! k = Some (CFloat x).
Proof.
  intros Hm Hx. unfold to_float. rewrite Hm.
  destruct (String.eqb_spec s "") as [->|_]; [vm_compute in Hx; discriminate|].
  rewrite Hx. apply lookup_insert_eq.
Qed.

Lemma float_or_zero_text k (stop : row) x :
  float_or_zero k stop = Some x -> Py.fne x fzero = true ->
  exists s, stop !! k = Some (Some s) /\ Py.float s = Some x.
Proof.
  unfold float_or_zero. destruct (stop !! k) as [[s|]|].
  - intros Hs _. exists s. auto.
  - discriminate.
  - intros [= <-] H. vm_compute in H. discriminate.
Qed.

Lemma find_stop_elem stops_data stop_id stop :
  find_stop stops_data stop_id = Some stop -> stop ∈ stops_data.
Proof.
  unfold find_stop, rows_with. intros H. apply head_Some_elem_of in H.
  apply list_elem_of_In in H. apply filter_In in H as [H _].
  apply list_elem_of_In, H.
Qed.

(** X21: every coordinate pair in a successful answer of
    [get_route_path] is the position that [get_stops] reports, as two
    numbers, for some stop of [stops.txt]. *)
Theorem X21_path_coordinates_in_stops
  (d : dataset) (route_id : string) (p : route_path) (lat lon : spec_float) :
  get_route_path d route_id = Ok p ->
  (lat, lon) ∈ rp_coordinates p ->
  exists stop,
    stop ∈ get_stops d /\
    stop !! "stop_lat" = Some (CFloat lat) /\
    stop !! "stop_lon" = Some (CFloat lon).
Proof.
  intros Hp Hc.
  destruct (get_route_path_coordinates _ _ _ Hp) as (ordered_stops & Hcs & _ & _).
  rewrite Hcs in Hc. apply list_elem_of_omap in Hc as (st & _ & Hst).
  unfold path_coord in Hst.
  destruct (find_stop (stops d) (get "stop_id" st)) as [stop|] eqn:Hf;
    cbn [mbind option_bind] in Hst; [|discriminate].
  case_bool_decide; [discriminate|].
  destruct (float_or_zero "stop_lat" stop) as [lat'|] eqn:Hlat;
    cbn [mbind option_bind] in Hst; [|discriminate].
  destruct (float_or_zero "stop_lon" stop) as [lon'|] eqn:Hlon;
    cbn [mbind option_bind] in Hst; [|discriminate].
  destruct (path_accepts lat' lon') eqn:Ha; [|discriminate].
  injection Hst as -> ->. apply andb_true_iff in Ha as [Ha Ho].
  destruct (float_or_zero_text _ _ _ Hlat Ha) as (s & Hs & Hsx).
  destruct (float_or_zero_text _ _ _ Hlon Ho) as (t & Ht & Htx).
  exists (to_float "stop_lon" (to_float "stop_lat" (of_val <$> stop))).
  split; [|split].
  - unfold get_stops. apply list_elem_of_fmap. exists stop.
    split; [reflexivity|]. apply (find_stop_elem _ _ _ Hf).
  - rewrite to_float_other by discriminate.
    apply (to_float_number _ _ s); [|exact Hsx].
    rewrite lookup_fmap, Hs. reflexivity.
  - apply (to_float_number _ _ t); [|exact Htx].
    rewrite to_float_other by discriminate.
    rewrite lookup_fmap, Ht. reflexivity.
Qed.

Lemma X21_path_coordinates_in_stops_witness :
  exists p lat lon stop,
    get_route_path Examples.path_data "R1" = Ok p /\
    (lat, lon) ∈ rp_coordinates p /\
    stop ∈ get_stops Examples.path_data /\
    stop !! "stop_lat" = Some (CFloat lat) /\
    stop !! "stop_lon" = Some (CFloat lon).
Proof.
  destruct (get_route_path Examples.path_data "R1") as [p| |] eqn:H;
    [|vm_compute in H; discriminate..].
  destruct (rp_coordinates p) as [|[lat lon] cs] eqn:Hc.
  { exfalso. vm_compute in H. injection H as <-. discriminate Hc. }
  assert (Hin : (lat, lon) ∈ rp_coordinates p).
  { rewrite Hc. apply elem_of_cons. left. reflexivity. }
  destruct (X21_path_coordinates_in_stops Examples.path_data "R1" p lat lon H Hin)
    as (stop & Hs & Hlat & Hlon).
  exists p, lat, lon, stop. auto.
Defined.

(* ===================================================================== *)
(** * The archive rows *)
(* ===================================================================== *)

Lemma file_cells_lookup (fields : list string) (r : row) (key : string) :
  let acc := map_fold (file_cell fields) (∅, ∅) r in
  fst acc !! key =
    (if bool_decide (key ∈ fields)
     then (fun v => of_val (blank_to_none v)) <$> r !! key else None) /\
  snd acc !! key =
    (if bool_decide (key ∈ fields) then None else r !! key ≫= blank_to_none).
Proof.
  cbv zeta.
  apply (map_fold_weak_ind
           (fun (acc : gmap string cell * gmap string string) (m : row) =>
              fst acc !! key =
                (if bool_decide (key ∈ fields)
                 then (fun v => of_val (blank_to_none v)) <$> m !! key else None) /\
              snd acc !! key =
                (if bool_decide (key ∈ fields) then None
                 else m !! key ≫= blank_to_none))).
  - simpl. rewrite !lookup_empty. destruct (bool_decide (key ∈ fields)); auto.
  - intros i x m [standard other] Hi [Hs Ho]. simpl in Hs, Ho.
    unfold file_cell. cbv zeta.
    destruct (decide (i = key)) as [->|Hne].
    + rewrite lookup_insert_eq. rewrite Hi in Hs, Ho.
      case_bool_decide; simpl.
      * rewrite lookup_insert_eq. auto.
      * destruct (blank_to_none x) as [s|]; simpl.
        -- rewrite lookup_insert_eq. auto.
        -- auto.
    + rewrite (lookup_insert_ne m) by exact Hne.
      destruct (bool_decide (i ∈ fields)); simpl.
      * rewrite lookup_insert_ne by exact Hne. auto.
      * destruct (blank_to_none x) as [s|]; simpl.
        -- rewrite lookup_insert_ne by exact Hne. auto.
        -- auto.
Qed.

Lemma to_float_lookup k (m : gmap string cell) k' :
  to_float k m !! k' =
    if decide (k = k') then converted (fun s => of_float (Py.float s)) <$> m !! k
    else m !! k'.
Proof.
  unfold to_float. destruct (decide (k = k')) as [<-|Hne].
  - destruct (m !! k) as [[|s| |]|] eqn:E; simpl; rewrite ?E; try reflexivity.
    destruct (String.eqb s ""); [exact E|apply lookup_insert_eq].
  - destruct (m !! k) as [[|s| |]|]; try reflexivity.
    destruct (String.eqb s ""); [reflexivity|apply lookup_insert_ne, Hne].
Qed.

Lemma to_int_lookup k (m : gmap string cell) k' :
  to_int k m !! k' =
    if decide (k = k') then converted (fun s => of_int (Py.int s)) <$> m !! k
    else m !! k'.
Proof.
  unfold to_int. destruct (decide (k = k')) as [<-|Hne].
  - destruct (m !! k) as [[|s| |]|] eqn:E; simpl; rewrite ?E; try reflexivity.
    destruct (String.eqb s ""); [exact E|apply lookup_insert_eq].
  - destruct (m !! k) as [[|s| |]|]; try reflexivity.
    destruct (String.eqb s ""); [reflexivity|apply lookup_insert_ne, Hne].
Qed.

Lemma blank_to_none_Some value s :
  blank_to_none value = Some s -> value = Some s /\ s <> "".
Proof.
  unfold blank_to_none, val_eqb. destruct value as [t|]; simpl.
  - case_bool_decide as H; simpl; [discriminate|].
    intros [= ->]. split; [reflexivity|]. congruence.
  - discriminate.
Qed.

Lemma converted_blank conv value :
  converted conv (of_val (blank_to_none value)) =
    match blank_to_none value with
    | Some s => conv s
    | None => CNone
    end.
Proof.
  destruct (blank_to_none value) as [s|] eqn:E; simpl; [|reflexivity].
  apply blank_to_none_Some in E as [_ Hs].
  destruct (String.eqb_spec s ""); [contradiction|reflexivity].
Qed.

(** X22: what [parse_gtfs_to_db_rows] stores for a row under a column
    name. A column outside the standard list of the table is not stored
    under its name. A standard column that the row has is stored as [None]
    when its value is [None] or empty; otherwise as its text, except in the
    typed columns ([stop_lat], [stop_lon] of stops; [stop_sequence],
    [shape_dist_traveled] of stop_times), which hold the number that
    [float] or [int] reads, or [None] when the text is not a number: a
    typed column never holds text, and a bad number is no error. *)
Theorem X22_db_standard_cells
  (upload_id : Z) (table_type : string) (r : row) (key : string) :
  db_standard (parse_row upload_id table_type r) !! key =
    if bool_decide (key ∈ standard_fields table_type)
    then stored_cell table_type key <$> r !! key
    else None.
Proof.
  unfold parse_row.
  pose proof (fun k => proj1 (file_cells_lookup (standard_fields table_type) r k))
    as Hs. cbv zeta in Hs.
  destruct (map_fold _ _ r) as [standard other]. simpl in Hs. cbn [db_standard].
  unfold stored_cell, typed_cell.
  assert (Hconv : forall (k : string) conv,
             k ∈ standard_fields table_type ->
             converted conv <$> standard !! k =
               (fun v => match blank_to_none v with
                         | Some s => conv s
                         | None => CNone
                         end) <$> r !! k).
  { intros k conv Hk. rewrite Hs, bool_decide_eq_true_2 by exact Hk.
    destruct (r !! k) as [v|]; cbn; [|reflexivity].
    rewrite converted_blank. reflexivity. }
  assert (Hplain : standard !! key =
                   if bool_decide (key ∈ standard_fields table_type)
                   then (fun v => match blank_to_none v with
                                  | Some s => CStr s
                                  | None => CNone
                                  end) <$> r !! key
                   else None).
  { rewrite Hs. case_bool_decide; [|reflexivity].
    destruct (r !! key) as [v|]; cbn; [|reflexivity].
    destruct (blank_to_none v); reflexivity. }
  clear Hs.
  destruct (String.eqb_spec table_type "stops") as [->|Hstops].
  - simpl (String.eqb "stops" "stop_times"). cbv iota. cbn [andb].
    rewrite to_float_lookup.
    destruct (decide ("stop_lon" = key)) as [<-|Hlon].
    + rewrite to_float_lookup.
      destruct (decide ("stop_lat" = "stop_lon")); [discriminate|].
      rewrite Hconv by (apply (bool_decide_unpack _); vm_compute; exact I).
      rewrite bool_decide_eq_true_2
        by (apply (bool_decide_unpack _); vm_compute; exact I).
      reflexivity.
    + rewrite to_float_lookup.
      destruct (decide ("stop_lat" = key)) as [<-|Hlat].
      * rewrite Hconv by (apply (bool_decide_unpack _); vm_compute; exact I).
        rewrite bool_decide_eq_true_2
          by (apply (bool_decide_unpack _); vm_compute; exact I).
        reflexivity.
      * rewrite Hplain.
        destruct (String.eqb_spec key "stop_lat"); [congruence|].
        destruct (String.eqb_spec key "stop_lon"); [congruence|].
        reflexivity.
  - cbn [andb]. destruct (String.eqb_spec table_type "stop_times") as [->|Htimes].
    + cbn [andb]. rewrite to_float_lookup.
      destruct (decide ("shape_dist_traveled" = key)) as [<-|Hshape].
      * rewrite to_int_lookup.
        destruct (decide ("stop_sequence" = "shape_dist_traveled")); [discriminate|].
        rewrite Hconv by (apply (bool_decide_unpack _); vm_compute; exact I).
        rewrite bool_decide_eq_true_2
          by (apply (bool_decide_unpack _); vm_compute; exact I).
        reflexivity.
      * rewrite to_int_lookup.
        destruct (decide ("stop_sequence" = key)) as [<-|Hseq].
        -- rewrite Hconv by (apply (bool_decide_unpack _); vm_compute; exact I).
           rewrite bool_decide_eq_true_2
             by (apply (bool_decide_unpack _); vm_compute; exact I).
           reflexivity.
        -- rewrite Hplain.
           destruct (String.eqb_spec key "stop_sequence"); [congruence|].
           destruct (String.eqb_spec key "shape_dist_traveled"); [congruence|].
           reflexivity.
    + cbn [andb]. exact Hplain.
Qed.

(** X23: [other_fields] holds exactly the non-empty values of the
    columns outside the standard list, and is [None] exactly when there is
    no such value; an empty value of such a column is dropped, so it cannot
    be told from a column the file does not have. *)
Theorem X23_db_other_fields
  (upload_id : Z) (table_type : string) (r : row) :
  (db_other_fields (parse_row upload_id table_type r) = None <->
   forall key, key ∉ standard_fields table_type ->
               r !! key ≫= blank_to_none = None) /\
  (forall other key,
      db_other_fields (parse_row upload_id table_type r) = Some other ->
      other !! key =
        if bool_decide (key ∈ standard_fields table_type) then None
        else r !! key ≫= blank_to_none).
Proof.
  unfold parse_row.
  pose proof (fun k => proj2 (file_cells_lookup (standard_fields table_type) r k))
    as Ho. cbv zeta in Ho.
  destruct (map_fold _ _ r) as [standard other]. simpl in Ho. cbn [db_other_fields].
  split.
  - case_bool_decide as He.
    + split; [|reflexivity]. intros _ key Hk.
      specialize (Ho key). rewrite He, lookup_empty in Ho.
      rewrite bool_decide_eq_false_2 in Ho by exact Hk. symmetry. exact Ho.
    + split; [discriminate|]. intros Hall. exfalso. apply He.
      apply map_eq. intros key. rewrite lookup_empty, Ho.
      case_bool_decide; [reflexivity|]. apply Hall. assumption.
  - intros other' key. case_bool_decide; [discriminate|].
    intros [= <-]. apply Ho.
Qed.

(* ===================================================================== *)
(** * The stop sequence edit *)
(* ===================================================================== *)

Lemma int_digits_acc (d : Decimal.uint) (acc : positive) :
  Py.int_digits (Zpos acc) (uint_chars d) = Some (Zpos (Pos.of_uint_acc d acc)).
Proof.
  revert acc. unfold uint_chars.
  induction d as [|d IH|d IH|d IH|d IH|d IH|d IH|d IH|d IH|d IH|d IH];
    intros acc; [reflexivity|..];
    cbn [DecimalString.NilEmpty.string_of_uint list_ascii_of_string Py.int_digits
         Pos.of_uint_acc];
    change (Py.digit_val _) with (Some 0) || change (Py.digit_val _) with (Some 1)
    || change (Py.digit_val _) with (Some 2) || change (Py.digit_val _) with (Some 3)
    || change (Py.digit_val _) with (Some 4) || change (Py.digit_val _) with (Some 5)
    || change (Py.digit_val _) with (Some 6) || change (Py.digit_val _) with (Some 7)
    || change (Py.digit_val _) with (Some 8) || change (Py.digit_val _) with (Some 9);
    cbv iota beta;
    match goal with
    | |- Py.int_digits ?a _ = _ =>
        match goal with
        | |- _ = Some (Zpos (Pos.of_uint_acc _ ?b)) =>
            replace a with (Zpos b) by lia
        end
    end; apply IH.
Qed.

Lemma int_digits_uint (d : Decimal.uint) :
  Py.int_digits 0 (uint_chars d) = Some (Z.of_N (Pos.of_uint d)).
Proof.
  unfold uint_chars.
  induction d as [|d IH|d IH|d IH|d IH|d IH|d IH|d IH|d IH|d IH|d IH];
    [reflexivity|exact IH|..];
    exact (int_digits_acc d _).
Qed.

Lemma uint_chars_digits (d : Decimal.uint) :
  Forall (fun c => Py.is_digit c = true) (uint_chars d).
Proof.
  unfold uint_chars.
  induction d; cbn [DecimalString.NilEmpty.string_of_uint list_ascii_of_string];
    constructor; (reflexivity || assumption).
Qed.

Lemma drop_while_none (p : ascii -> bool) l :
  Forall (fun c => p c = false) l -> Py.drop_while p l = l.
Proof. destruct 1 as [|c l Hc _]; simpl; [reflexivity|]. rewrite Hc. reflexivity. Qed.

Lemma strip_with_none (p : ascii -> bool) l :
  Forall (fun c => p c = false) l -> Py.strip_with p l = l.
Proof.
  intros H. unfold Py.strip_with. rewrite (drop_while_none _ _ H).
  rewrite drop_while_none; [apply rev_involutive|].
  apply Forall_forall. intros c Hc. rewrite Forall_forall in H. apply H.
  apply list_elem_of_In. apply list_elem_of_In in Hc. apply in_rev. exact Hc.
Qed.

Lemma digit_not_space c : Py.is_digit c = true -> Py.is_space_c c = false.
Proof.
  unfold Py.is_digit, Py.is_space_c. intros H.
  apply andb_true_iff in H as [H1 H2].
  apply Nat.leb_le in H1. apply Nat.leb_le in H2.
  destruct (Nat.eqb_spec (Py.code c) 32); [lia|].
  destruct (Nat.leb_spec 9 (Py.code c)); [|reflexivity].
  destruct (Nat.leb_spec (Py.code c) 13); [lia|reflexivity].
Qed.

Lemma digit_not_sign c :
  Py.is_digit c = true -> Ascii.eqb c "-" = false /\ Ascii.eqb c "+" = false.
Proof.
  intros H. split.
  - destruct (Ascii.eqb_spec c "-") as [->|]; [discriminate|reflexivity].
  - destruct (Ascii.eqb_spec c "+") as [->|]; [discriminate|reflexivity].
Qed.

Lemma int_body_uint (d : Decimal.uint) :
  d <> Decimal.Nil ->
  Py.int_body (uint_chars d) = Some (Z.of_N (Pos.of_uint d)).
Proof.
  intros Hd. pose proof (uint_chars_digits d) as Hdig.
  pose proof (int_digits_uint d) as Hv.
  destruct (uint_chars d) as [|c l] eqn:E.
  - destruct d; try contradiction; discriminate.
  - unfold Py.int_body. apply Forall_cons in Hdig as [Hc _]. rewrite Hc. exact Hv.
Qed.

Lemma string_of_uint_nonnil (d : Decimal.uint) :
  d <> Decimal.Nil ->
  DecimalString.NilZero.string_of_uint d = DecimalString.NilEmpty.string_of_uint d.
Proof. destruct d; [contradiction|reflexivity..]. Qed.

Lemma int_of_uint (d : Decimal.uint) :
  d <> Decimal.Nil ->
  Py.int (DecimalString.NilZero.string_of_uint d) = Some (Z.of_N (Pos.of_uint d)) /\
  Py.int (String "-" (DecimalString.NilZero.string_of_uint d)) =
    Some (- Z.of_N (Pos.of_uint d)).
Proof.
  intros Hd. rewrite (string_of_uint_nonnil _ Hd).
  pose proof (uint_chars_digits d) as Hdig.
  pose proof (int_body_uint d Hd) as Hb.
  assert (Hsp : Forall (fun c => Py.is_space_c c = false) (uint_chars d)).
  { eapply Forall_impl; [exact Hdig|]. apply digit_not_space. }
  unfold Py.int. cbn [list_ascii_of_string].
  fold (uint_chars d). split.
  - rewrite (strip_with_none _ _ Hsp).
    destruct (uint_chars d) as [|c l]; [discriminate|].
    apply Forall_cons in Hdig as [Hc _].
    destruct (digit_not_sign c Hc) as [-> ->]. exact Hb.
  - rewrite strip_with_none by (constructor; [reflexivity|exact Hsp]).
    change (Ascii.eqb "-" "-") with true. cbv iota.
    rewrite Hb. reflexivity.
Qed.

(** [int(str(n)) == n]. *)
Lemma int_str_int (n : Z) : Py.int (str_int n) = Some n.
Proof.
  destruct n as [|p|p]; [reflexivity|..]; unfold str_int; simpl Z.to_int;
    unfold DecimalString.NilZero.string_of_int;
    destruct (int_of_uint _ (DecimalPos.Unsigned.to_uint_nonnil p)) as [Hpos Hneg];
    rewrite (DecimalPos.Unsigned.of_to p) in Hpos, Hneg.
  - exact Hpos.
  - exact Hneg.
Qed.

Lemma new_sequence_None_fold entries :
  fold_left
    (fun (acc : option (gmap Py.val sequence_value)) stop =>
       m ← acc;
       stop_id ← se_stop_id stop;
       stop_sequence ← se_stop_sequence stop;
       Some (<[stop_id := stop_sequence]> m))
    entries None = None.
Proof. induction entries as [|e l IH]; simpl; [reflexivity|exact IH]. Qed.

Lemma new_sequence_complete entries :
  is_Some (new_sequence entries) <->
  Forall (fun e => is_Some (se_stop_id e) /\ is_Some (se_stop_sequence e)) entries.
Proof.
  unfold new_sequence. generalize (∅ : gmap Py.val sequence_value).
  induction entries as [|[[k|] [v|]] l IH]; intros m; simpl.
  - split; [constructor|eauto].
  - rewrite IH. split.
    + intros H. constructor; [split; eexists; reflexivity|exact H].
    + intros H. apply Forall_cons in H as [_ H]. exact H.
  - rewrite new_sequence_None_fold. split.
    + intros [x Hx]. discriminate.
    + intros H. apply Forall_cons in H as [[_ [x Hx]] _]. discriminate.
  - rewrite new_sequence_None_fold. split.
    + intros [x Hx]. discriminate.
    + intros H. apply Forall_cons in H as [[[x Hx] _] _]. discriminate.
  - rewrite new_sequence_None_fold. split.
    + intros [x Hx]. discriminate.
    + intros H. apply Forall_cons in H as [[[x Hx] _] _]. discriminate.
Qed.

(** X24: an integer stop sequence put by the edit is read back as that
    integer. On a stop-time of the edited trip whose stop the request maps
    to the integer [n], the edit writes [str(n)], and the sort keys that
    the route details, the single-route path and the batch compute from
    the edited row are all [n]. *)
Theorem X24_edited_sequence_is_read_back
  (first_trip_id : Py.val) (ns : gmap Py.val sequence_value) (st : row) (n dflt : Z) :
  get "trip_id" st = first_trip_id ->
  ns !! get "stop_id" st = Some (SeqInt n) ->
  seq_key dflt (resequence first_trip_id ns st) = Some n /\
  batch_seq_key (resequence first_trip_id ns st) = Some n.
Proof.
  intros Ht Hn. unfold resequence, val_eqb.
  rewrite bool_decide_eq_true_2 by exact Ht. rewrite Hn.
  unfold seq_key, batch_seq_key, get. rewrite lookup_insert_eq. simpl.
  pose proof (int_str_int n) as Hi. split; [exact Hi|].
  destruct (String.eqb_spec (str_int n) "") as [E|_]; simpl; [|exact Hi].
  rewrite E in Hi. discriminate.
Qed.

Lemma X24_edited_sequence_is_read_back_witness :
  seq_key 0
    (resequence (Some "T1") {[Some "S1" := SeqInt 12]}
       (mk [("trip_id", "T1"); ("stop_id", "S1"); ("stop_sequence", "1")])) =
    Some 12 /\
  batch_seq_key
    (resequence (Some "T1") {[Some "S1" := SeqInt 12]}
       (mk [("trip_id", "T1"); ("stop_id", "S1"); ("stop_sequence", "1")])) =
    Some 12.
Proof.
  apply (X24_edited_sequence_is_read_back (Some "T1") {[Some "S1" := SeqInt 12]}
           (mk [("trip_id", "T1"); ("stop_id", "S1"); ("stop_sequence", "1")])
           12 0).
  - reflexivity.
  - reflexivity.
Defined.

Lemma resequence_other_trip first_trip_id ns (st : row) :
  get "trip_id" st <> first_trip_id -> resequence first_trip_id ns st = st.
Proof.
  intros H. unfold resequence, val_eqb.
  rewrite bool_decide_eq_false_2 by exact H. reflexivity.
Qed.

Lemma resequence_other_column first_trip_id ns (st : row) k :
  k <> "stop_sequence" -> resequence first_trip_id ns st !! k = st !! k.
Proof.
  intros Hk. unfold resequence. destruct (val_eqb _ _); [|reflexivity].
  destruct (ns !! get "stop_id" st); [|reflexivity].
  apply lookup_insert_ne. congruence.
Qed.

Lemma resequence_well_formed first_trip_id ns fieldnames (st : row) :
  "stop_sequence" ∈ fieldnames ->
  dom st = fieldnames /\ (forall k, st !! k <> Some None) ->
  dom (resequence first_trip_id ns st) = fieldnames /\
  (forall k, resequence first_trip_id ns st !! k <> Some None).
Proof.
  intros Hin [Hd Hv]. unfold resequence. destruct (val_eqb _ _); [|auto].
  destruct (ns !! get "stop_id" st) as [v|]; [|auto]. split.
  - rewrite dom_insert_L, Hd. apply subseteq_union_1_L.
    apply singleton_subseteq_l, Hin.
  - intros k. destruct (decide (k = "stop_sequence")) as [->|Hne].
    + rewrite lookup_insert_eq. discriminate.
    + rewrite lookup_insert_ne by congruence. apply Hv.
Qed.

(** X25: on a [stop_times.txt] whose rows share their columns, with a
    [stop_sequence] column and no [None], the stop sequence edit of a route
    that has trips, with entries that each have both members, succeeds and
    keeps every row in its place; rows of trips other than the one trip
    that the set iteration yields first are unchanged, also those of the
    other trips of the same route, and in the rows of that trip no column
    other than [stop_sequence] changes. *)
Theorem X25_resequence_one_trip
  (set_first : gset Py.val -> Py.val) (trips_data file : list row)
  (route_id : string) (entries : list stop_entry) (fieldnames : gset string)
  (ids : gset Py.val) (ns : gmap Py.val sequence_value) :
  key_set "trip_id" (rows_with "route_id" (Some route_id) trips_data) = Some ids ->
  ids <> ∅ ->
  new_sequence entries = Some ns ->
  "stop_sequence" ∈ fieldnames ->
  well_formed_table fieldnames file ->
  update_stop_sequence set_first trips_data file route_id entries =
    (false, map (resequence (set_first ids) ns) file) /\
  (forall st : row,
      get "trip_id" st <> set_first ids ->
      resequence (set_first ids) ns st = st) /\
  (forall (st : row) k,
      k <> "stop_sequence" ->
      resequence (set_first ids) ns st !! k = st !! k).
Proof.
  intros Hids Hne Hns Hin Hwf0.
  split; [|split; [intros st; apply resequence_other_trip
                  |intros st k; apply resequence_other_column]].
  unfold update_stop_sequence. rewrite Hids.
  rewrite bool_decide_eq_false_2 by exact Hne. rewrite Hns. cbv zeta.
  assert (Hwf : Forall (fun r : row => dom r = fieldnames /\
                                       forall k, r !! k <> Some None)
                  (map (resequence (set_first ids) ns) file)).
  { apply Forall_fmap. eapply Forall_impl; [exact Hwf0|]. intros r [Hd Hv].
    apply resequence_well_formed; [exact Hin|]. split; [exact Hd|].
    intros k Hk. apply (Hv k None Hk). reflexivity. }
  destruct (map (resequence (set_first ids) ns) file) as [|st0 rest] eqn:E.
  { destruct file; [reflexivity|discriminate]. }
  assert (Hd0 : dom st0 = fieldnames).
  { apply Forall_cons in Hwf as [[Hd _] _]. exact Hd. }
  rewrite write_rows_all.
  - f_equal. rewrite Hd0. clear E.
    induction Hwf as [|r l [Hd Hv] _ IH]; simpl; [reflexivity|].
    rewrite IH, (written_row_id _ _ Hd Hv). reflexivity.
  - eapply Forall_impl; [exact Hwf|]. intros r [Hd _]. rewrite Hd, Hd0. reflexivity.
Qed.

Lemma X25_resequence_one_trip_witness :
  update_stop_sequence first_element
    [mk [("trip_id", "T1"); ("route_id", "R1")]]
    [mk [("trip_id", "T1"); ("stop_id", "S1"); ("stop_sequence", "1")];
     mk [("trip_id", "T1"); ("stop_id", "S2"); ("stop_sequence", "2")];
     mk [("trip_id", "T2"); ("stop_id", "S1"); ("stop_sequence", "1")]]
    "R1"
    [StopEntry (Some (Some "S1")) (Some (SeqInt 2));
     StopEntry (Some (Some "S2")) (Some (SeqInt 1))] =
    (false,
     map (resequence
            (first_element {[Some "T1"]})
            (<[Some "S2" := SeqInt 1]> {[Some "S1" := SeqInt 2]}))
       [mk [("trip_id", "T1"); ("stop_id", "S1"); ("stop_sequence", "1")];
        mk [("trip_id", "T1"); ("stop_id", "S2"); ("stop_sequence", "2")];
        mk [("trip_id", "T2"); ("stop_id", "S1"); ("stop_sequence", "1")]]).
Proof.
  apply (X25_resequence_one_trip first_element
           [mk [("trip_id", "T1"); ("route_id", "R1")]] _ "R1" _
           (list_to_set ["trip_id"; "stop_id"; "stop_sequence"])
           {[Some "T1"]}
           (<[Some "S2" := SeqInt 1]> {[Some "S1" := SeqInt 2]})).
  - reflexivity.
  - apply (bool_decide_unpack _). vm_compute. exact I.
  - reflexivity.
  - apply (bool_decide_unpack _). vm_compute. exact I.
  - apply (bool_decide_unpack _). vm_compute. exact I.
Defined.

(** X26: the edit is not undone when the stop sequence fails. When
    the attribute edit succeeded, the route has trips, and an entry of the
    [stops] list lacks [stop_id] or [stop_sequence], the call answers 500,
    [stop_times.txt] is untouched, and [routes.txt] holds the edited rows. *)
Theorem X26_failed_sequence_keeps_route_edit
  (set_first : gset Py.val -> Py.val)
  (routes_file trips_data stop_times_file : list row) (route_id : string)
  (data : update_request) (entries : list stop_entry)
  (message : string) (routes_after : list row) (ids : gset Py.val) :
  update_route routes_file route_id data = (Ok message, routes_after) ->
  key_set "trip_id" (rows_with "route_id" (Some route_id) trips_data) = Some ids ->
  ids <> ∅ ->
  Exists (fun e => se_stop_id e = None \/ se_stop_sequence e = None) entries ->
  update_route_stops set_first routes_file trips_data stop_times_file route_id
    data (Some entries) =
    (HttpError 500 "Error updating route", routes_after, stop_times_file).
Proof.
  intros Hup Hids Hne Hbad. unfold update_route_stops. rewrite Hup.
  destruct entries as [|e l]; [inversion Hbad|].
  unfold update_stop_sequence. rewrite Hids.
  rewrite bool_decide_eq_false_2 by exact Hne.
  destruct (new_sequence (e :: l)) as [ns|] eqn:Hns; [|reflexivity].
  exfalso. assert (Hs : is_Some (new_sequence (e :: l))) by eauto.
  apply new_sequence_complete in Hs. apply Exists_exists in Hbad as (x & Hx & Hbad).
  rewrite Forall_forall in Hs. destruct (Hs x Hx) as [[a Ha] [b Hb]].
  destruct Hbad; congruence.
Qed.

Lemma X26_failed_sequence_keeps_route_edit_witness :
  update_route_stops first_element
    Examples.routes_file
    [mk [("trip_id", "T1"); ("route_id", "R1")]]
    [mk [("trip_id", "T1"); ("stop_id", "S1"); ("stop_sequence", "1")]]
    "R1" Examples.edit_short_name
    (Some [StopEntry (Some (Some "S1")) None]) =
    (HttpError 500 "Error updating route",
     [mk [("route_id", "R1"); ("route_short_name", "A"); ("route_long_name", "One")];
      mk [("route_id", "R2"); ("route_short_name", "2"); ("route_long_name", "Two")];
      mk [("route_id", "R3"); ("route_short_name", "3"); ("route_long_name", "Three")]],
     [mk [("trip_id", "T1"); ("stop_id", "S1"); ("stop_sequence", "1")]]).
Proof.
  apply (X26_failed_sequence_keeps_route_edit _ _ _ _ _ _ _
           "Route updated successfully" _ {[Some "T1"]}).
  - reflexivity.
  - reflexivity.
  - apply (bool_decide_unpack _). vm_compute. exact I.
  - constructor. right. reflexivity.
Defined.

(* ===================================================================== *)
(** * The archive and the loader on the same file *)
(* ===================================================================== *)

Lemma find_last_none {A : Type} (p : A -> bool) l :
  Forall (fun x => p x = false) l -> find_last p l = None.
Proof.
  induction 1 as [|x l Hx _ IH]; simpl; [reflexivity|].
  rewrite IH, Hx. reflexivity.
Qed.

Lemma reader_dict_lookup (d : list (string * Py.val)) (k : string) :
  fold_left (fun (m : row) '(key, value) => <[key := value]> m) d ∅ !! k =
    snd <$> find_last (fun kv => bool_decide (fst kv = k)) d.
Proof.
  rewrite (fold_left_ext_eq _
             (fun (m : row) (kv : string * Py.val) =>
                if (fun _ => true) kv then <[fst kv := snd kv]> m else m)).
  2: { intros m [key value]. reflexivity. }
  rewrite (fold_insert_last (fun _ => true) fst snd). reflexivity.
Qed.

Lemma reader_dict_cell fieldnames record j name :
  NoDup fieldnames ->
  fieldnames !! j = Some name ->
  reader_dict fieldnames record !! name = Some (record !! j).
Proof.
  intros Hnd Hj. unfold reader_dict. rewrite reader_dict_lookup.
  pose proof (reader_row_cell fieldnames record j name Hnd Hj) as Hin.
  change name with (fst (name, record !! j)) at 1.
  rewrite (find_last_here fst _ (name, record !! j)); [reflexivity| |exact Hin].
  rewrite (reader_row_keys _ _ Hnd). exact Hnd.
Qed.

Lemma reader_dict_absent fieldnames record k :
  NoDup fieldnames -> k ∉ fieldnames ->
  reader_dict fieldnames record !! k = None.
Proof.
  intros Hnd Hk. unfold reader_dict. rewrite reader_dict_lookup.
  rewrite find_last_none; [reflexivity|].
  apply Forall_forall. intros [key value] Hin.
  apply bool_decide_eq_false_2. simpl. intros ->. apply Hk.
  rewrite <- (reader_row_keys fieldnames record Hnd).
  apply list_elem_of_fmap. exists (k, value). auto.
Qed.

Lemma standard_fields_stripped table_type f :
  f ∈ standard_fields table_type -> Py.strip f = f.
Proof.
  unfold standard_fields.
  destruct (String.eqb table_type "routes");
    [|destruct (String.eqb table_type "trips");
      [|destruct (String.eqb table_type "stops");
        [|destruct (String.eqb table_type "stop_times")]]];
    intros H; repeat (apply elem_of_cons in H as [->|H]; [reflexivity|]);
    apply elem_of_nil in H as [].
Qed.

Lemma to_float_absent k (m : gmap string cell) k' :
  m !! k' = None -> to_float k m !! k' = None.
Proof.
  intros H. rewrite to_float_lookup. destruct (decide (k = k')) as [->|_].
  - rewrite H. reflexivity.
  - exact H.
Qed.

Lemma to_int_absent k (m : gmap string cell) k' :
  m !! k' = None -> to_int k m !! k' = None.
Proof.
  intros H. rewrite to_int_lookup. destruct (decide (k = k')) as [->|_].
  - rewrite H. reflexivity.
  - exact H.
Qed.

(** A column that the row does not have is not stored. *)
Lemma parse_row_absent upload_id table_type (r : row) key :
  r !! key = None ->
  db_standard (parse_row upload_id table_type r) !! key = None.
Proof.
  intros Hr. unfold parse_row.
  pose proof (proj1 (file_cells_lookup (standard_fields table_type) r key)) as Hs.
  cbv zeta in Hs. destruct (map_fold _ _ r) as [standard other].
  simpl in Hs. cbn [db_standard].
  assert (H0 : standard !! key = None).
  { rewrite Hs, Hr. destruct (bool_decide _); reflexivity. }
  destruct (String.eqb table_type "stops"), (String.eqb table_type "stop_times");
    repeat (apply to_float_absent || apply to_int_absent); exact H0.
Qed.

(** A non-empty value of a column outside the standard list is filed in
    [other_fields]. *)
Lemma parse_row_other upload_id table_type (r : row) key s :
  key ∉ standard_fields table_type ->
  r !! key = Some (Some s) -> s <> "" ->
  exists other,
    db_other_fields (parse_row upload_id table_type r) = Some other /\
    other !! key = Some s.
Proof.
  intros Hk Hr Hs. unfold parse_row.
  pose proof (proj2 (file_cells_lookup (standard_fields table_type) r key)) as Ho.
  cbv zeta in Ho. destruct (map_fold _ _ r) as [standard other].
  simpl in Ho. cbn [db_other_fields].
  rewrite bool_decide_eq_false_2, Hr in Ho by exact Hk. simpl in Ho.
  unfold blank_to_none, val_eqb in Ho.
  rewrite bool_decide_eq_false_2 in Ho by congruence. simpl in Ho.
  case_bool_decide as He.
  - rewrite He, lookup_empty in Ho. discriminate.
  - exists other. auto.
Qed.

(** X27: a column whose header name has surrounding white space is
    served by the loader under its clean name but is not archived under
    it. For a header without two names equal after stripping, and a
    standard column name written with white space around it, the row that
    [load_csv] returns holds the stripped field under the clean name, while
    the archive row holds nothing under the clean name and files a
    non-empty field in [other_fields] under the name as written. *)
Theorem X27_header_space_not_archived
  (upload_id : Z) (table_type : string) (fieldnames record : list string)
  (j : nat) (name : string) :
  NoDup (map Py.strip fieldnames) ->
  fieldnames !! j = Some name ->
  Py.strip name <> name ->
  Py.strip name ∈ standard_fields table_type ->
  clean_row (reader_row fieldnames record) !! Py.strip name =
    Some (Py.strip <$> record !! j) /\
  db_standard (archive_row upload_id table_type fieldnames record)
    !! Py.strip name = None /\
  (forall s, record !! j = Some s -> s <> "" ->
             exists other,
               db_other_fields (archive_row upload_id table_type fieldnames record) =
                 Some other /\
               other !! name = Some s).
Proof.
  intros Hnds Hj Hsp Hstd.
  assert (Hnd : NoDup fieldnames) by apply (NoDup_fmap_1 _ _ Hnds).
  assert (Hname : name ∉ standard_fields table_type).
  { intros H. apply Hsp. apply (standard_fields_stripped _ _ H). }
  assert (Habs : Py.strip name ∉ fieldnames).
  { intros Hin. apply list_elem_of_lookup in Hin as [i Hi].
    assert (Hij : i = j).
    { apply (NoDup_lookup _ i j (Py.strip name) Hnds).
      - rewrite list_lookup_fmap, Hi. simpl. rewrite strip_idem. reflexivity.
      - rewrite list_lookup_fmap, Hj. reflexivity. }
    subst i. rewrite Hj in Hi. injection Hi as Hi. apply Hsp. symmetry. exact Hi. }
  split; [|split].
  - apply clean_row_cell; [|apply reader_row_cell; assumption].
    rewrite <- (map_map fst Py.strip), (reader_row_keys _ _ Hnd). exact Hnds.
  - apply parse_row_absent, (reader_dict_absent _ _ _ Hnd Habs).
  - intros s Hs Hne. apply (parse_row_other _ _ _ _ _ Hname); [|exact Hne].
    rewrite (reader_dict_cell _ _ _ _ Hnd Hj), Hs. reflexivity.
Qed.

Lemma X27_header_space_not_archived_witness :
  clean_row (reader_row ["route_id"; " route_short_name"] ["R1"; " 1"])
    !! Py.strip " route_short_name" =
    Some (Py.strip <$> ["R1"; " 1"] !! 1%nat) /\
  db_standard (archive_row 1 "routes" ["route_id"; " route_short_name"] ["R1"; " 1"])
    !! Py.strip " route_short_name" = None /\
  (forall s, ["R1"; " 1"] !! 1%nat = Some s -> s <> "" ->
             exists other,
               db_other_fields
                 (archive_row 1 "routes" ["route_id"; " route_short_name"]
                    ["R1"; " 1"]) = Some other /\
               other !! " route_short_name" = Some s).
Proof.
  apply (X27_header_space_not_archived 1 "routes"
           ["route_id"; " route_short_name"] ["R1"; " 1"] 1 " route_short_name").
  - apply (bool_decide_unpack _). vm_compute. exact I.
  - reflexivity.
  - discriminate.
  - apply (bool_decide_unpack _). vm_compute. exact I.
Defined.

(* ===================================================================== *)
(** * The stops of a route *)
(* ===================================================================== *)

Lemma key_set_elem (k : string) (rows : list row) (ids : gset Py.val) (v : Py.val) :
  key_set k rows = Some ids ->
  v ∈ ids <-> exists r, r ∈ rows /\ get k r = v.
Proof.
  unfold key_set. destruct (mapM (fun r : row => r !! k) rows) as [vs|] eqn:Hm;
    [|discriminate].
  intros [= <-]. apply mapM_Some_1 in Hm. rewrite elem_of_list_to_set.
  induction Hm as [|r x rows vs Hr _ IH].
  - split; [intros H; apply elem_of_nil in H as []|].
    intros (r & H & _). apply elem_of_nil in H as [].
  - assert (Hg : get k r = x) by (unfold get; rewrite Hr; reflexivity).
    rewrite elem_of_cons, IH. split.
    + intros [->|(r' & Hin & Hv)].
      * exists r. split; [apply elem_of_cons; auto|exact Hg].
      * exists r'. split; [apply elem_of_cons; auto|exact Hv].
    + intros (r' & Hin & Hv). apply elem_of_cons in Hin as [->|Hin].
      * left. congruence.
      * right. exists r'. auto.
Qed.

Lemma filter_sublist {A : Type} (p : A -> bool) (l : list A) :
  List.filter p l `sublist_of` l.
Proof.
  induction l as [|x l IH]; simpl; [constructor|].
  destruct (p x); [apply sublist_skip|apply sublist_cons]; exact IH.
Qed.

Lemma elem_of_filter_bool {A : Type} (p : A -> bool) (l : list A) (x : A) :
  x ∈ List.filter p l <-> x ∈ l /\ p x = true.
Proof.
  split.
  - intros H. apply list_elem_of_In, filter_In in H as [H Hp].
    split; [apply list_elem_of_In, H|exact Hp].
  - intros [H Hp]. apply list_elem_of_In, filter_In.
    split; [apply list_elem_of_In, H|exact Hp].
Qed.

Lemma route_stops_try_served (d : dataset) (route_id : string)
  (route_stops : list stop_json) :
  route_stops_try d route_id = Some route_stops ->
  map sj_row route_stops `sublist_of` stops d /\
  (forall stop,
      stop ∈ map sj_row route_stops <->
      stop ∈ stops d /\
      exists trip st,
        trip ∈ trips d /\ st ∈ stop_times d /\
        get "route_id" trip = Some route_id /\
        get "trip_id" st = get "trip_id" trip /\
        get "stop_id" stop = get "stop_id" st).
Proof.
  unfold route_stops_try.
  destruct (key_set "trip_id" _) as [route_trip_ids|] eqn:Ht;
    cbn [mbind option_bind]; [|discriminate].
  destruct (key_set "stop_id" _) as [route_stop_ids|] eqn:Hs;
    cbn [mbind option_bind]; [|discriminate].
  intros [= <-]. rewrite map_map. cbn [sj_row]. rewrite map_id.
  split; [apply filter_sublist|].
  intros stop. rewrite elem_of_filter_bool, bool_decide_eq_true.
  rewrite (key_set_elem _ _ _ _ Hs).
  split.
  - intros [Hin (st & Hst & Hv)]. split; [exact Hin|].
    apply elem_of_filter_bool in Hst as [Hst Hm].
    apply bool_decide_eq_true in Hm.
    apply (key_set_elem _ _ _ _ Ht) in Hm as (trip & Htrip & Hid).
    apply elem_of_filter_bool in Htrip as [Htrip Hr].
    unfold val_eqb in Hr. apply bool_decide_eq_true in Hr.
    exists trip, st. auto.
  - intros [Hin (trip & st & Htrip & Hst & Hr & Hid & Hv)]. split; [exact Hin|].
    exists st. split; [|auto].
    apply elem_of_filter_bool. split; [exact Hst|].
    apply bool_decide_eq_true. apply (key_set_elem _ _ _ _ Ht).
    exists trip. split; [|auto].
    apply elem_of_filter_bool. split; [exact Htrip|].
    unfold val_eqb. apply bool_decide_eq_true, Hr.
Qed.

Lemma key_set_total (k : string) (rows : list row) :
  Forall (fun r => has k r = true) rows -> is_Some (key_set k rows).
Proof.
  intros H. unfold key_set.
  assert (Hm : is_Some (mapM (fun r : row => r !! k) rows)).
  { apply mapM_is_Some. eapply Forall_impl; [exact H|].
    intros r Hr. unfold has in Hr. apply bool_decide_eq_true in Hr. exact Hr. }
  destruct Hm as [vs ->]. eexists. reflexivity.
Qed.

Lemma Forall_filter_bool {A : Type} (P : A -> Prop) (p : A -> bool) l :
  Forall P l -> Forall P (List.filter p l).
Proof.
  intros H. apply Forall_forall. intros x Hx.
  apply elem_of_filter_bool in Hx as [Hx _].
  rewrite Forall_forall in H. apply H, Hx.
Qed.

(** X28: when every trip has a [trip_id] and every stop-time a
    [stop_id], [get_route_stops] answers for a usable route id with the
    rows of [stops.txt], in file order and each row once, whose stop id is
    that of a stop-time of a trip of the route, and with no other row. *)
Theorem X28_route_stops_served (d : dataset) (route_id : string) :
  invalid_route_id route_id = false ->
  Forall (fun trip => has "trip_id" trip = true) (trips d) ->
  Forall (fun st => has "stop_id" st = true) (stop_times d) ->
  exists route_stops,
    get_route_stops d route_id = Ok route_stops /\
    map sj_row route_stops `sublist_of` stops d /\
    (forall stop,
        stop ∈ map sj_row route_stops <->
        stop ∈ stops d /\
        exists trip st,
          trip ∈ trips d /\ st ∈ stop_times d /\
          get "route_id" trip = Some route_id /\
          get "trip_id" st = get "trip_id" trip /\
          get "stop_id" stop = get "stop_id" st).
Proof.
  intros Hid Htrips Hsts.
  assert (Htry : is_Some (route_stops_try d route_id)).
  { unfold route_stops_try.
    destruct (key_set_total "trip_id"
                (rows_with "route_id" (Some route_id) (trips d))) as [ids ->].
    { apply Forall_filter_bool, Htrips. }
    cbn [mbind option_bind].
    destruct (key_set_total "stop_id"
                (List.filter (fun st => bool_decide (get "trip_id" st ∈ ids))
                   (stop_times d))) as [sids ->].
    { apply Forall_filter_bool, Hsts. }
    cbn [mbind option_bind]. eexists. reflexivity. }
  destruct Htry as [route_stops Htry]. exists route_stops.
  split; [|apply (route_stops_try_served _ _ _ Htry)].
  unfold get_route_stops. rewrite Hid, Htry. reflexivity.
Qed.

Lemma X28_route_stops_served_witness :
  exists route_stops,
    get_route_stops Examples.lookup_data "R1" = Ok route_stops /\
    map sj_row route_stops `sublist_of` stops Examples.lookup_data /\
    (forall stop,
        stop ∈ map sj_row route_stops <->
        stop ∈ stops Examples.lookup_data /\
        exists trip st,
          trip ∈ trips Examples.lookup_data /\
          st ∈ stop_times Examples.lookup_data /\
          get "route_id" trip = Some "R1" /\
          get "trip_id" st = get "trip_id" trip /\
          get "stop_id" stop = get "stop_id" st).
Proof.
  apply (X28_route_stops_served Examples.lookup_data "R1").
  - reflexivity.
  - repeat constructor.
  - repeat constructor.
Defined.
